(** * pynta / rmgcat_to_sella: transition-state candidate generation

    A shallow embedding of [rmgcat_to_sella/ts_test_class.py]: the [TS]
    class ([prepare_react_list], [TS_placer],
    [filtered_out_equiv_ts_estimate], [set_up_penalty_xtb]) and the
    module-level helpers ([gen_xyz_from_traj], [get_av_dist],
    [get_index_adatom], [get_index_surface_atom], [checkSymmBeforeXTB]).

    Conventions of the embedding.
    - A directory is a finite map from file names to entries; the Python
      code only ever joins a directory path with a file name, so a path is
      represented by the map it denotes.
    - Python exceptions are the [Err] branch of [result].
    - Python [float]s (distances, angles, scale factors) are modelled by
      exact rationals [Q]. The quotient [360 / rotAngle] of the placer is
      the float quotient of the source up to rounding, which does not
      change the number of orientations when [rotAngle] is an integer;
      the statements on that number are made for integers.
    - The lines a function prints are returned, in order, beside its
      result ([prepare_react_list], [filtered_out_equiv_ts_estimate],
      [prepare_ts_estimate]).
    - The atomistic libraries (ase, catkit, networkx) are parameters of
      the development: Section variables. *)

From Stdlib Require Import Ascii String QArith Qabs Qround Lqa DecimalString DecimalNat.
From stdpp Require Import gmap strings list fin_maps sorting.

Local Open Scope string_scope.
Local Open Scope list_scope.
Local Open Scope Z_scope.

(** ** Python exceptions *)

Inductive exn : Type :=
| IndexError
| ValueError
| UnboundLocalError
| ZeroDivisionError
| FileNotFoundError
| FileExistsError
| IsADirectoryError
| NotADirectoryError
| DirectoryNotEmpty
| ShutilError
| ReadError.

Inductive result (A : Type) : Type :=
| Ok (a : A)
| Err (e : exn).
Arguments Ok {A} a.
Arguments Err {A} e.

#[global] Instance result_ret : MRet result := fun _ a => Ok a.
#[global] Instance result_bind : MBind result := fun _ _ f m =>
  match m with
  | Ok a => f a
  | Err e => Err e
  end.

(** Left-to-right loop over a list whose body may raise. *)
Fixpoint for_each {A St} (body : St → A → result St) (st : St) (l : list A)
  : result St :=
  match l with
  | [] => Ok st
  | x :: l' => st' ← body st x; for_each body st' l'
  end.

(** ** Python string operations *)

Module Py.

(** [s[n:]] for [n >= 0]. *)
Fixpoint drop (n : nat) (s : string) : string :=
  match n, s with
  | O, _ => s
  | S n', String _ s' => drop n' s'
  | S _, EmptyString => EmptyString
  end.

(** [s[:n]] for [n >= 0]. *)
Fixpoint take (n : nat) (s : string) : string :=
  match n, s with
  | O, _ => EmptyString
  | S n', String c s' => String c (take n' s')
  | S _, EmptyString => EmptyString
  end.

(** [s[:-n]] for [n > 0]. *)
Definition drop_end (n : nat) (s : string) : string :=
  take (String.length s - n) s.

(** [s.startswith(p)] *)
Fixpoint startswith (p s : string) : bool :=
  match p, s with
  | EmptyString, _ => true
  | String a p', String b s' => if Ascii.eqb a b then startswith p' s' else false
  | String _ _, EmptyString => false
  end.

(** [p in s] *)
Fixpoint contains (p s : string) : bool :=
  match s with
  | EmptyString => startswith p EmptyString
  | String _ s' => startswith p s || contains p s'
  end.

(** [s.endswith(p)] *)
Definition endswith (p s : string) : bool :=
  startswith (String.rev p) (String.rev s).

(** [s.split('_')[0]] *)
Fixpoint before_underscore (s : string) : string :=
  match s with
  | EmptyString => EmptyString
  | String c s' =>
      if Ascii.eqb c "_"%char then EmptyString
      else String c (before_underscore s')
  end.

(** [str(n)] for a non-negative integer. *)
Definition str (n : nat) : string :=
  NilZero.string_of_uint (Nat.to_uint n).

Fixpoint zeros (n : nat) : string :=
  match n with
  | O => EmptyString
  | S n' => String "0"%char (zeros n')
  end.

(** [s.zfill(w)] for a string without sign. *)
Definition zfill (w : nat) (s : string) : string :=
  zeros (w - String.length s) +:+ s.

(** [int(s)] on a string of decimal digits. *)
Definition int (s : string) : option nat :=
  match NilZero.uint_of_string s with
  | Some d => Some (Nat.of_uint d)
  | None => None
  end.

(** [sorted(l)] on strings (code-point order). *)
Definition sorted (l : list string) : list string :=
  merge_sort String.le l.

(** [enumerate(l)] *)
Definition enumerate {A} (l : list A) : list (nat * A) :=
  imap (fun i x => (i, x)) l.

End Py.


(** [min(l)]: the first least element; [ValueError] on an empty sequence. *)
Fixpoint Qlist_min (l : list Q) : result Q :=
  match l with
  | [] => Err ValueError
  | x :: l' =>
      match Qlist_min l' with
      | Ok m => Ok (if Qle_bool x m then x else m)
      | Err _ => Ok x
      end
  end.

(** [statistics.mean(l)] on a non-empty list. *)
Definition mean (l : list Q) : Q :=
  (fold_right Qplus (0 # 1) l / inject_Z (Z.of_nat (length l)))%Q.

(** [l[0]] *)
Definition first {A} (l : list A) : result A :=
  match l with
  | [] => Err IndexError
  | x :: _ => Ok x
  end.

(** [l[i]] for [i >= 0]. *)
Definition item {A} (i : nat) (l : list A) : result A :=
  match l !! i with
  | Some x => Ok x
  | None => Err IndexError
  end.

(** The value a function returns, without the file-system state that the
    embedding threads along with it. *)
Definition returned {A B} (r : result (A * B)) : result A :=
  match r with
  | Ok (a, _) => Ok a
  | Err e => Err e
  end.

(** ** The atomistic libraries (ase, catkit, networkx) as an interface *)

Inductive axis : Type := AxisX | AxisY | AxisZ.

Class Chem : Type := {
  (** [ase.Atoms] / [catkit.Gratoms] *)
  Atoms : Type;
  (** bond lists returned by [rmgcat_to_gratoms] *)
  Bonds : Type;
  (** [str(atoms.symbols)] *)
  symbols : Atoms → string;
  (** [atoms.get_chemical_formula()] *)
  get_chemical_formula : Atoms → string;
  (** [len(atoms.get_tags())] *)
  n_tags : Atoms → nat;
  (** [atoms.get_distance(a, b)] *)
  get_distance : Atoms → Z → Z → Q;
  (** [atoms.get_distances(a, indices)] *)
  get_distances : Atoms → Z → list Z → result (list Q);
  (** [atoms.rotate(angle, axis)] *)
  rotate : Q → axis → Atoms → Atoms;
  (** [atoms.set_distance(a, b, d, fix=f, indices=ix)] *)
  set_distance : Z → Z → Q → Z → option (list Z) → Atoms → Atoms;
  (** [atoms.set_angle(a, b, c, angle, indices=ix, add=True)] *)
  set_angle : Z → Z → Z → Q → list Z → Atoms → Atoms;
  (** [catkit.build.molecule(name)] *)
  molecule : string → list Atoms;
  (** [get_3D_positions(species)] *)
  get_3D_positions : Atoms → Atoms;
  (** [nx.is_isomorphic(a.graph, b.graph, node_test)] *)
  is_isomorphic : Atoms → Atoms → bool;
  (** [Builder(grslab).add_adsorbate(frag, bonds, -1, auto_construct=False)]
      for the [grslab] built from the slab and its [get_edges]. *)
  add_adsorbate : Atoms → Atoms → list Z → list Atoms;
  (** [slab * repeats + struc[len(slab):]] *)
  big_slab_ads : Atoms → Z * Z * Z → Atoms → Atoms;
  (** the lines [readlines()] returns for the .xyz file of a structure *)
  xyz_lines : Atoms → list string;
  (** [atoms.pbc = True] *)
  set_pbc : Atoms → Atoms;
  (** [SymmetryEquivalenceCheck().compare(a, b)] on two structures *)
  symm_equiv : Atoms → Atoms → bool;
}.

(** [SymmetryEquivalenceCheck().compare(s1, s2)] with a list [s2]: true as
    soon as [s1] is equivalent to one of its structures. *)
Definition compare `{Chem} (s1 : Atoms) (s2 : list Atoms) : bool :=
  existsb (symm_equiv s1) s2.

(** ** Files and directories *)

(** The fields [pytemplate.format] substitutes into a job file. *)
Record Job : Type := {
  job_template : string;
  job_geom : string;
  job_bonds : list (Z * Z);
  job_avDists : Q * Q;
  job_trajPath : string;
  job_repeats : Z * Z * Z;
  job_prefix : string;
  job_geomName : string;
  job_slabopt : string;
}.

Inductive File `{Chem} : Type :=
| Structure (a : Atoms)   (* .xyz and .traj files *)
| Image (a : Atoms)       (* .png rendering *)
| Script (j : Job).       (* .py job file *)

Inductive Entry `{Chem} : Type :=
| EFile (f : File)
| EDir (d : gmap string File).

(** [os.listdir(d)] *)
Definition listdir {A} (d : gmap string A) : list string :=
  elements (dom d).

(** [ase.io.read(path)] of a file *)
Definition read_file `{Chem} (f : File) : result Atoms :=
  match f with
  | Structure a => Ok a
  | _ => Err ReadError
  end.

Definition read_in `{Chem} (d : gmap string File) (name : string) : result Atoms :=
  match d !! name with
  | Some f => read_file f
  | None => Err FileNotFoundError
  end.

Definition read `{Chem} (d : gmap string Entry) (name : string) : result Atoms :=
  match d !! name with
  | Some (EFile f) => read_file f
  | Some (EDir _) => Err IsADirectoryError
  | None => Err FileNotFoundError
  end.

(** [open(path).readlines()] of a structure file *)
Definition readlines `{Chem} (d : gmap string Entry) (name : string)
  : result (list string) :=
  a ← read d name; Ok (xyz_lines a).

(** [os.remove(path)] *)
Definition os_remove `{Chem} (d : gmap string Entry) (name : string)
  : result (gmap string Entry) :=
  match d !! name with
  | Some (EFile _) => Ok (delete name d)
  | Some (EDir _) => Err IsADirectoryError
  | None => Err FileNotFoundError
  end.

(** [os.rename(old, new)] inside one directory (POSIX semantics). *)
Definition os_rename `{Chem} (d : gmap string Entry) (old new : string)
  : result (gmap string Entry) :=
  match d !! old with
  | None => Err FileNotFoundError
  | Some e =>
      if decide (old = new) then Ok d
      else match e, d !! new with
           | EFile _, Some (EDir _) => Err IsADirectoryError
           | EDir _, Some (EFile _) => Err NotADirectoryError
           | EDir _, Some (EDir d') =>
               if decide (d' = ∅) then Ok (<[new := e]> (delete old d))
               else Err DirectoryNotEmpty
           | _, _ => Ok (<[new := e]> (delete old d))
           end
  end.

(** [os.makedirs(path, exist_ok=True)] for a direct child. *)
Definition os_makedirs `{Chem} (d : gmap string Entry) (name : string)
  : result (gmap string Entry) :=
  match d !! name with
  | None => Ok (<[name := EDir ∅]> d)
  | Some (EDir _) => Ok d
  | Some (EFile _) => Err FileExistsError
  end.

(** Writing a file [name] into the sub-directory [sub]. *)
Definition write_in `{Chem} (d : gmap string Entry) (sub name : string) (f : File)
  : result (gmap string Entry) :=
  match d !! sub with
  | Some (EDir c) => Ok (<[sub := EDir (<[name := f]> c)]> d)
  | Some (EFile _) => Err NotADirectoryError
  | None => Err FileNotFoundError
  end.

(** [shutil.move(path/name, path/sub)] where [sub] is a directory. *)
Definition shutil_move `{Chem} (d : gmap string Entry) (name sub : string)
  : result (gmap string Entry) :=
  match d !! name, d !! sub with
  | Some (EFile f), Some (EDir c) =>
      match c !! name with
      | Some _ => Err ShutilError
      | None => Ok (<[sub := EDir (<[name := f]> c)]> (delete name d))
      end
  | None, _ => Err FileNotFoundError
  | _, _ => Err ShutilError
  end.

(** ** Module-level helpers of ts_test_class.py *)

Section Helpers.
Context `{Chem}.

(** [if len(ads_atom) > 1: ads_atom = ads_atom[:1]] *)
Definition first_char (ads_atom : string) : string :=
  if (1 <? String.length ads_atom)%nat then Py.take 1 ads_atom else ads_atom.

(** Lines 344-347 of [get_av_dist]. *)
Definition av_dist_symbol (species : string) : string :=
  let species :=
    if bool_decide (species ∈ ["CH3O"; "CH2O"]) then "O" else species in
  first_char species.

(** The text scan of [get_index_adatom] (lines 421-424). *)
Definition scan_adatom (ads_atom : string) (xyz_geom_file : list string)
  : list Z :=
  fold_left
    (fun adsorbate_atom '(num, line) =>
       if Py.contains ads_atom line then
         if negb (Py.contains "Cu" line)
         then adsorbate_atom ++ [Z.of_nat num - 2]
         else adsorbate_atom
       else adsorbate_atom)
    (Py.enumerate xyz_geom_file) [].

Definition get_index_adatom (ads_atom : string)
    (d : gmap string Entry) (geom : string) : result Z :=
  let ads_atom := first_char ads_atom in
  xyz_geom_file ← readlines d geom;
  let adsorbate_atom := scan_adatom ads_atom xyz_geom_file in
  first adsorbate_atom.

(** The text scan shared by [get_index_surface_atom] (lines 439-444) and
    [get_av_dist] (lines 360-367); the two index lists are passed in
    because [get_av_dist] carries them from one file to the next. *)
Definition scan_surface (ads_atom : string) (xyz_geom_file : list string)
    (surface_atom adsorbate_atom : list Z) : list Z * list Z :=
  fold_left
    (fun '(surface_atom, adsorbate_atom) '(num, line) =>
       if Py.contains "Cu " line
       then (surface_atom ++ [Z.of_nat num - 2], adsorbate_atom)
       else if Py.contains ads_atom line && negb (Py.contains "Cu" line)
            then (surface_atom, adsorbate_atom ++ [Z.of_nat num - 2])
            else (surface_atom, adsorbate_atom))
    (Py.enumerate xyz_geom_file) (surface_atom, adsorbate_atom).

(** [np.where(all == m)[0][0]] *)
Fixpoint where_first (all : list Q) (m : Q) : result nat :=
  match all with
  | [] => Err IndexError
  | x :: all' =>
      if Qeq_bool x m then Ok O
      else i ← where_first all' m; Ok (S i)
  end.

Definition get_index_surface_atom (ads_atom : string)
    (d : gmap string Entry) (geom : string) : result Z :=
  let ads_atom := first_char ads_atom in
  struc ← read d geom;
  xyz_geom_file ← readlines d geom;
  let '(surface_atom, adsorbate_atom) :=
    scan_surface ads_atom xyz_geom_file [] [] in
  a0 ← first adsorbate_atom;
  all_dist_surface_adsorbate ← get_distances struc a0 surface_atom;
  a0' ← first adsorbate_atom;
  dists ← get_distances struc a0' surface_atom;
  min_dist_surface_adsorbate ← Qlist_min dists;
  index ← where_first all_dist_surface_adsorbate min_dist_surface_adsorbate;
  item index surface_atom.

(** [gen_xyz_from_traj]: every trajectory of the species directory gets a
    [_final.xyz] companion. *)
Definition gen_xyz_from_traj (avDistPath : gmap string (gmap string File))
    (species : string) : result (gmap string (gmap string File)) :=
  match avDistPath !! species with
  | None => Err FileNotFoundError
  | Some speciesPath =>
      speciesPath' ←
        for_each
          (fun (dir : gmap string File) traj =>
             if Py.endswith ".traj" traj then
               a ← read_in dir traj;
               Ok (<[Py.drop_end 5 traj +:+ "_final.xyz" := Structure a]> dir)
             else Ok dir)
          speciesPath (Py.sorted (listdir speciesPath));
      Ok (<[species := speciesPath']> avDistPath)
  end.

(** Loop state of [get_av_dist]: the two index lists, the distances seen
    so far and [meanDist] ([None] while the name is unbound). *)
Record av_state : Type := {
  surface_atoms_indices : list Z;
  adsorbate_atoms_indices : list Z;
  all_conf_dist : list Q;
  meanDist : option Q;
}.

Definition av_dist_body (speciesPath : gmap string File) (species : string)
    (scfactor_surface : Q) (scaled : bool) (st : av_state) (xyz : string)
  : result av_state :=
  if Py.endswith "_final.xyz" xyz then
    conf ← read_in speciesPath xyz;
    let xyzFile := xyz_lines conf in
    let '(surf, ads) :=
      scan_surface species xyzFile
        (surface_atoms_indices st) (adsorbate_atoms_indices st) in
    a0 ← first ads;
    ds ← get_distances conf a0 surf;
    dist ← Qlist_min ds;
    let all := all_conf_dist st ++ [dist] in
    Ok {| surface_atoms_indices := surf;
          adsorbate_atoms_indices := ads;
          all_conf_dist := all;
          meanDist := Some (if scaled then (mean all * scfactor_surface)%Q
                            else mean all) |}
  else Ok st.

Definition get_av_dist (avDistPath : gmap string (gmap string File))
    (species : string) (scfactor_surface : Q) (scaled : bool)
  : result (Q * gmap string (gmap string File)) :=
  avDistPath' ← gen_xyz_from_traj avDistPath species;
  match avDistPath' !! species with
  | None => Err FileNotFoundError
  | Some speciesPath =>
      let species := av_dist_symbol species in
      st ← for_each (av_dist_body speciesPath species scfactor_surface scaled)
             {| surface_atoms_indices := []; adsorbate_atoms_indices := [];
                all_conf_dist := []; meanDist := None |}
             (Py.sorted (listdir speciesPath));
      match meanDist st with
      | Some m => Ok (m, avDistPath')
      | None => Err UnboundLocalError
      end
  end.

(** The first loop of [checkSymmBeforeXTB] (lines 481-488). *)
Definition symm_body (d : gmap string Entry)
    (st : list Atoms * list bool) (geom : string)
  : result (list Atoms * list bool) :=
  let '(good_adsorbate, result_list) := st in
  adsorbed ← read d geom;
  let adsorbed := set_pbc adsorbed in
  let result := compare adsorbed good_adsorbate in
  Ok (if result then good_adsorbate else good_adsorbate ++ [adsorbed],
      result_list ++ [result]).

(** The second loop (lines 489-493). *)
Definition notunique_of (result_list : list bool) : list string :=
  fold_left
    (fun notunique_index '(num, res) =>
       if res : bool then notunique_index ++ [Py.zfill 3 (Py.str num)]
       else notunique_index)
    (Py.enumerate result_list) [].

Definition geomlist (d : gmap string Entry) : list string :=
  Py.sorted (filter (fun n => Py.endswith ".xyz" n = true) (listdir d)).

Definition checkSymmBeforeXTB (d : gmap string Entry) : result (list string) :=
  '(_, result_list) ← for_each (symm_body d) ([], []) (geomlist d);
  Ok (notunique_of result_list).

End Helpers.

(** ** The [TS] class *)

Section TSClass.
Context `{Chem}.

(** One entry of the reaction document after [yaml.safe_load] and
    [rmgcat_to_gratoms]. *)
Record Reaction : Type := {
  reactants : list Atoms;
  rbonds : list Bonds;
  products : list Atoms;
  pbonds : list Bonds;
}.

Record TS : Type := {
  slab : Atoms;
  repeats : Z * Z * Z;
  yamlfile : list Reaction;
  facetpath : string;
  rotAngle : Q;
  scfactor : Q;
  scfactor_surface : Q;
  scaled1 : bool;
  scaled2 : bool;
}.

(** ['+'.join(l)] *)
Fixpoint join_plus (l : list string) : string :=
  match l with
  | [] => ""
  | [x] => x
  | x :: l' => x +:+ "+" +:+ join_plus l'
  end.

(** Lines 106-113: species not isomorphic to an earlier one. *)
Definition unique_images (speciesInd : list Atoms) (bonds : list Bonds)
  : list Atoms * list Atoms * list Bonds :=
  fold_left
    (fun '(images, unique_species, unique_bonds) '(species1, bond) =>
       if existsb (fun species2 => is_isomorphic species1 species2)
            unique_species
       then (images, unique_species, unique_bonds)
       else (images ++ [get_3D_positions species1],
             unique_species ++ [species1],
             unique_bonds ++ [bond]))
    (zip speciesInd bonds) ([], [], []).

(** Lines 120-125. *)
Definition choose_rpDir (r_name_list p_name_list : list string) : string :=
  if (length r_name_list <? length p_name_list)%nat
  then "reactants" else "products".

(** Lines 121 and 124: the line printed with that choice. *)
Definition announce_rpDir (r_name_list p_name_list : list string) : string :=
  if (length r_name_list <? length p_name_list)%nat
  then "Reactant structure will be used to estimate TS"
  else "Products will be used to estimate TS".

(** [prepare_react_list]: the returned tuple and the lines printed. The
    minima look-ups ([r_unique], [p_unique]) do not reach the returned
    tuple and are left out. After the first loop [reactants] and
    [products] are those of the last reaction. *)
Definition prepare_react_list (self : TS)
  : result (string * string * list string * list string * list Atoms
            * list string) :=
  let reactions := yamlfile self in
  let speciesInd := flat_map (fun rxn => reactants rxn ++ products rxn) reactions in
  let bonds := flat_map (fun rxn => rbonds rxn ++ pbonds rxn) reactions in
  match last reactions with
  | None => Err UnboundLocalError
  | Some rxn =>
      let r_name := join_plus (map symbols (reactants rxn)) in
      let p_name := join_plus (map symbols (products rxn)) in
      let rxn_name := r_name +:+ "_" +:+ p_name in
      let '(images, _, _) := unique_images speciesInd bonds in
      let r_name_list := map symbols (reactants rxn) in
      let p_name_list := map symbols (products rxn) in
      let stdout := [announce_rpDir r_name_list p_name_list] in
      let rpDir := choose_rpDir r_name_list p_name_list in
      Ok (rxn_name, rpDir, r_name_list, p_name_list, images, stdout)
  end.

(** Lines 142-148 of [TS_placer]: the fragment that is placed. *)
Definition choose_TS_candidate (r_name_list p_name_list : list string)
    (images : list Atoms) : result Atoms :=
  if (length r_name_list <=? length p_name_list)%nat then
    name ← first r_name_list;
    first (molecule name)
  else
    item 2 images.

(** Lines 137-170: the per-formula atom indices. *)
Record Rule : Type := {
  atom0 : option Z;
  atom1 : Z;
  atom2 : Z;
  bondedThrough : list Z;
}.

Definition placement_rule (formula : string) : Rule :=
  if String.eqb formula "CHO" then
    {| atom0 := None; atom1 := 0; atom2 := 2; bondedThrough := [0] |}
  else if String.eqb formula "COH" then
    {| atom0 := None; atom1 := 0; atom2 := 2; bondedThrough := [0] |}
  else if String.eqb formula "CHO2" then
    {| atom0 := None; atom1 := 0; atom2 := 1; bondedThrough := [2] |}
  else if String.eqb formula "C2H5O2" then
    {| atom0 := Some 0; atom1 := 1; atom2 := 5; bondedThrough := [6] |}
  else
    {| atom0 := None; atom1 := 0; atom2 := 1; bondedThrough := [0] |}.

(** Lines 172-197: the rigid reorientation of the fragment. *)
Definition orient_TS_candidate (self : TS) (TS_candidate : Atoms) (rule : Rule)
  : result Atoms :=
  let formula := get_chemical_formula TS_candidate in
  let bondlen := get_distance TS_candidate (atom1 rule) (atom2 rule) in
  let target := (bondlen * scfactor self)%Q in
  if (n_tags TS_candidate <? 3)%nat then
    Ok (set_distance (atom1 rule) (atom2 rule) target 0 None
          (rotate (90 # 1) AxisY TS_candidate))
  else if (n_tags TS_candidate =? 3)%nat then
    Ok (set_distance (atom1 rule) (atom2 rule) target 0 None
          (rotate (90 # 1) AxisZ TS_candidate))
  else if String.eqb formula "C2H5O2" then
    match atom0 rule with
    | None => Err UnboundLocalError
    | Some a0 =>
        Ok (set_distance (atom1 rule) (atom2 rule) target 1 (Some [0; 1; 2; 3; 4])
              (set_angle (atom2 rule) (atom1 rule) a0 (-45 # 1) [0; 1; 2; 3; 4]
                 (rotate (90 # 1) AxisZ TS_candidate)))
    end
  else if String.eqb formula "CHO2" then
    Ok (set_distance (atom1 rule) (atom2 rule) target 0 None
          (rotate (90 # 1) AxisZ TS_candidate))
  else Ok TS_candidate.

(** [ase.io.write(path, atoms)] of an .xyz file: the file is opened for
    writing, which replaces a regular file and fails on a directory. *)
Definition write_xyz (d : gmap string Entry) (name : string) (a : Atoms)
  : result (gmap string Entry) :=
  match d !! name with
  | Some (EDir _) => Err IsADirectoryError
  | _ => Ok (<[name := EFile (Structure a)]> d)
  end.

(** Lines 219-222: one file per site of the current orientation. *)
Definition write_structs (self : TS) (rxn_name : string) (count : Z)
    (structs : list Atoms) (d : gmap string Entry)
  : result (gmap string Entry) :=
  for_each
    (fun d '(i, struc) =>
       write_xyz d
         (Py.zfill 3 (Py.str (Z.to_nat (Z.of_nat i + Z.of_nat (length structs) * count)))
            +:+ "_" +:+ rxn_name +:+ ".xyz")
         (big_slab_ads (slab self) (repeats self) struc))
    d (Py.enumerate structs).

(** Lines 213-225: [while count <= possibleRotations]. [Ok None] when the
    fuel runs out before the loop condition fails. The quotient
    [360 / rotAngle] is taken in [Q]. For an integer [rotAngle] the float
    quotient of the source has the same floor, so the loop condition holds
    for the same values of [count]; for a [rotAngle] that is not an
    integer the rounded quotient of the source may differ, and the
    statements on the number of turns are made for integers only. *)
Fixpoint placer_loop (fuel : nat) (self : TS) (rxn_name : string)
    (bondedThrough : list Z) (possibleRotations : Q)
    (count : Z) (TS_candidate : Atoms) (d : gmap string Entry)
  : result (option (gmap string Entry)) :=
  match fuel with
  | O => Ok None
  | S fuel' =>
      if Qle_bool (inject_Z count) possibleRotations then
        let structs := add_adsorbate (slab self) TS_candidate bondedThrough in
        d' ← write_structs self rxn_name count structs d;
        placer_loop fuel' self rxn_name bondedThrough possibleRotations
          (count + 1) (rotate (rotAngle self) AxisZ TS_candidate) d'
      else Ok (Some d)
  end.

Definition TS_placer (fuel : nat) (self : TS)
    (ts_estimate_path : gmap string Entry) (rxn_name : string)
    (r_name_list p_name_list : list string) (images : list Atoms)
  : result (option (gmap string Entry)) :=
  TS_candidate ← choose_TS_candidate r_name_list p_name_list images;
  let rule := placement_rule (get_chemical_formula TS_candidate) in
  TS_candidate ← orient_TS_candidate self TS_candidate rule;
  if Qeq_bool (rotAngle self) (0 # 1) then Err ZeroDivisionError
  else
    let possibleRotations := (inject_Z 360 / rotAngle self - inject_Z 1)%Q in
    placer_loop fuel self rxn_name (bondedThrough rule)
      possibleRotations 0 TS_candidate ts_estimate_path.

(** Lines 231-237: deletion of the duplicates; a failing [os.remove] is
    printed and the loop goes on. *)
Definition remove_duplicates (rxn_name : string)
    (filtered_equivalen_sites : list string) (d : gmap string Entry)
  : gmap string Entry * list string :=
  fold_left
    (fun '(d, stdout) eqsites =>
       let fileToRemove := eqsites +:+ "_" +:+ rxn_name +:+ ".xyz" in
       match os_remove d fileToRemove with
       | Ok d' => (d', stdout)
       | Err _ => (d, stdout ++ ["Error while deleting file :  " +:+ fileToRemove])
       end)
    filtered_equivalen_sites (d, []).

(** Lines 239-243: the renumbering pass. *)
Definition renumber (d : gmap string Entry) : result (gmap string Entry) :=
  for_each
    (fun d '(prefix, noneqsites) =>
       let prefix := Py.zfill 3 (Py.str prefix) in
       os_rename d noneqsites (prefix +:+ Py.drop 3 noneqsites))
    d (Py.enumerate (Py.sorted (listdir d))).

Definition filtered_out_equiv_ts_estimate
    (ts_estimate_path : gmap string Entry) (rxn_name : string)
  : result (gmap string Entry * list string) :=
  filtered_equivalen_sites ← checkSymmBeforeXTB ts_estimate_path;
  let '(d, stdout) :=
    remove_duplicates rxn_name filtered_equivalen_sites ts_estimate_path in
  d' ← renumber d;
  Ok (d', stdout).

(** [prepare_ts_estimate]: the output directory is removed and created
    anew, so the placer starts from an empty directory. The result is the
    directory the call leaves and the lines it printed, in order. *)
Definition prepare_ts_estimate (fuel : nat) (self : TS)
  : result (option (gmap string Entry * list string)) :=
  let ts_estimate_path : gmap string Entry := ∅ in
  '(rxn_name, rpDir, r_name_list, p_name_list, images, stdout) ←
    prepare_react_list self;
  placed ← TS_placer fuel self ts_estimate_path rxn_name r_name_list p_name_list images;
  match placed with
  | None => Ok None
  | Some d =>
      '(d', stdout') ← filtered_out_equiv_ts_estimate d rxn_name;
      Ok (Some (d', stdout ++ stdout'))
  end.

End TSClass.

(** ** The Penalty-Job Emitter *)

Section Penalty.
Context `{Chem}.

(** Lines 586-590: the restraint bonds of one candidate. *)
Definition restraint_bonds (species_list : list string)
    (d : gmap string Entry) (geom : string) : result (list (Z * Z)) :=
  for_each
    (fun bonds species =>
       sp_index ← get_index_adatom species d geom;
       Cu_index ← get_index_surface_atom species d geom;
       Ok (bonds ++ [(sp_index, Cu_index)]))
    [] species_list.

(** Lines 582-620: the body of the candidate loop. [avDist1] and
    [avDist2] are the values bound before the loop. *)
Definition penalty_body (pytemplate : string) (repeats : Z * Z * Z)
    (slabopt : string) (species_list : list string) (avDist1 avDist2 : Q)
    (d : gmap string Entry) (geom : string) : result (gmap string Entry) :=
  if Py.endswith ".xyz" geom then
    bonds ← restraint_bonds species_list d geom;
    let prefix0 := Py.before_underscore geom in
    d ← os_makedirs d prefix0;
    let geomName := Py.drop_end 4 geom in
    let avDists := (avDist1, avDist2) in
    let trajPath := Py.drop_end 4 geom +:+ ".traj" in
    a ← read d geom;
    d ← write_in d prefix0 (Py.drop_end 4 geom +:+ "_initial.png") (Image a);
    d ← write_in d prefix0 (Py.drop_end 4 geom +:+ ".py")
          (Script {| job_template := pytemplate; job_geom := geom;
                     job_bonds := bonds; job_avDists := avDists;
                     job_trajPath := trajPath; job_repeats := repeats;
                     job_prefix := prefix0; job_geomName := geomName;
                     job_slabopt := slabopt |});
    shutil_move d geom prefix0
  else Ok d.

(** Lines 623-627: [shutil.rmtree(path/initial_png)], a missing
    directory being ignored. *)
Definition remove_initial_png (d : gmap string Entry)
  : result (gmap string Entry) :=
  match d !! "initial_png" with
  | Some (EDir _) => Ok (delete "initial_png" d)
  | Some (EFile _) => Err NotADirectoryError
  | None => Ok d
  end.

(** The module-level [set_up_penalty_xtb]. [avPath] is the [minima]
    directory next to [path]; [pytemplate] is the text of the template. *)
Definition set_up_penalty_xtb
    (avPath : gmap string (gmap string File)) (path : gmap string Entry)
    (pytemplate : string) (repeats : Z * Z * Z) (slabopt : string)
    (species_list : list string) (scfactor_surface : Q)
    (scaled1 scaled2 : bool)
  : result (gmap string (gmap string File) * gmap string Entry) :=
  species0 ← item 0 species_list;
  '(avDist1, avPath) ← get_av_dist avPath species0 scfactor_surface scaled1;
  species1 ← item 1 species_list;
  '(avDist2, avPath) ← get_av_dist avPath species1 scfactor_surface scaled2;
  d ← for_each
        (penalty_body pytemplate repeats slabopt species_list avDist1 avDist2)
        path (Py.sorted (listdir path));
  d ← remove_initial_png d;
  Ok (avPath, d).

(** The method [TS.set_up_penalty_xtb]: the same body, with [repeats],
    [scfactor_surface], [scaled1] and [scaled2] read from [self]. *)
Definition TS_set_up_penalty_xtb (self : TS)
    (avPath : gmap string (gmap string File))
    (ts_estimate_path : gmap string Entry)
    (pytemplate : string) (slabopt : string) (species_list : list string)
  : result (gmap string (gmap string File) * gmap string Entry) :=
  set_up_penalty_xtb avPath ts_estimate_path pytemplate (repeats self)
    slabopt species_list (scfactor_surface self) (scaled1 self) (scaled2 self).

(** [j] is the content of a job file in a per-candidate sub-directory. *)
Definition has_job (d : gmap string Entry) (j : Job) : Prop :=
  ∃ sub c name, d !! sub = Some (EDir c) ∧ c !! name = Some (Script j).

End Penalty.

(** ** What the specification says [get_av_dist] computes

    Written from the specification's words, to be compared with
    [get_av_dist]: per reference structure, the minimum distance from the
    first matching fragment atom of that structure to the surface atoms of
    that structure; then the mean over the structures, scaled on request. *)

Section AvDistSpec.
Context `{Chem}.

Definition structure_min_dist (species : string) (conf : Atoms) : result Q :=
  let '(surf, ads) := scan_surface species (xyz_lines conf) [] [] in
  a0 ← first ads;
  ds ← get_distances conf a0 surf;
  Qlist_min ds.

Definition av_dist_spec (references : list Atoms) (species : string)
    (scfactor_surface : Q) (scaled : bool) : result Q :=
  dists ← for_each
            (fun acc conf => dist ← structure_min_dist species conf; Ok (acc ++ [dist]))
            [] references;
  match dists with
  | [] => Err UnboundLocalError
  | _ => Ok (if scaled then (mean dists * scfactor_surface)%Q else mean dists)
  end.

End AvDistSpec.

(** ** A small concrete instance of the interface

    Atoms sit on a line (one coordinate each), so distances are exact
    rationals; a structure carries its .xyz text, a name and a symmetry
    class. Used to run the model on concrete inputs. *)

Module Demo.

Record atoms : Type := {
  a_name : string;
  a_class : string;
  a_lines : list string;
  a_pos : list Q;
}.

(** numpy indexing: negative indices count from the end. *)
Definition pos_at (a : atoms) (i : Z) : result Q :=
  let n := Z.of_nat (length (a_pos a)) in
  let j := if i <? 0 then i + n else i in
  if (j <? 0) || (n <=? j) then Err IndexError
  else item (Z.to_nat j) (a_pos a).

Definition Qdist (x y : Q) : Q := Qred (Qabs (x - y)).

Definition distances (a : atoms) (i : Z) (ix : list Z) : result (list Q) :=
  x ← pos_at a i;
  for_each (fun acc j => y ← pos_at a j; Ok (acc ++ [Qdist x y])) [] ix.

Definition rename_atoms (f : string → string) (a : atoms) : atoms :=
  {| a_name := f (a_name a); a_class := a_class a;
     a_lines := a_lines a; a_pos := a_pos a |}.

Definition mk (name : string) : atoms :=
  {| a_name := name; a_class := name; a_lines := []; a_pos := [] |}.

(** Two adsorption sites per orientation. *)
Definition two_sites (s frag : atoms) (_ : list Z) : list atoms :=
  [rename_atoms (fun n => n +:+ "@top") frag;
   rename_atoms (fun n => n +:+ "@hollow") frag].

Definition chem (sites : atoms → atoms → list Z → list atoms) : Chem := {|
  Atoms := atoms;
  Bonds := unit;
  symbols := a_name;
  get_chemical_formula := a_name;
  n_tags := fun a => length (a_pos a);
  get_distance := fun _ _ _ => 1 # 1;
  get_distances := distances;
  rotate := fun _ ax => rename_atoms (fun n =>
              match ax with AxisZ => n +:+ "'" | _ => n end);
  set_distance := fun _ _ _ _ _ a => a;
  set_angle := fun _ _ _ _ _ a => a;
  molecule := fun name => [mk ("molecule:" +:+ name)];
  get_3D_positions := rename_atoms (fun n => "image:" +:+ n);
  is_isomorphic := fun a b => String.eqb (a_name a) (a_name b);
  add_adsorbate := sites;
  big_slab_ads := fun _ _ a => a;
  xyz_lines := a_lines;
  set_pbc := fun a => a;
  symm_equiv := fun a b => String.eqb (a_class a) (a_class b);
|}.

Definition lib : Chem := chem two_sites.

Definition xyz (a : atoms) : @Entry lib := @EFile lib (@Structure lib a).

Definition geometry (name : string) (lines : list string) (pos : list Q) : atoms :=
  {| a_name := name; a_class := name; a_lines := lines; a_pos := pos |}.

(** Methoxy on a copper atom: atom 0 is Cu, atom 1 is O, atom 2 is C. *)
Definition methoxy : atoms :=
  geometry "CH3O"
    ["6"; "Properties=species:S:1:pos:R:3 pbc=T T F";
     "Cu 0.0 0.0 0.0"; "O 0.0 0.0 2.0"; "C 0.0 0.0 3.0";
     "H 0.0 0.0 4.0"; "H 0.0 0.0 5.0"; "H 0.0 0.0 6.0"]
    [0 # 1; 2 # 1; 3 # 1; 4 # 1; 5 # 1; 6 # 1].

Definition methoxy_dir : gmap string (@Entry lib) :=
  {[ "000_CH3O_CH2O+H.xyz" := xyz methoxy ]}.

(** A bare slab: no adsorbate line at all. *)
Definition bare : atoms :=
  geometry "Cu2"
    ["2"; "Properties=species:S:1:pos:R:3 pbc=T T F";
     "Cu 0.0 0.0 0.0"; "Cu 0.0 0.0 2.5"]
    [0 # 1; 5 # 2].

Definition bare_dir : gmap string (@Entry lib) :=
  {[ "000_H_H.xyz" := xyz bare ]}.


(** Two reference minima of adsorbed oxygen whose atoms are listed in a
    different order: O first in one file, Cu first in the other. *)
Definition ref_O_first : atoms :=
  geometry "O/Cu a"
    ["2"; "Properties=species:S:1:pos:R:3 pbc=T T F";
     "O 0.0 0.0 1.0"; "Cu 0.0 0.0 0.0"]
    [1 # 1; 0 # 1].

Definition ref_Cu_first : atoms :=
  geometry "O/Cu b"
    ["2"; "Properties=species:S:1:pos:R:3 pbc=T T F";
     "Cu 0.0 0.0 0.0"; "O 0.0 0.0 3.0"]
    [0 # 1; 3 # 1].

Definition minima_O : gmap string (gmap string (@File lib)) :=
  {[ "O" := {[ "00.traj" := @Structure lib ref_O_first;
               "01.traj" := @Structure lib ref_Cu_first ]} ]}.

(** Minima of O and H with the usual layout (slab first). *)
Definition ref_H : atoms :=
  geometry "H/Cu"
    ["2"; "Properties=species:S:1:pos:R:3 pbc=T T F";
     "Cu 0.0 0.0 0.0"; "H 0.0 0.0 1.5"]
    [0 # 1; 3 # 2].

Definition minima_OH : gmap string (gmap string (@File lib)) :=
  {[ "O" := {[ "00.traj" := @Structure lib ref_Cu_first ]};
     "H" := {[ "00.traj" := @Structure lib ref_H ]} ]}.

(** Two candidates of OH on a two-atom slab. *)
Definition candidate (name : string) (zO zH : Q) : atoms :=
  geometry name
    ["4"; "Properties=species:S:1:pos:R:3 pbc=T T F";
     "Cu 0.0 0.0 0.0"; "Cu 0.0 0.0 2.5"; "O 0.0 0.0 z"; "H 0.0 0.0 z"]
    [0 # 1; 5 # 2; zO; zH].

Definition candidates_dir : gmap string (@Entry lib) :=
  {[ "000_OH_O+H.xyz" := xyz (candidate "c0" (4 # 1) (5 # 1));
     "001_OH_O+H.xyz" := xyz (candidate "c1" (1 # 1) (-1 # 1)) ]}.

Definition penalty_run :=
  @set_up_penalty_xtb lib minima_OH candidates_dir "template" (3, 3, 1)
    "slab_opt.xyz" ["O"; "H"] (11 # 10) true false.

Definition penalty_out :
    gmap string (gmap string (@File lib)) * gmap string (@Entry lib) :=
  match penalty_run with
  | Ok out => out
  | Err _ => (∅, ∅)
  end.

(** The job files below a directory: sub-directory, file name, bonds and
    target distances. *)
(** Three candidates: the second is symmetry-equivalent to the first. *)
Definition in_class (name cls : string) : atoms :=
  {| a_name := name; a_class := cls; a_lines := []; a_pos := [] |}.

Definition dedup_structs : list atoms :=
  [in_class "c0" "top"; in_class "c1" "top"; in_class "c2" "hollow"].

Definition dedup_dir : gmap string (@Entry lib) :=
  {[ "000_OH_O+H.xyz" := xyz (in_class "c0" "top");
     "001_OH_O+H.xyz" := xyz (in_class "c1" "top");
     "002_OH_O+H.xyz" := xyz (in_class "c2" "hollow") ]}.

(** A directory with gaps in its numbering; all three structures are
    equivalent, so positions 1 and 2 are reported as duplicates although
    no file carries the prefix 001 or 002. *)
Definition gap_dir : gmap string (@Entry lib) :=
  {[ "000_OH_O+H.xyz" := xyz (in_class "c0" "top");
     "005_OH_O+H.xyz" := xyz (in_class "c5" "top");
     "007_OH_O+H.xyz" := xyz (in_class "c7" "top") ]}.

(** File names (sorted) and printed lines of a finished clean-up. *)
Definition listing_and_log
    (r : result (gmap string (@Entry lib) * list string))
  : result (list string * list string) :=
  match r with
  | Ok (d, stdout) => Ok (Py.sorted (listdir d), stdout)
  | Err e => Err e
  end.

(** A placer with a rotation increment of 100 degrees. *)
Definition self_100 : @TS lib :=
  @Build_TS lib (mk "slab") (3, 3, 1) [] "Cu_111" (100 # 1) (14 # 10) (1 # 1)
    false false.

(** The number of files in the directory a placer run leaves. *)
Definition files_written (r : result (option (gmap string (@Entry lib))))
  : result (option nat) :=
  match r with
  | Ok (Some d) => Ok (Some (size d))
  | Ok None => Ok None
  | Err e => Err e
  end.

(** The sorted file names of a directory a run leaves. *)
Definition listing (r : result (gmap string (@Entry lib)))
  : result (list string) :=
  match r with
  | Ok d => Ok (Py.sorted (listdir d))
  | Err e => Err e
  end.

(** Three survivors of a clean-up, numbered 0, 2 and 5. *)
Definition survivors : list (nat * string * @Entry lib) :=
  [(0%nat, "_OH_O+H.xyz", xyz (in_class "c0" "top"));
   (2%nat, "_OH_O+H.xyz", xyz (in_class "c2" "bridge"));
   (5%nat, "_OH_O+H.xyz", xyz (in_class "c5" "hollow"))].

(** Two survivors, the second with a four-digit number. *)
Definition survivors_1000 : list (nat * string * @Entry lib) :=
  [(0%nat, "_OH_O+H.xyz", xyz (in_class "c0" "top"));
   (1000%nat, "_OH_O+H.xyz", xyz (in_class "c1000" "hollow"))].

(** A site builder with 1001 pairwise inequivalent placements. *)
Definition many_sites (s frag : atoms) (_ : list Z) : list atoms :=
  (fun i => in_class (Py.str i) (Py.str i)) <$> seq 0 1001.

Definition self_360 : @TS (chem many_sites) :=
  @Build_TS (chem many_sites) (mk "slab") (3, 3, 1) [] "Cu_111" (360 # 1)
    (14 # 10) (1 # 1) false false.

(** Placement of 1001 candidates followed by the clean-up: the number of
    files after the placer and after the renumbering pass. *)
Definition thousand_and_one : result (nat * nat) :=
  match @TS_placer (chem many_sites) 5 self_360 ∅ "OH_O+H" ["OH"] ["O"; "H"] [] with
  | Ok (Some d) =>
      match @filtered_out_equiv_ts_estimate (chem many_sites) d "OH_O+H" with
      | Ok (d', stdout) => Ok (size d, size d')
      | Err e => Err e
      end
  | Ok None => Err ValueError
  | Err e => Err e
  end.

Definition job_row (sub : string) (entry : string * @File lib)
  : list (string * string * list (Z * Z) * (Q * Q)) :=
  match entry.2 with
  | @Script _ j => [(sub, entry.1, job_bonds j, job_avDists j)]
  | _ => []
  end.

Definition job_rows (entry : string * @Entry lib)
  : list (string * string * list (Z * Z) * (Q * Q)) :=
  match entry.2 with
  | @EDir _ c => flat_map (job_row entry.1) (map_to_list c)
  | _ => []
  end.

Definition job_table (d : gmap string (@Entry lib))
  : list (string * string * list (Z * Z) * (Q * Q)) :=
  flat_map job_rows (map_to_list d).

End Demo.

(** ** Auxiliary definitions used in the statements and proofs *)

(** [enumerate] from a start index, for inductions over the tail. *)
Definition enumerate_from {A} (p : nat) (l : list A) : list (nat * A) :=
  imap (fun i x => ((p + i)%nat, x)) l.

(** A line names an adsorbate atom of symbol [sym]. *)
Definition adsorbate_line (sym line : string) : bool :=
  Py.contains sym line && negb (Py.contains "Cu" line).

Definition adsorbate_hits (sym : string) (p : nat) (lines : list string) : list Z :=
  flat_map (fun '(num, line) =>
              if adsorbate_line sym line then [Z.of_nat num - 2] else [])
    (enumerate_from p lines).

Definition surface_hits (p : nat) (lines : list string) : list Z :=
  flat_map (fun '(num, line) =>
              if Py.contains "Cu " line then [Z.of_nat num - 2] else [])
    (enumerate_from p lines).


(** The loop of [checkSymmBeforeXTB] on structures already read (and made
    periodic): the state is [(good_adsorbate, result_list)]. *)
Definition symm_scan_from `{Chem} (st : list Atoms * list bool) (cs : list Atoms)
  : list Atoms * list bool :=
  fold_left
    (fun '(good_adsorbate, result_list) adsorbed =>
       let result := compare adsorbed good_adsorbate in
       (if result then good_adsorbate else good_adsorbate ++ [adsorbed],
        result_list ++ [result]))
    cs st.

Definition symm_scan `{Chem} (cs : list Atoms) : list Atoms * list bool :=
  symm_scan_from ([], []) cs.

(** The path removed for a duplicate, and the line printed when its removal
    fails (lines 233-237). *)
Definition file_to_remove (rxn_name eqsites : string) : string :=
  eqsites +:+ "_" +:+ rxn_name +:+ ".xyz".

Definition delete_message (fileToRemove : string) : string :=
  "Error while deleting file :  " +:+ fileToRemove.

(** The file name of the candidate with sequence number [n] (line 221). *)
Definition candidate_name (rxn_name : string) (n : nat) : string :=
  Py.zfill 3 (Py.str n) +:+ "_" +:+ rxn_name +:+ ".xyz".

(** The fragment after [k] turns of the loop of [TS_placer]. *)
Fixpoint orientation `{Chem} (angle : Q) (k : nat) (TS_candidate : Atoms) : Atoms :=
  match k with
  | O => TS_candidate
  | S k' => orientation angle k' (rotate angle AxisZ TS_candidate)
  end.

(** The directory after the files of one orientation have been written,
    when none of the writes fails. *)
Definition put_structs `{Chem} (self : TS) (rxn_name : string) (count : Z)
    (structs : list Atoms) (d : gmap string Entry) : gmap string Entry :=
  fold_left
    (fun d '(i, struc) =>
       <[Py.zfill 3 (Py.str (Z.to_nat (Z.of_nat i + Z.of_nat (length structs) * count)))
         +:+ "_" +:+ rxn_name +:+ ".xyz"
         := EFile (Structure (big_slab_ads (slab self) (repeats self) struc))]> d)
    (Py.enumerate structs) d.

(** The directory after [n] turns of the loop of [TS_placer], starting at
    [count], when none of the writes fails. *)
Fixpoint place_orientations `{Chem} (n : nat) (self : TS) (rxn_name : string)
    (bondedThrough : list Z) (count : Z) (TS_candidate : Atoms)
    (d : gmap string Entry) : gmap string Entry :=
  match n with
  | O => d
  | S n' =>
      place_orientations n' self rxn_name bondedThrough (count + 1)
        (rotate (rotAngle self) AxisZ TS_candidate)
        (put_structs self rxn_name count
           (add_adsorbate (slab self) TS_candidate bondedThrough) d)
  end.

(** No candidate file name of the reaction is a sub-directory of [d]. *)
Definition no_candidate_dir `{Chem} (rxn_name : string)
    (d : gmap string Entry) : Prop :=
  ∀ (n : nat) c, d !! candidate_name rxn_name n ≠ Some (EDir c).

(** A directory given by its files: sequence number, remainder of the file
    name after the three-character prefix, and content. *)
Definition numbered_name (f : nat * string) : string :=
  Py.zfill 3 (Py.str f.1) +:+ f.2.

Definition dir_of {A} (files : list (nat * string * A)) : gmap string A :=
  list_to_map ((fun f => (numbered_name f.1, f.2)) <$> files).

(** The same files, numbered by their position counted from [p]. *)
Definition renumbered_from {A} (p : nat) (files : list (nat * string * A))
  : list (nat * string * A) :=
  imap (fun j f => ((p + j)%nat, f.1.2, f.2)) files.

(** Every element is smaller than all the elements after it. *)
Fixpoint strictly_increasing (l : list string) : bool :=
  match l with
  | [] => true
  | x :: l' => forallb (String.ltb x) l' && strictly_increasing l'
  end.

(** The numbers grow strictly along the list and stay below [1000]. *)
Definition numbered_below_1000 {A} (files : list (nat * string * A)) : Prop :=
  StronglySorted (fun f g => (f.1.1 < g.1.1)%nat) files ∧
  Forall (fun f => (f.1.1 < 1000)%nat) files.

(** ** Further definitions *)

(** A directory that holds regular files only. *)
Definition only_files `{Chem} (d : gmap string Entry) : Prop :=
  ∀ name e, d !! name = Some e → ∃ f, e = EFile f.

(** The files [TS_placer] writes for the structures [structs], in the order
    of their numbers: number, remainder of the name, content. *)
Definition placer_files `{Chem} (rxn_name : string) (structs : list Atoms)
  : list (nat * string * Entry) :=
  imap (fun j a => (j, "_" +:+ rxn_name +:+ ".xyz", EFile (Structure a))) structs.

(** The files whose position got the result [False]. *)
Definition survivors_of {A} (files : list (nat * string * A))
    (result_list : list bool) : list (nat * string * A) :=
  filter (fun f => result_list !! f.1.1 = Some false) files.

(** The structures [TS_placer] writes during its first [K] orientations, in
    the order of their numbers. *)
Definition placed_structures `{Chem} (self : TS) (bonded : list Z)
    (TS_candidate : Atoms) (K : nat) : list Atoms :=
  flat_map
    (fun k => big_slab_ads (slab self) (repeats self)
                <$> add_adsorbate (slab self)
                      (orientation (rotAngle self) k TS_candidate) bonded)
    (seq 0 K).

(** ** A complete run on a small reaction document

    OH -> O + H on a slab with two adsorption sites, "top" and "hollow";
    the symmetry class of a candidate is its site, whatever the rotation
    of the fragment. A rotation increment of 120 degrees gives three
    orientations. *)

Module Scenario.

Definition sites (s frag : Demo.atoms) (_ : list Z) : list Demo.atoms :=
  [{| Demo.a_name := Demo.a_name frag +:+ "@top"; Demo.a_class := "top";
      Demo.a_lines := []; Demo.a_pos := [] |};
   {| Demo.a_name := Demo.a_name frag +:+ "@hollow"; Demo.a_class := "hollow";
      Demo.a_lines := []; Demo.a_pos := [] |}].

Definition lib : Chem := Demo.chem sites.

Definition reaction : @Reaction lib :=
  @Build_Reaction lib [Demo.mk "OH"] [tt] [Demo.mk "O"; Demo.mk "H"] [tt; tt].

Definition with_angle (rotAngle : Q) : @TS lib :=
  @Build_TS lib (Demo.mk "slab") (3, 3, 1) [reaction] "Cu_111" rotAngle
    (14 # 10) (1 # 1) false false.

Definition self : @TS lib := with_angle (120 # 1).

(** File names (sorted) and printed lines of a finished run. *)
Definition outcome
    (r : result (option (gmap string (@Entry lib) * list string)))
  : result (option (list string * list string)) :=
  match r with
  | Ok (Some (d, stdout)) => Ok (Some (Py.sorted (listdir d), stdout))
  | Ok None => Ok None
  | Err e => Err e
  end.

(** 1001 placements at one orientation: number 1000 repeats the symmetry
    class of number 0, number 101 that of number 100, all others differ. *)
Definition class_1001 (i : nat) : string :=
  if (i =? 1000)%nat then "0"
  else if (i =? 101)%nat then "100"
  else Py.str i.

Definition sites_1001 (s frag : Demo.atoms) (_ : list Z) : list Demo.atoms :=
  (fun i => Demo.in_class (Py.str i) (class_1001 i)) <$> seq 0 1001.

Definition lib_1001 : Chem := Demo.chem sites_1001.

Definition self_1001 : @TS lib_1001 :=
  @Build_TS lib_1001 (Demo.mk "slab") (3, 3, 1) [] "Cu_111" (360 # 1)
    (14 # 10) (1 # 1) false false.

(** The directory that the placer leaves for them. *)
Definition placed_1001 : gmap string (@Entry lib_1001) :=
  match @TS_placer lib_1001 5 self_1001 ∅ "OH_O+H" ["OH"] ["O"; "H"] [] with
  | Ok (Some d) => d
  | _ => ∅
  end.

(** The reverse reaction, O + H -> OH. *)
Definition association : @TS lib :=
  @Build_TS lib (Demo.mk "slab") (3, 3, 1)
    [@Build_Reaction lib [Demo.mk "O"; Demo.mk "H"] [tt; tt] [Demo.mk "OH"] [tt]]
    "Cu_111" (120 # 1) (14 # 10) (1 # 1) false false.

(** The sorted file names of one species directory of a minima tree. *)
Definition species_listing
    (r : result (gmap string (gmap string (@File Demo.lib)))) (species : string)
  : result (list string) :=
  match r with
  | Ok tree =>
      match tree !! species with
      | Some dir => Ok (Py.sorted (listdir dir))
      | None => Err FileNotFoundError
      end
  | Err e => Err e
  end.

(** The two references of [Demo.minima_O]. *)
Definition references_O : gmap string (@File Demo.lib) :=
  {[ "00.traj" := @Structure Demo.lib Demo.ref_O_first;
     "01.traj" := @Structure Demo.lib Demo.ref_Cu_first ]}.

(** The reference distance of H and the minima directory the call
    leaves. *)
Definition av_H_run :=
  @get_av_dist Demo.lib Demo.minima_OH "H" (11 # 10) true.

Definition av_H : Q * gmap string (gmap string (@File Demo.lib)) :=
  match av_H_run with
  | Ok out => out
  | Err _ => (0 # 1, ∅)
  end.

(** [Demo.minima_O] after [gen_xyz_from_traj]. *)
Definition finals_run := @gen_xyz_from_traj Demo.lib Demo.minima_O "O".

Definition finals_O : gmap string (gmap string (@File Demo.lib)) :=
  match finals_run with
  | Ok out => out
  | Err _ => ∅
  end.

End Scenario.

(** What the loop of lines 106-113 of [prepare_react_list] keeps true of
    its three lists once the species [seen] have been visited. *)
Definition images_invariant `{Chem} (seen : list Atoms)
    (st : list Atoms * list Atoms * list Bonds) : Prop :=
  let '(images, unique_species, unique_bonds) := st in
  images = get_3D_positions <$> unique_species ∧
  length unique_bonds = length unique_species ∧
  unique_species `sublist_of` seen ∧
  (∀ (i j : nat) a b, (i < j)%nat →
     unique_species !! i = Some a → unique_species !! j = Some b →
     is_isomorphic b a = false) ∧
  (∀ s, s ∈ seen →
     s ∈ unique_species ∨
     ∃ u, u ∈ unique_species ∧ is_isomorphic s u = true).

(** Lines 609-613: the fields written into the job file of [geom]. *)
Definition penalty_job (pytemplate : string) (repeats : Z * Z * Z)
    (slabopt : string) (avDist1 avDist2 : Q) (bonds : list (Z * Z))
    (geom : string) : Job :=
  {| job_template := pytemplate; job_geom := geom; job_bonds := bonds;
     job_avDists := (avDist1, avDist2);
     job_trajPath := Py.drop_end 4 geom +:+ ".traj";
     job_repeats := repeats; job_prefix := Py.before_underscore geom;
     job_geomName := Py.drop_end 4 geom; job_slabopt := slabopt |}.

(** * Properties *)

(** ** Python strings *)

Lemma startswith_app_l p q s :
  Py.startswith (p +:+ q) s = true → Py.startswith p s = true.
Proof.
  revert s; induction p as [|a p IH]; intros [|b s]; simpl; try done.
  destruct (Ascii.eqb a b); [apply IH | done].
Qed.

Lemma contains_app_l p q s :
  Py.contains (p +:+ q) s = true → Py.contains p s = true.
Proof.
  induction s as [|b s IH]; simpl.
  - apply (startswith_app_l p q "").
  - rewrite !orb_true_iff. intros [Hs|Hc]; [left | right; auto].
    by apply (startswith_app_l p q).
Qed.

Lemma int_zeros_str k n : Py.int (Py.zeros k +:+ Py.str n) = Some n.
Proof.
  assert (Hs : NilEmpty.uint_of_string (Py.str n) = Some (Nat.to_uint n) ∨
               (NilEmpty.uint_of_string (Py.str n) = Some Decimal.zero ∧ n = 0%nat)).
  { unfold Py.str, NilZero.string_of_uint.
    destruct (Nat.to_uint n) eqn:E; try (left; rewrite <- E at 2; rewrite <- E; apply NilEmpty.usu).
    right. split; [done|]. by rewrite <- (DecimalNat.Unsigned.of_to n), E. }
  assert (Hne : Py.str n ≠ "").
  { unfold Py.str, NilZero.string_of_uint. by destruct (Nat.to_uint n). }
  assert (Hz : ∃ d, NilEmpty.uint_of_string (Py.zeros k +:+ Py.str n) = Some d
                    ∧ Nat.of_uint d = n).
  { induction k as [|k [d [Hd Hn]]].
    - change (Py.zeros 0 +:+ Py.str n) with (Py.str n).
      destruct Hs as [Hs|[Hs ->]]; rewrite Hs; eexists; split; try done.
      apply DecimalNat.Unsigned.of_to.
    - change (Py.zeros (S k) +:+ Py.str n)
        with (String "0" (Py.zeros k +:+ Py.str n)).
      cbn [NilEmpty.uint_of_string]. rewrite Hd. by exists (Decimal.D0 d). }
  destruct Hz as [d [Hd Hn]].
  unfold Py.int, NilZero.uint_of_string.
  destruct (Py.zeros k +:+ Py.str n) eqn:E.
  - destruct k; simpl in E; [done | discriminate].
  - by rewrite Hd, Hn.
Qed.

Lemma zfill_str_inj w a b :
  Py.zfill w (Py.str a) = Py.zfill w (Py.str b) → a = b.
Proof.
  intros E. apply (f_equal Py.int) in E. unfold Py.zfill in E.
  rewrite !int_zeros_str in E. by injection E.
Qed.

(** ** Loops that append to a list *)

Lemma fold_left_append {A B} (f : A → list B) (l : list A) (acc : list B) :
  fold_left (fun acc x => acc ++ f x) l acc = acc ++ flat_map f l.
Proof.
  revert acc; induction l as [|x l IH]; intros acc; simpl.
  - by rewrite app_nil_r.
  - by rewrite IH, app_assoc.
Qed.

Lemma for_each_app {A St} (body : St → A → result St) st l1 l2 :
  for_each body st (l1 ++ l2) = (st' ← for_each body st l1; for_each body st' l2).
Proof.
  revert st; induction l1 as [|x l1 IH]; intros st; simpl; [done|].
  destruct (body st x); simpl; [apply IH | done].
Qed.

Lemma enumerate_from_0 {A} (l : list A) : Py.enumerate l = enumerate_from 0 l.
Proof. done. Qed.

Lemma enumerate_from_cons {A} p (x : A) l :
  enumerate_from p (x :: l) = (p, x) :: enumerate_from (S p) l.
Proof.
  unfold enumerate_from. rewrite imap_cons. f_equal; [f_equal; lia|].
  apply imap_ext. intros i y _. simpl. f_equal. lia.
Qed.

Lemma enumerate_from_app {A} p (l1 l2 : list A) :
  enumerate_from p (l1 ++ l2)
  = enumerate_from p l1 ++ enumerate_from (p + length l1) l2.
Proof.
  revert p; induction l1 as [|x l1 IH]; intros p.
  - simpl. by rewrite Nat.add_0_r.
  - change ((x :: l1) ++ l2) with (x :: (l1 ++ l2)).
    rewrite !enumerate_from_cons, IH. cbn [length app].
    by replace (S p + length l1)%nat with (p + S (length l1))%nat by lia.
Qed.

(** ** Text scans of geometry files *)

Lemma scan_adatom_hits sym lines :
  scan_adatom sym lines = adsorbate_hits sym 0 lines.
Proof.
  unfold scan_adatom, adsorbate_hits. rewrite enumerate_from_0.
  generalize (enumerate_from 0 lines) as l.
  assert (G : ∀ (l : list (nat * string)) acc,
    fold_left (fun adsorbate_atom '(num, line) =>
      if Py.contains sym line then
        if negb (Py.contains "Cu" line)
        then adsorbate_atom ++ [Z.of_nat num - 2] else adsorbate_atom
      else adsorbate_atom) l acc
    = acc ++ flat_map (fun '(num, line) =>
        if adsorbate_line sym line then [Z.of_nat num - 2] else []) l).
  { induction l as [|[num line] l IH]; intros acc; simpl.
    - by rewrite app_nil_r.
    - rewrite IH. unfold adsorbate_line.
      destruct (Py.contains sym line), (Py.contains "Cu" line); simpl;
        by rewrite <- ?app_assoc, ?app_nil_r. }
  intros l. apply (G l []).
Qed.

Lemma scan_surface_hits_from sym p lines surf ads :
  fold_left
    (fun '(surface_atom, adsorbate_atom) '(num, line) =>
       if Py.contains "Cu " line
       then (surface_atom ++ [Z.of_nat num - 2], adsorbate_atom)
       else if Py.contains sym line && negb (Py.contains "Cu" line)
            then (surface_atom, adsorbate_atom ++ [Z.of_nat num - 2])
            else (surface_atom, adsorbate_atom))
    (enumerate_from p lines) (surf, ads)
  = (surf ++ surface_hits p lines, ads ++ adsorbate_hits sym p lines).
Proof.
  unfold surface_hits, adsorbate_hits.
  generalize (enumerate_from p lines) as l. intros l.
  revert surf ads; induction l as [|[num line] l IH]; intros surf ads; simpl.
  - by rewrite !app_nil_r.
  - unfold adsorbate_line.
    destruct (Py.contains "Cu " line) eqn:Hcu.
    + rewrite IH. apply (contains_app_l "Cu" " ") in Hcu. rewrite Hcu.
      rewrite andb_false_r. simpl. by rewrite <- app_assoc.
    + destruct (Py.contains sym line && negb (Py.contains "Cu" line));
        rewrite IH; simpl; by rewrite <- ?app_assoc.
Qed.

Lemma scan_surface_hits sym lines surf ads :
  scan_surface sym lines surf ads
  = (surf ++ surface_hits 0 lines, ads ++ adsorbate_hits sym 0 lines).
Proof. apply (scan_surface_hits_from sym 0). Qed.

Lemma adsorbate_hits_none sym p lines :
  Forall (fun line => adsorbate_line sym line = false) lines →
  adsorbate_hits sym p lines = [].
Proof.
  unfold adsorbate_hits. revert p.
  induction lines as [|x l IH]; intros p Hall; [done|].
  inversion Hall as [|?? Hx Hl]; subst.
  rewrite enumerate_from_cons. simpl. rewrite Hx. simpl. by apply IH.
Qed.

Lemma adsorbate_hits_first sym p lines n line :
  lines !! n = Some line →
  adsorbate_line sym line = true →
  (∀ m line', (m < n)%nat → lines !! m = Some line' →
              adsorbate_line sym line' = false) →
  ∃ rest, adsorbate_hits sym p lines = (Z.of_nat (p + n) - 2) :: rest.
Proof.
  intros Hn Hline Hbefore.
  rewrite <- (take_drop_middle lines n line Hn).
  unfold adsorbate_hits. rewrite enumerate_from_app, flat_map_app.
  fold (adsorbate_hits sym p (take n lines)).
  rewrite adsorbate_hits_none.
  - rewrite enumerate_from_cons. simpl. rewrite Hline. simpl.
    rewrite length_take_le by (apply lookup_lt_Some in Hn; lia).
    eauto.
  - apply Forall_forall. intros x Hx.
    apply list_elem_of_lookup in Hx as [m Hm].
    pose proof (lookup_lt_Some _ _ _ Hm) as Hlt.
    rewrite length_take in Hlt.
    rewrite lookup_take_lt in Hm by lia.
    apply (Hbefore m x); [lia | done].
Qed.

(** ** Index resolution: [get_index_adatom], [get_index_surface_atom] *)

Section IndexResolution.
Context `{Chem}.

Lemma get_index_adatom_hits ads_atom d geom a :
  read d geom = Ok a →
  get_index_adatom ads_atom d geom
  = first (adsorbate_hits (first_char ads_atom) 0 (xyz_lines a)).
Proof.
  intros Hr. unfold get_index_adatom, readlines. rewrite Hr. simpl.
  by rewrite scan_adatom_hits.
Qed.

Lemma get_index_surface_atom_no_hit ads_atom d geom a :
  read d geom = Ok a →
  adsorbate_hits (first_char ads_atom) 0 (xyz_lines a) = [] →
  get_index_surface_atom ads_atom d geom = Err IndexError.
Proof.
  intros Hr Hnone. unfold get_index_surface_atom, readlines.
  rewrite Hr. simpl. rewrite scan_surface_hits, Hnone. done.
Qed.

(** C9. [get_index_adatom] and [get_index_surface_atom] are partial: on a
    readable geometry file without any line that contains the truncated
    symbol and no "Cu", both raise IndexError; when such a line exists,
    [get_index_adatom] returns the number of the first one minus two. *)
Theorem get_index_partial (ads_atom : string) (d : gmap string Entry)
    (geom : string) (a : Atoms) :
  read d geom = Ok a →
  (Forall (fun line => adsorbate_line (first_char ads_atom) line = false)
          (xyz_lines a) →
     get_index_adatom ads_atom d geom = Err IndexError ∧
     get_index_surface_atom ads_atom d geom = Err IndexError) ∧
  (∀ (n : nat) (line : string),
     xyz_lines a !! n = Some line →
     adsorbate_line (first_char ads_atom) line = true →
     (∀ (m : nat) (line' : string), (m < n)%nat →
        xyz_lines a !! m = Some line' →
        adsorbate_line (first_char ads_atom) line' = false) →
     get_index_adatom ads_atom d geom = Ok (Z.of_nat n - 2)).
Proof.
  intros Hr. split.
  - intros Hall. apply (adsorbate_hits_none _ 0%nat) in Hall. split.
    + by rewrite (get_index_adatom_hits _ _ _ a), Hall.
    + by apply (get_index_surface_atom_no_hit _ _ _ a).
  - intros n line Hn Hline Hbefore.
    rewrite (get_index_adatom_hits _ _ _ a) by done.
    destruct (adsorbate_hits_first _ 0%nat _ _ _ Hn Hline Hbefore) as [rest ->].
    done.
Qed.

End IndexResolution.

Lemma get_index_partial_witness :
  (@get_index_adatom Demo.lib "H" Demo.bare_dir "000_H_H.xyz" = Err IndexError ∧
   @get_index_surface_atom Demo.lib "H" Demo.bare_dir "000_H_H.xyz" = Err IndexError) ∧
  @get_index_adatom Demo.lib "OH" Demo.methoxy_dir "000_CH3O_CH2O+H.xyz" = Ok 1.
Proof.
  split.
  - apply (proj1 (@get_index_partial Demo.lib "H" Demo.bare_dir "000_H_H.xyz"
                    Demo.bare eq_refl)).
    repeat constructor.
  - apply (proj2 (@get_index_partial Demo.lib "OH" Demo.methoxy_dir
                    "000_CH3O_CH2O+H.xyz" Demo.methoxy eq_refl)
             3%nat "O 0.0 0.0 2.0"); [reflexivity | reflexivity |].
    intros m line' Hm.
    do 3 (destruct m as [|m]; [intros [= <-]; reflexivity|]). lia.
Defined.

(** C6. The oxygen mapping of "CH3O" and "CH2O" exists in [get_av_dist]
    only: [get_index_adatom] and [get_index_surface_atom] truncate these
    two formulas to "C" like any other symbol. On the methoxy geometry
    (Cu, O, C, H, H, H) the adatom index resolved for "CH3O" is the carbon
    (atom 2), whereas the oxygen the distance averaging scans for is atom 1. *)
Theorem index_resolution_lacks_oxygen_mapping :
  (av_dist_symbol "CH3O" = "O" ∧ av_dist_symbol "CH2O" = "O") ∧
  (∀ (C : Chem) d geom,
     @get_index_adatom C "CH3O" d geom = @get_index_adatom C "C" d geom ∧
     @get_index_adatom C "CH2O" d geom = @get_index_adatom C "C" d geom ∧
     @get_index_surface_atom C "CH3O" d geom = @get_index_surface_atom C "C" d geom ∧
     @get_index_surface_atom C "CH2O" d geom = @get_index_surface_atom C "C" d geom) ∧
  @get_index_adatom Demo.lib "CH3O" Demo.methoxy_dir "000_CH3O_CH2O+H.xyz" = Ok 2 ∧
  @get_index_adatom Demo.lib (av_dist_symbol "CH3O") Demo.methoxy_dir
     "000_CH3O_CH2O+H.xyz" = Ok 1.
Proof. repeat split. Qed.

Section SideChoice.
Context `{Chem}.

(** C4. When both sides of the reaction have the same number of species,
    [prepare_react_list] announces and returns "products", while
    [TS_placer] takes the [<=] branch and builds the fragment from the
    first reactant name; the product list and [images] play no role. *)
Theorem tie_selects_products_but_places_reactant
    (r_name_list p_name_list : list string) (images : list Atoms) :
  length r_name_list = length p_name_list →
  choose_rpDir r_name_list p_name_list = "products" ∧
  choose_TS_candidate r_name_list p_name_list images
  = (name ← first r_name_list; first (molecule name)).
Proof.
  intros Hlen. unfold choose_rpDir, choose_TS_candidate. rewrite Hlen.
  by rewrite Nat.ltb_irrefl, Nat.leb_refl.
Qed.

End SideChoice.

Lemma tie_selects_products_but_places_reactant_witness :
  @choose_rpDir ["CHO"] ["COH"] = "products" ∧
  @choose_TS_candidate Demo.lib ["CHO"] ["COH"]
     [Demo.mk "image:CHO"; Demo.mk "image:COH"]
  = Ok (Demo.mk "molecule:CHO").
Proof.
  apply (@tie_selects_products_but_places_reactant Demo.lib ["CHO"] ["COH"]
           [Demo.mk "image:CHO"; Demo.mk "image:COH"]).
  reflexivity.
Defined.

(** ** Directory listings *)

Lemma sorted_listdir_elem {A} (d : gmap string A) (name : string) :
  name ∈ Py.sorted (listdir d) ↔ name ∈ dom d.
Proof.
  unfold Py.sorted, listdir.
  rewrite (merge_sort_Permutation String.le (elements (dom d))).
  apply elem_of_elements.
Qed.


(** An invariant carried through a loop that ends normally. *)
Lemma for_each_invariant {A St} (P : St → Prop) (body : St → A → result St)
    (l : list A) (st st' : St) :
  (∀ s x s', x ∈ l → P s → body s x = Ok s' → P s') →
  P st → for_each body st l = Ok st' → P st'.
Proof.
  revert st; induction l as [|x l IH]; intros st Hstep Hst; simpl.
  - by intros [= <-].
  - destruct (body st x) as [s1|e] eqn:Hb; simpl; [|done].
    apply IH.
    + intros s y s' Hy. apply Hstep. by apply list_elem_of_further.
    + eapply Hstep; [apply list_elem_of_here | exact Hst | exact Hb].
Qed.

(** ** Reference distances: [get_av_dist] *)

Section AverageDistance.
Context `{Chem}.



End AverageDistance.


(** ** The Penalty-Job Emitter *)

Section PenaltyJobs.
Context `{Chem}.

Lemma has_job_insert_file d name f j :
  has_job (<[name := EFile f]> d) j → has_job d j.
Proof.
  intros (sub & c & n & Hsub & Hc).
  destruct (decide (name = sub)) as [->|Hne].
  - rewrite lookup_insert_eq in Hsub. done.
  - rewrite lookup_insert_ne in Hsub by done. by exists sub, c, n.
Qed.

Lemma has_job_delete d name j : has_job (delete name d) j → has_job d j.
Proof.
  intros (sub & c & n & Hsub & Hc).
  apply lookup_delete_Some in Hsub as [_ Hsub]. by exists sub, c, n.
Qed.

Lemma has_job_makedirs d d' name j :
  os_makedirs d name = Ok d' → has_job d' j → has_job d j.
Proof.
  unfold os_makedirs. destruct (d !! name) as [[f|c]|] eqn:E; intros [= <-]; [done|].
  intros (sub & c & n & Hsub & Hc).
  destruct (decide (name = sub)) as [->|Hne].
  - rewrite lookup_insert_eq in Hsub. injection Hsub as <-.
    by rewrite lookup_empty in Hc.
  - rewrite lookup_insert_ne in Hsub by done. by exists sub, c, n.
Qed.

(** A file written into a sub-directory adds at most its own job. *)
Lemma has_job_write_in d d' sub name f j :
  write_in d sub name f = Ok d' → has_job d' j →
  has_job d j ∨ f = Script j.
Proof.
  unfold write_in. destruct (d !! sub) as [[f0|c]|] eqn:E; intros [= <-].
  intros (sub' & c' & n & Hsub & Hc).
  destruct (decide (sub = sub')) as [<-|Hne].
  - rewrite lookup_insert_eq in Hsub. injection Hsub as <-.
    destruct (decide (name = n)) as [<-|Hn].
    + rewrite lookup_insert_eq in Hc. right. congruence.
    + rewrite lookup_insert_ne in Hc by done. left. by exists sub, c, n.
  - rewrite lookup_insert_ne in Hsub by done. left. by exists sub', c', n.
Qed.

Lemma has_job_move d d' name sub j :
  shutil_move d name sub = Ok d' → has_job d' j →
  has_job d j ∨ d !! name = Some (EFile (Script j)).
Proof.
  unfold shutil_move.
  destruct (d !! name) as [[f|c0]|] eqn:En; [| |done].
  - destruct (d !! sub) as [[f0|c]|] eqn:Es; [done| |done].
    destruct (c !! name) eqn:Ec; [done|]. intros [= <-].
    intros (sub' & c' & n & Hsub & Hc).
    destruct (decide (sub = sub')) as [<-|Hne].
    + rewrite lookup_insert_eq in Hsub. injection Hsub as <-.
      destruct (decide (name = n)) as [<-|Hn].
      * rewrite lookup_insert_eq in Hc. right. congruence.
      * rewrite lookup_insert_ne in Hc by done. left. by exists sub, c, n.
    + rewrite lookup_insert_ne in Hsub by done.
      apply lookup_delete_Some in Hsub as [_ Hsub]. left. by exists sub', c', n.
  - by destruct (d !! sub) as [[f0|c]|].
Qed.

Lemma write_in_keeps_file d d' sub name f x g :
  write_in d sub name f = Ok d' →
  d !! x = Some (EFile g) → d' !! x = Some (EFile g).
Proof.
  unfold write_in. destruct (d !! sub) as [[f0|c]|] eqn:E; intros [= <-] Hx.
  destruct (decide (sub = x)) as [->|Hne]; [congruence|].
  by rewrite lookup_insert_ne.
Qed.

Lemma read_is_structure d geom a :
  read d geom = Ok a → d !! geom = Some (EFile (Structure a)).
Proof.
  unfold read. destruct (d !! geom) as [[[a'| |]|]|]; simpl; congruence.
Qed.

(** One pass of the candidate loop adds only job files that carry the
    pair of distances bound before the loop. *)
Lemma penalty_body_jobs pytemplate repeats slabopt species_list
    avDist1 avDist2 d geom d' j :
  penalty_body pytemplate repeats slabopt species_list avDist1 avDist2 d geom
  = Ok d' →
  has_job d' j → has_job d j ∨ job_avDists j = (avDist1, avDist2).
Proof.
  unfold penalty_body. destruct (Py.endswith ".xyz" geom); [|by intros [= <-]; left].
  destruct (restraint_bonds species_list d geom) as [bonds|]; simpl; [|done].
  destruct (os_makedirs d _) as [d1|] eqn:E1; simpl; [|done].
  destruct (read d1 geom) as [a|] eqn:Er; simpl; [|done].
  destruct (write_in d1 _ _ _) as [d2|] eqn:E2; simpl; [|done].
  destruct (write_in d2 _ _ _) as [d3|] eqn:E3; simpl; [|done].
  intros Hmove Hj.
  destruct (has_job_move _ _ _ _ _ Hmove Hj) as [Hj3|Hfile].
  - destruct (has_job_write_in _ _ _ _ _ _ E3 Hj3) as [Hj2|Hs].
    + destruct (has_job_write_in _ _ _ _ _ _ E2 Hj2) as [Hj1|Hi]; [|done].
      left. by apply (has_job_makedirs _ _ _ _ E1).
    + right. by injection Hs as <-.
  - apply read_is_structure in Er.
    apply (write_in_keeps_file _ _ _ _ _ _ _ E2) in Er.
    apply (write_in_keeps_file _ _ _ _ _ _ _ E3) in Er.
    congruence.
Qed.

(** C10. In a run of [set_up_penalty_xtb] that ends normally, the two
    target distances are the results of the two [get_av_dist] calls made
    before the candidate loop, from the minima directory and the species
    list alone; every job file found afterwards was either there before
    the run or carries exactly this pair, so any two job files written by
    the run carry the same [avDists]. *)
Theorem avDists_fixed_before_candidate_loop
    (avPath avPath' : gmap string (gmap string File))
    (path d' : gmap string Entry) (pytemplate : string)
    (repeats : Z * Z * Z) (slabopt : string) (species_list : list string)
    (scfactor_surface : Q) (scaled1 scaled2 : bool) :
  set_up_penalty_xtb avPath path pytemplate repeats slabopt species_list
    scfactor_surface scaled1 scaled2 = Ok (avPath', d') →
  ∃ species0 species1 avDist1 avDist2 avPath1,
    species_list !! 0%nat = Some species0 ∧
    species_list !! 1%nat = Some species1 ∧
    get_av_dist avPath species0 scfactor_surface scaled1 = Ok (avDist1, avPath1) ∧
    get_av_dist avPath1 species1 scfactor_surface scaled2 = Ok (avDist2, avPath') ∧
    (∀ j, has_job d' j → has_job path j ∨ job_avDists j = (avDist1, avDist2)) ∧
    (∀ j1 j2, has_job d' j1 → ¬ has_job path j1 →
              has_job d' j2 → ¬ has_job path j2 →
              job_avDists j1 = job_avDists j2).
Proof.
  unfold set_up_penalty_xtb, item.
  destruct (species_list !! 0%nat) as [species0|] eqn:E0; simpl; [|done].
  destruct (get_av_dist avPath species0 _ _) as [[avDist1 avPath1]|] eqn:Ea1;
    simpl; [|done].
  destruct (species_list !! 1%nat) as [species1|] eqn:E1; simpl; [|done].
  destruct (get_av_dist avPath1 species1 _ _) as [[avDist2 avPath2]|] eqn:Ea2;
    simpl; [|done].
  destruct (for_each _ path _) as [d1|] eqn:Eloop; simpl; [|done].
  destruct (remove_initial_png d1) as [d2|] eqn:Erm; simpl; [|done].
  intros [= <- <-].
  assert (Hjobs : ∀ j, has_job d2 j →
                       has_job path j ∨ job_avDists j = (avDist1, avDist2)).
  { intros j Hj.
    assert (Hj1 : has_job d1 j).
    { revert Erm. unfold remove_initial_png.
      destruct (d1 !! "initial_png") as [[f|c]|]; intros [= <-]; try done.
      by apply has_job_delete in Hj. }
    clear Hj. revert j Hj1.
    refine (for_each_invariant
             (fun d => ∀ j, has_job d j →
                has_job path j ∨ job_avDists j = (avDist1, avDist2))
             _ _ path d1 _ _ Eloop); [|by left].
    intros s geom s' _ Hs Hbody j Hj.
    destruct (penalty_body_jobs _ _ _ _ _ _ _ _ _ _ Hbody Hj) as [Hold|Hnew];
      [by apply Hs | by right]. }
  exists species0, species1, avDist1, avDist2, avPath1.
  repeat split; try done.
  intros j1 j2 Hj1 Hn1 Hj2 Hn2.
  destruct (Hjobs j1 Hj1) as [? | ->]; [done|].
  destruct (Hjobs j2 Hj2) as [? | ->]; done.
Qed.

(** The method [TS.set_up_penalty_xtb] is the module-level function at the
    fields of [self], so the statement above covers both. *)
Lemma TS_set_up_penalty_xtb_unfold (self : TS)
    (avPath : gmap string (gmap string File))
    (ts_estimate_path : gmap string Entry)
    (pytemplate slabopt : string) (species_list : list string) :
  TS_set_up_penalty_xtb self avPath ts_estimate_path pytemplate slabopt species_list
  = set_up_penalty_xtb avPath ts_estimate_path pytemplate (repeats self) slabopt
      species_list (scfactor_surface self) (scaled1 self) (scaled2 self).
Proof. reflexivity. Qed.

End PenaltyJobs.

Lemma avDists_fixed_before_candidate_loop_witness :
  ∃ species0 species1 avDist1 avDist2 avPath1,
    ["O"; "H"] !! 0%nat = Some species0 ∧
    ["O"; "H"] !! 1%nat = Some species1 ∧
    @get_av_dist Demo.lib Demo.minima_OH species0 (11 # 10) true
      = Ok (avDist1, avPath1) ∧
    @get_av_dist Demo.lib avPath1 species1 (11 # 10) false
      = Ok (avDist2, Demo.penalty_out.1) ∧
    (∀ j, @has_job Demo.lib Demo.penalty_out.2 j →
          @has_job Demo.lib Demo.candidates_dir j ∨
          job_avDists j = (avDist1, avDist2)) ∧
    (∀ j1 j2,
       @has_job Demo.lib Demo.penalty_out.2 j1 →
       ¬ @has_job Demo.lib Demo.candidates_dir j1 →
       @has_job Demo.lib Demo.penalty_out.2 j2 →
       ¬ @has_job Demo.lib Demo.candidates_dir j2 →
       job_avDists j1 = job_avDists j2).
Proof.
  apply (@avDists_fixed_before_candidate_loop Demo.lib Demo.minima_OH
           Demo.penalty_out.1 Demo.candidates_dir Demo.penalty_out.2
           "template" (3, 3, 1) "slab_opt.xyz" ["O"; "H"] (11 # 10) true false).
  assert (Hok : match Demo.penalty_run with Ok _ => true | Err _ => false end
                = true) by (vm_compute; reflexivity).
  unfold Demo.penalty_out. fold Demo.penalty_run.
  destruct Demo.penalty_run as [[avPath' d']|e]; [reflexivity | discriminate].
Defined.

(** The run above wrote one job file per candidate, both with the pair
    (3.3, 1.5). *)
Example penalty_run_jobs :
  Demo.job_table Demo.penalty_out.2
  = [("001", "001_OH_O+H.py", [(2, 0); (3, 0)], (33 # 10, 3 # 2));
     ("000", "000_OH_O+H.py", [(2, 1); (3, 1)], (33 # 10, 3 # 2))].
Proof. vm_compute. reflexivity. Qed.

(** C5. [get_av_dist] keeps its two index lists across reference files.
    With the two oxygen minima of [Demo.minima_O] (O listed first in one
    file, Cu first in the other) the second structure is measured from the
    atom index found in the first: the code returns 1/2, whereas the mean
    of the per-structure minimum distances (1 and 3) is 2. *)
Theorem get_av_dist_reuses_indices_across_references :
  returned (@get_av_dist Demo.lib Demo.minima_O "O" (1 # 1) false) = Ok (1 # 2) ∧
  @structure_min_dist Demo.lib "O" Demo.ref_O_first = Ok (1 # 1) ∧
  @structure_min_dist Demo.lib "O" Demo.ref_Cu_first = Ok (3 # 1) ∧
  @av_dist_spec Demo.lib [Demo.ref_O_first; Demo.ref_Cu_first] "O" (1 # 1) false
  = Ok (4 # 2) ∧
  ¬ (1 # 2 == 4 # 2)%Q.
Proof.
  split; [vm_compute; reflexivity|].
  split; [vm_compute; reflexivity|].
  split; [vm_compute; reflexivity|].
  split; [vm_compute; reflexivity|].
  unfold Qeq. simpl. lia.
Qed.

(** ** The Symmetry Deduplicator: [checkSymmBeforeXTB] *)

Lemma elem_of_enumerate_from {A} (p n : nat) (x : A) (l : list A) :
  (n, x) ∈ enumerate_from p l ↔ ∃ i, n = (p + i)%nat ∧ l !! i = Some x.
Proof.
  unfold enumerate_from. rewrite elem_of_lookup_imap. split.
  - intros (i & y & [= -> ->] & Hy). eauto.
  - intros (i & -> & Hi). eauto.
Qed.

Lemma notunique_of_flat result_list :
  notunique_of result_list
  = flat_map (fun '(num, res) =>
                if res : bool then [Py.zfill 3 (Py.str num)] else [])
      (Py.enumerate result_list).
Proof.
  unfold notunique_of. generalize (Py.enumerate result_list) as l.
  assert (G : ∀ (l : list (nat * bool)) acc,
    fold_left (fun notunique_index '(num, res) =>
                 if res : bool then notunique_index ++ [Py.zfill 3 (Py.str num)]
                 else notunique_index) l acc
    = acc ++ flat_map (fun '(num, res) =>
                if res : bool then [Py.zfill 3 (Py.str num)] else []) l).
  { induction l as [|[num res] l IH]; intros acc.
    - cbn [fold_left flat_map]. by rewrite app_nil_r.
    - cbn [fold_left flat_map]. rewrite IH.
      destruct res; [by rewrite <- app_assoc | done]. }
  intros l. apply (G l []).
Qed.

(** A position is marked exactly when its result is [True]. *)
Lemma elem_of_notunique_of result_list (i : nat) :
  Py.zfill 3 (Py.str i) ∈ notunique_of result_list
  ↔ result_list !! i = Some true.
Proof.
  rewrite notunique_of_flat, enumerate_from_0, list_elem_of_In, in_flat_map.
  split.
  - intros ([num res] & Hin & Hz).
    apply list_elem_of_In, elem_of_enumerate_from in Hin as (k & -> & Hk).
    destruct res; [|by destruct Hz].
    destruct Hz as [Hz|[]]. apply zfill_str_inj in Hz. by subst.
  - intros Hi. exists (i, true). split; [|by left].
    apply list_elem_of_In, elem_of_enumerate_from. by exists i.
Qed.

Section Deduplicator.
Context `{Chem}.

Lemma symm_scan_from_app st l1 l2 :
  symm_scan_from st (l1 ++ l2) = symm_scan_from (symm_scan_from st l1) l2.
Proof. apply fold_left_app. Qed.

Lemma symm_scan_snoc cs c :
  symm_scan (cs ++ [c])
  = (if compare c (symm_scan cs).1 then (symm_scan cs).1
     else (symm_scan cs).1 ++ [c],
     (symm_scan cs).2 ++ [compare c (symm_scan cs).1]).
Proof.
  unfold symm_scan. rewrite symm_scan_from_app.
  by destruct (symm_scan_from ([], []) cs) as [g r].
Qed.

Lemma symm_scan_length cs : length (symm_scan cs).2 = length cs.
Proof.
  induction cs as [|c cs IH] using rev_ind; [done|].
  rewrite symm_scan_snoc. simpl. rewrite !length_app, IH. done.
Qed.

(** Results and unique list of a prefix are prefixes of those of the
    whole list: later candidates never change an earlier decision. *)
Lemma symm_scan_prefix l1 l2 :
  (symm_scan l1).1 `prefix_of` (symm_scan (l1 ++ l2)).1 ∧
  (symm_scan l1).2 `prefix_of` (symm_scan (l1 ++ l2)).2.
Proof.
  induction l2 as [|c l2 [IH1 IH2]] using rev_ind.
  - by rewrite app_nil_r.
  - rewrite app_assoc, symm_scan_snoc. simpl. split.
    + destruct (compare c _); [done|]. by apply prefix_app_r.
    + by apply prefix_app_r.
Qed.

Lemma symm_scan_result cs (i : nat) ci :
  cs !! i = Some ci →
  (symm_scan cs).2 !! i = Some (compare ci (symm_scan (take i cs)).1).
Proof.
  intros Hi.
  assert (Hlen : length (take i cs) = i).
  { apply length_take_le. apply lookup_lt_Some in Hi. lia. }
  rewrite <- (take_drop_middle cs i ci Hi) at 1.
  rewrite (cons_middle ci), app_assoc.
  destruct (symm_scan_prefix (take i cs ++ [ci]) (drop (S i) cs)) as [_ [k ->]].
  rewrite symm_scan_snoc. simpl.
  rewrite lookup_app_l by (rewrite length_app, symm_scan_length; simpl; lia).
  rewrite lookup_app_r by (rewrite symm_scan_length; lia).
  by rewrite symm_scan_length, Hlen, Nat.sub_diag.
Qed.

Lemma symm_scan_sublist cs : (symm_scan cs).1 `sublist_of` cs.
Proof.
  induction cs as [|c cs IH] using rev_ind; [done|].
  rewrite symm_scan_snoc. simpl. destruct (compare c _).
  - by apply sublist_inserts_r.
  - by apply sublist_app.
Qed.

(** A candidate accepted at position [j] is in the unique list every
    later candidate is compared with. *)
Lemma symm_scan_accepted cs (i j : nat) cj :
  (j < i)%nat → cs !! j = Some cj →
  (symm_scan cs).2 !! j = Some false →
  cj ∈ (symm_scan (take i cs)).1.
Proof.
  intros Hji Hj Hres.
  rewrite (symm_scan_result cs j cj Hj) in Hres. injection Hres as Hres.
  assert (Htake : take i cs = (take j cs ++ [cj]) ++ drop (S j) (take i cs)).
  { rewrite <- (take_drop_middle (take i cs) j cj) at 1.
    - by rewrite take_take, Nat.min_l, (cons_middle cj), app_assoc by lia.
    - by rewrite lookup_take_lt. }
  rewrite Htake.
  destruct (symm_scan_prefix (take j cs ++ [cj]) (drop (S j) (take i cs)))
    as [[k ->] _].
  rewrite symm_scan_snoc, Hres. simpl.
  apply elem_of_app. left. apply elem_of_app. right. by apply list_elem_of_here.
Qed.

Lemma for_each_symm_body d names structs st :
  Forall2 (fun geom a => read d geom = Ok a) names structs →
  for_each (symm_body d) st names
  = Ok (symm_scan_from st (set_pbc <$> structs)).
Proof.
  intros Hread. revert st.
  induction Hread as [|geom a names structs Hr _ IH]; intros [g r]; [done|].
  simpl. rewrite Hr. simpl. apply IH.
Qed.

End Deduplicator.

(** Of three candidates whose second repeats the first, only the second is
    marked. *)
Example dedup_marks_second :
  @checkSymmBeforeXTB Demo.lib Demo.dedup_dir = Ok ["001"].
Proof. vm_compute. reflexivity. Qed.

(** ** Duplicate clean-up: [filtered_out_equiv_ts_estimate] *)

Section CleanUp.
Context `{Chem}.

Lemma remove_duplicates_from rxn_name (l : list string)
    (d0 : gmap string Entry) (out0 : list string) :
  let files := file_to_remove rxn_name <$> l in
  let res :=
    fold_left
      (fun '(d, stdout) eqsites =>
         let fileToRemove := eqsites +:+ "_" +:+ rxn_name +:+ ".xyz" in
         match os_remove d fileToRemove with
         | Ok d' => (d', stdout)
         | Err _ => (d, stdout ++ ["Error while deleting file :  " +:+ fileToRemove])
         end) l (d0, out0) in
  (∀ name,
     res.1 !! name
     = match d0 !! name with
       | Some (EFile f) =>
           if bool_decide (name ∈ files) then None else Some (EFile f)
       | other => other
       end) ∧
  (∀ name, name ∈ files → d0 !! name = None → delete_message name ∈ res.2) ∧
  (∀ msg, msg ∈ out0 → msg ∈ res.2) ∧
  (∀ msg, msg ∈ res.2 → msg ∈ out0 ∨ ∃ name, name ∈ files ∧ msg = delete_message name).
Proof.
  revert d0 out0. induction l as [|x l IH]; intros d0 out0.
  - cbn. repeat split; try done.
    + intros name. destruct (d0 !! name) as [[f|c]|]; try done.
    + intros name Hin. by apply elem_of_nil in Hin.
    + by left.
  - cbn [fold_left fmap list_fmap]. fold (file_to_remove rxn_name x).
    set (file := file_to_remove rxn_name x).
    unfold os_remove. destruct (d0 !! file) as [[f|c]|] eqn:Efile.
    + destruct (IH (delete file d0) out0) as (Hd & Hmsg & Hmono & Hsrc).
      split; [|split; [|split]].
      * intros name. rewrite Hd.
        destruct (decide (name = file)) as [->|Hne].
        -- rewrite lookup_delete_eq, Efile.
           by rewrite bool_decide_eq_true_2 by apply list_elem_of_here.
        -- rewrite lookup_delete_ne by done.
           destruct (d0 !! name) as [[g|c]|]; try done.
           apply (f_equal (fun b : bool => if b then None else Some (EFile g))).
           apply bool_decide_ext. rewrite elem_of_cons.
           tauto.
      * intros name Hin Hnone. apply elem_of_cons in Hin as [->|Hin].
        -- congruence.
        -- apply Hmsg; [done|].
           destruct (decide (name = file)) as [->|Hne]; [congruence|].
           by rewrite lookup_delete_ne.
      * exact Hmono.
      * intros msg Hin. destruct (Hsrc msg Hin) as [?|(name & ? & ?)]; [by left|].
        right. exists name. split; [by apply list_elem_of_further | done].
    + destruct (IH d0 (out0 ++ [delete_message file])) as (Hd & Hmsg & Hmono & Hsrc).
      split; [|split; [|split]].
      * intros name. rewrite Hd.
        destruct (d0 !! name) as [[g|c']|] eqn:En; try done.
        apply (f_equal (fun b : bool => if b then None else Some (EFile g))).
        apply bool_decide_ext. rewrite elem_of_cons.
        assert (name ≠ file) by congruence.
        tauto.
      * intros name Hin Hnone. apply elem_of_cons in Hin as [->|Hin];
          [congruence | by apply Hmsg].
      * intros msg Hin. apply Hmono, elem_of_app. by left.
      * intros msg Hin. destruct (Hsrc msg Hin) as [Hold|(name & ? & ?)].
        -- apply elem_of_app in Hold as [?|Hnew]; [by left|].
           apply list_elem_of_singleton in Hnew. right. exists file.
           split; [apply list_elem_of_here | done].
        -- right. exists name. split; [by apply list_elem_of_further | done].
    + destruct (IH d0 (out0 ++ [delete_message file])) as (Hd & Hmsg & Hmono & Hsrc).
      split; [|split; [|split]].
      * intros name. rewrite Hd.
        destruct (d0 !! name) as [[g|c']|] eqn:En; try done.
        apply (f_equal (fun b : bool => if b then None else Some (EFile g))).
        apply bool_decide_ext. rewrite elem_of_cons.
        assert (name ≠ file) by congruence.
        tauto.
      * intros name Hin Hnone. apply elem_of_cons in Hin as [->|Hin].
        -- apply Hmono, elem_of_app. right. apply list_elem_of_here.
        -- by apply Hmsg.
      * intros msg Hin. apply Hmono, elem_of_app. by left.
      * intros msg Hin. destruct (Hsrc msg Hin) as [Hold|(name & ? & ?)].
        -- apply elem_of_app in Hold as [?|Hnew]; [by left|].
           apply list_elem_of_singleton in Hnew. right. exists file.
           split; [apply list_elem_of_here | done].
        -- right. exists name. split; [by apply list_elem_of_further | done].
Qed.

(** C8. The deletion loop never raises: a listed file that is a regular
    file is removed, every other entry is left as it was, and for a listed
    file that does not exist the line "Error while deleting file :  ..."
    is printed; the renumbering pass then runs on the directory the loop
    leaves, and its outcome is the outcome of the whole function. *)
Theorem missing_duplicate_is_reported_not_fatal (d : gmap string Entry)
    (rxn_name : string) (filtered_equivalen_sites : list string) :
  checkSymmBeforeXTB d = Ok filtered_equivalen_sites →
  let files := file_to_remove rxn_name <$> filtered_equivalen_sites in
  let d1 := (remove_duplicates rxn_name filtered_equivalen_sites d).1 in
  let stdout := (remove_duplicates rxn_name filtered_equivalen_sites d).2 in
  (∀ name,
     d1 !! name
     = match d !! name with
       | Some (EFile f) =>
           if bool_decide (name ∈ files) then None else Some (EFile f)
       | other => other
       end) ∧
  (∀ name, name ∈ files → d !! name = None → delete_message name ∈ stdout) ∧
  (∀ msg, msg ∈ stdout → ∃ name, name ∈ files ∧ msg = delete_message name) ∧
  filtered_out_equiv_ts_estimate d rxn_name
  = (d' ← renumber d1; Ok (d', stdout)).
Proof.
  intros Hsym files d1 stdout.
  destruct (remove_duplicates_from rxn_name filtered_equivalen_sites d [])
    as (Hd & Hmsg & _ & Hsrc).
  split; [exact Hd|]. split; [exact Hmsg|]. split.
  - intros msg Hin. destruct (Hsrc msg Hin) as [Hnil|?]; [|done].
    by apply elem_of_nil in Hnil.
  - unfold filtered_out_equiv_ts_estimate. rewrite Hsym. simpl.
    subst d1 stdout.
    by destruct (remove_duplicates rxn_name filtered_equivalen_sites d).
Qed.

End CleanUp.

Lemma missing_duplicate_is_reported_not_fatal_witness :
  let files := file_to_remove "OH_O+H" <$> ["001"; "002"] in
  let d1 := (@remove_duplicates Demo.lib "OH_O+H" ["001"; "002"] Demo.gap_dir).1 in
  let stdout := (@remove_duplicates Demo.lib "OH_O+H" ["001"; "002"] Demo.gap_dir).2 in
  (∀ name,
     d1 !! name
     = match Demo.gap_dir !! name with
       | Some (@EFile _ f) =>
           if bool_decide (name ∈ files) then None else Some (@EFile Demo.lib f)
       | other => other
       end) ∧
  (∀ name, name ∈ files → Demo.gap_dir !! name = None →
           delete_message name ∈ stdout) ∧
  (∀ msg, msg ∈ stdout → ∃ name, name ∈ files ∧ msg = delete_message name) ∧
  @filtered_out_equiv_ts_estimate Demo.lib Demo.gap_dir "OH_O+H"
  = (d' ← @renumber Demo.lib d1; Ok (d', stdout)).
Proof.
  apply (@missing_duplicate_is_reported_not_fatal Demo.lib Demo.gap_dir
           "OH_O+H" ["001"; "002"]).
  vm_compute. reflexivity.
Defined.

(** The run of the witness: both deletions fail, both failures are printed,
    and the three files are renumbered all the same. *)
Example missing_duplicates_run :
  Demo.listing_and_log (@filtered_out_equiv_ts_estimate Demo.lib Demo.gap_dir "OH_O+H")
  = Ok (["000_OH_O+H.xyz"; "001_OH_O+H.xyz"; "002_OH_O+H.xyz"],
        ["Error while deleting file :  001_OH_O+H.xyz";
         "Error while deleting file :  002_OH_O+H.xyz"]).
Proof. vm_compute. reflexivity. Qed.

(** ** The Candidate Placer: [TS_placer] *)

Lemma length_append (s t : string) :
  String.length (s +:+ t) = (String.length s + String.length t)%nat.
Proof. induction s as [|a s IH]; simpl; [done | by rewrite IH]. Qed.

Lemma candidate_name_inj rxn_name n m :
  candidate_name rxn_name n = candidate_name rxn_name m → n = m.
Proof.
  unfold candidate_name. intros E.
  assert (Hlen : ∀ s t u : string,
             String.length s = String.length t → s +:+ u = t +:+ u → s = t).
  { induction s as [|a s IH]; intros [|b t] u Hl Hu; simpl in *; try done.
    injection Hu as -> Hu. f_equal. apply (IH t u); [lia | done]. }
  assert (Hsuf : ∀ s t u : string, s +:+ u = t +:+ u → String.length s = String.length t).
  { intros s t u Hu. apply (f_equal String.length) in Hu.
    rewrite !length_append in Hu. lia. }
  apply (zfill_str_inj 3). eapply Hlen; [|exact E]. by eapply Hsuf.
Qed.

Lemma inject_Z_le_floor (z : Z) (q : Q) :
  (inject_Z z <= q)%Q ↔ z ≤ Qfloor q.
Proof.
  split.
  - intros Hle. rewrite <- (Qfloor_Z z). by apply Qfloor_resp_le.
  - intros Hle. eapply Qle_trans; [|apply Qfloor_le].
    by rewrite <- Zle_Qle.
Qed.

(** The loop condition [count <= 360 / rotAngle - 1] holds for exactly the
    first [floor(360 / rotAngle)] values of [count]. *)
Lemma loop_condition (r : Q) (c : nat) :
  Qle_bool (inject_Z (Z.of_nat c)) (inject_Z 360 / r - inject_Z 1)%Q
  = bool_decide (c < Z.to_nat (Qfloor (inject_Z 360 / r)))%nat.
Proof.
  apply eq_true_iff_eq. rewrite Qle_bool_iff, bool_decide_eq_true.
  assert (H1 : (inject_Z (Z.of_nat c) <= inject_Z 360 / r - inject_Z 1)%Q
               ↔ (inject_Z (Z.of_nat c + 1) <= inject_Z 360 / r)%Q).
  { rewrite inject_Z_plus. generalize (inject_Z 360 / r)%Q as q.
    generalize (inject_Z (Z.of_nat c)) as x. intros x q.
    change (inject_Z 1) with 1%Q. split; intros Hq; lra. }
  rewrite H1, inject_Z_le_floor. lia.
Qed.

Section Placer.
Context `{Chem}.

(** The files of one orientation: site [i] goes to number
    [i + len(structs) * count]; nothing else changes. *)
Lemma put_structs_from (self : TS) rxn_name (b p : nat)
    (structs : list Atoms) (d : gmap string Entry) :
  let res :=
    fold_left
      (fun d '(i, struc) =>
         <[candidate_name rxn_name (i + b)
           := EFile (Structure (big_slab_ads (slab self) (repeats self) struc))]> d)
      (enumerate_from p structs) d in
  (∀ (i : nat) struc, structs !! i = Some struc →
     res !! candidate_name rxn_name (p + i + b)
     = Some (EFile (Structure (big_slab_ads (slab self) (repeats self) struc)))) ∧
  (∀ name, (∀ i, (i < length structs)%nat →
                 name ≠ candidate_name rxn_name (p + i + b)) →
           res !! name = d !! name).
Proof.
  revert p d. induction structs as [|s structs IH]; intros p d; [done|].
  rewrite enumerate_from_cons. cbn [fold_left].
  destruct (IH (S p) (<[candidate_name rxn_name (p + b)
                        := EFile (Structure
                                    (big_slab_ads (slab self) (repeats self) s))]> d))
    as [IHa IHb].
  split.
  - intros [|i] struc Hi.
    + injection Hi as <-. rewrite IHb.
      * rewrite Nat.add_0_r. apply lookup_insert_eq.
      * intros i _ E. apply candidate_name_inj in E. lia.
    + replace (p + S i + b)%nat with (S p + i + b)%nat by lia. by apply IHa.
  - intros name Hname. rewrite IHb.
    + apply lookup_insert_ne. intros E.
      apply (Hname 0%nat); [simpl; lia|]. by rewrite Nat.add_0_r.
    + intros i Hi. replace (S p + i + b)%nat with (p + S i + b)%nat by lia.
      apply Hname. simpl. lia.
Qed.

Lemma put_structs_spec (self : TS) rxn_name (c : nat)
    (structs : list Atoms) (d : gmap string Entry) :
  let res := put_structs self rxn_name (Z.of_nat c) structs d in
  (∀ (i : nat) struc, structs !! i = Some struc →
     res !! candidate_name rxn_name (i + length structs * c)
     = Some (EFile (Structure (big_slab_ads (slab self) (repeats self) struc)))) ∧
  (∀ name, (∀ i, (i < length structs)%nat →
                 name ≠ candidate_name rxn_name (i + length structs * c)) →
           res !! name = d !! name).
Proof.
  assert (E : put_structs self rxn_name (Z.of_nat c) structs d
              = fold_left
                  (fun d '(i, struc) =>
                     <[candidate_name rxn_name (i + length structs * c)
                       := EFile (Structure
                                   (big_slab_ads (slab self) (repeats self) struc))]> d)
                  (enumerate_from 0 structs) d).
  { unfold put_structs. rewrite enumerate_from_0.
    generalize (length structs) as len. intros len.
    generalize (enumerate_from 0 structs) as l. intros l. revert d.
    induction l as [|[i struc] l IH]; intros d; [done|].
    cbn [fold_left]. rewrite IH. do 2 f_equal.
    unfold candidate_name. do 3 f_equal. lia. }
  cbv zeta. rewrite E.
  apply (put_structs_from self rxn_name (length structs * c) 0).
Qed.

Lemma no_candidate_dir_empty rxn_name : no_candidate_dir rxn_name ∅.
Proof. intros n c. by rewrite lookup_empty. Qed.

(** Writing never makes a candidate name a directory. *)
Lemma put_structs_no_candidate_dir (self : TS) rxn_name (count : Z)
    (structs : list Atoms) (d : gmap string Entry) :
  no_candidate_dir rxn_name d →
  no_candidate_dir rxn_name (put_structs self rxn_name count structs d).
Proof.
  unfold put_structs. generalize (length structs) as len. intros len.
  generalize (Py.enumerate structs) as l. intros l. revert d.
  induction l as [|[i struc] l IH]; intros d Hd; [done|].
  cbn [fold_left]. apply IH. intros n c.
  destruct (decide (Py.zfill 3 (Py.str (Z.to_nat (Z.of_nat i + Z.of_nat len * count)))
                    +:+ "_" +:+ rxn_name +:+ ".xyz" = candidate_name rxn_name n))
    as [-> | Hne].
  - by rewrite lookup_insert_eq.
  - rewrite lookup_insert_ne by done. apply Hd.
Qed.

(** Where no candidate name is a directory every write succeeds. *)
Lemma write_structs_ok (self : TS) rxn_name (count : Z)
    (structs : list Atoms) (d : gmap string Entry) :
  no_candidate_dir rxn_name d →
  write_structs self rxn_name count structs d
  = Ok (put_structs self rxn_name count structs d).
Proof.
  unfold write_structs, put_structs. generalize (length structs) as len.
  intros len. generalize (Py.enumerate structs) as l. intros l. revert d.
  induction l as [|[i struc] l IH]; intros d Hd; [done|].
  cbn [for_each fold_left].
  set (name := Py.zfill 3 (Py.str (Z.to_nat (Z.of_nat i + Z.of_nat len * count)))
               +:+ "_" +:+ rxn_name +:+ ".xyz").
  assert (Hfile : ∀ c, d !! name ≠ Some (EDir c))
    by (intros c; apply (Hd (Z.to_nat (Z.of_nat i + Z.of_nat len * count)))).
  assert (Hnext : no_candidate_dir rxn_name
                    (<[name := EFile (Structure
                                        (big_slab_ads (slab self) (repeats self) struc))]> d)).
  { intros n c. destruct (decide (name = candidate_name rxn_name n)) as [<- | Hne].
    - by rewrite lookup_insert_eq.
    - rewrite lookup_insert_ne by done. apply Hd. }
  assert (Hw : write_xyz d name (big_slab_ads (slab self) (repeats self) struc)
               = Ok (<[name := EFile (Structure
                                        (big_slab_ads (slab self) (repeats self) struc))]> d)).
  { unfold write_xyz. destruct (d !! name) as [[f|c]|] eqn:E; try done.
    by destruct (Hfile c). }
  rewrite Hw. cbn [mbind result_bind]. by apply IH.
Qed.

(** [n] turns starting at [count = c], with [S] sites per orientation. *)
Lemma place_orientations_spec (self : TS) rxn_name bonded (S : nat) :
  (∀ frag, length (add_adsorbate (slab self) frag bonded) = S) →
  ∀ (n c : nat) (frag : Atoms) (d : gmap string Entry),
    let res := place_orientations n self rxn_name bonded (Z.of_nat c) frag d in
    (∀ (k i : nat) struc, (k < n)%nat →
       add_adsorbate (slab self) (orientation (rotAngle self) k frag) bonded !! i
         = Some struc →
       res !! candidate_name rxn_name (i + S * (c + k))
       = Some (EFile (Structure (big_slab_ads (slab self) (repeats self) struc)))) ∧
    (∀ name, (∀ k i, (k < n)%nat → (i < S)%nat →
                     name ≠ candidate_name rxn_name (i + S * (c + k))) →
             res !! name = d !! name).
Proof.
  intros Hsites n. induction n as [|n IH]; intros c frag d.
  - split; [intros; lia | done].
  - cbn [place_orientations].
    replace (Z.of_nat c + 1) with (Z.of_nat (Datatypes.S c)) by lia.
    set (structs := add_adsorbate (slab self) frag bonded).
    destruct (put_structs_spec self rxn_name c structs d) as [Wa Wb].
    assert (Hlen : length structs = S) by apply Hsites.
    rewrite Hlen in Wa, Wb.
    destruct (IH (Datatypes.S c) (rotate (rotAngle self) AxisZ frag)
                (put_structs self rxn_name (Z.of_nat c) structs d))
      as [IHa IHb].
    split.
    + intros [|k] i struc Hk Hi.
      * rewrite IHb.
        -- rewrite Nat.add_0_r. by apply Wa.
        -- intros k' i' _ Hi' E. apply candidate_name_inj in E.
           apply lookup_lt_Some in Hi. simpl in Hi.
           rewrite (Hsites frag) in Hi. nia.
      * replace (c + Datatypes.S k)%nat with (Datatypes.S c + k)%nat by lia.
        apply IHa; [lia | exact Hi].
    + intros name Hname. rewrite IHb.
      * apply Wb. intros i Hi.
        specialize (Hname 0%nat i). rewrite Nat.add_0_r in Hname.
        apply Hname; lia.
      * intros k i Hk Hi.
        replace (Datatypes.S c + k)%nat with (c + Datatypes.S k)%nat by lia.
        apply Hname; lia.
Qed.

(** With enough fuel, and where no candidate name is a directory, the
    loop ends after [K - c] further turns. *)
Lemma placer_loop_terminates (self : TS) rxn_name bonded :
  let K := Z.to_nat (Qfloor (inject_Z 360 / rotAngle self)) in
  ∀ (fuel c : nat) (frag : Atoms) (d : gmap string Entry),
    (K - c < fuel)%nat →
    no_candidate_dir rxn_name d →
    placer_loop fuel self rxn_name bonded
      (inject_Z 360 / rotAngle self - inject_Z 1)%Q (Z.of_nat c) frag d
    = Ok (Some (place_orientations (K - c) self rxn_name bonded (Z.of_nat c) frag d)).
Proof.
  intros K fuel. induction fuel as [|fuel IH]; intros c frag d Hfuel Hd; [lia|].
  cbn [placer_loop]. rewrite loop_condition. fold K.
  destruct (decide (c < K)%nat) as [Hlt|Hge].
  - rewrite bool_decide_eq_true_2 by done.
    rewrite write_structs_ok by done. cbn [mbind result_bind].
    replace (Z.of_nat c + 1) with (Z.of_nat (S c)) by lia.
    rewrite IH by (lia || by apply put_structs_no_candidate_dir).
    replace (K - c)%nat with (S (K - S c)) by lia.
    cbn [place_orientations].
    by replace (Z.of_nat c + 1) with (Z.of_nat (S c)) by lia.
  - rewrite bool_decide_eq_false_2 by done.
    by replace (K - c)%nat with 0%nat by lia.
Qed.

(** For a positive integer increment the number of turns is the integer
    quotient. *)
Lemma floor_rotations_integer (r : Z) :
  0 < r → Qfloor (inject_Z 360 / inject_Z r) = 360 `div` r.
Proof. intros Hr. destruct r as [|p|p]; [lia| |lia]. reflexivity. Qed.

(** C1 (amended). With a rotation increment that is a positive integer
    [r], a site builder that returns [S] placements at every orientation
    and a directory in which no candidate name is a sub-directory, a run
    of [TS_placer] whose fragment set-up succeeds ends (given enough fuel
    for the loop) after [K = floor(360 / r)] orientations: the file of
    site [i] at orientation [k] is numbered [i + S * k], no other file is
    touched, the numbers give pairwise distinct names, and into an empty
    directory exactly [S * K] files are written. *)
Theorem TS_placer_writes_floor_orientations (self : TS)
    (d : gmap string Entry) (rxn_name : string)
    (r_name_list p_name_list : list string) (images : list Atoms)
    (r : Z) (S fuel : nat) (cand0 cand : Atoms) :
  rotAngle self = inject_Z r →
  0 < r →
  no_candidate_dir rxn_name d →
  (∀ frag bonded, length (add_adsorbate (slab self) frag bonded) = S) →
  choose_TS_candidate r_name_list p_name_list images = Ok cand0 →
  orient_TS_candidate self cand0 (placement_rule (get_chemical_formula cand0))
    = Ok cand →
  let K := Z.to_nat (360 `div` r) in
  let bonded := bondedThrough (placement_rule (get_chemical_formula cand0)) in
  (K < fuel)%nat →
  ∃ d',
    TS_placer fuel self d rxn_name r_name_list p_name_list images = Ok (Some d') ∧
    (∀ (k i : nat) struc, (k < K)%nat →
       add_adsorbate (slab self) (orientation (rotAngle self) k cand) bonded !! i
         = Some struc →
       d' !! candidate_name rxn_name (i + S * k)
       = Some (EFile (Structure (big_slab_ads (slab self) (repeats self) struc)))) ∧
    (∀ name, name ∉ candidate_name rxn_name <$> seq 0 (S * K) →
             d' !! name = d !! name) ∧
    (∀ n m, candidate_name rxn_name n = candidate_name rxn_name m → n = m) ∧
    (d = ∅ →
     dom d' = list_to_set (candidate_name rxn_name <$> seq 0 (S * K)) ∧
     size d' = (S * K)%nat).
Proof.
  intros Hint Hr Hd Hsites Hchoose Horient K bonded Hfuel.
  assert (Hpos : (0 < rotAngle self)%Q).
  { rewrite Hint. change (inject_Z 0 < inject_Z r)%Q. by rewrite <- Zlt_Qlt. }
  assert (HK : Z.to_nat (Qfloor (inject_Z 360 / rotAngle self)) = K).
  { by rewrite Hint, floor_rotations_integer. }
  pose proof (placer_loop_terminates self rxn_name bonded fuel 0 cand d) as Hloop.
  cbv zeta in Hloop. rewrite HK, Nat.sub_0_r in Hloop.
  specialize (Hloop Hfuel Hd).
  destruct (place_orientations_spec self rxn_name bonded S (fun f => Hsites f bonded)
              K 0%nat cand d) as [Ha Hb].
  set (d' := place_orientations K self rxn_name bonded (Z.of_nat 0) cand d) in *.
  assert (Hlook : ∀ (k i : nat) struc, (k < K)%nat →
    add_adsorbate (slab self) (orientation (rotAngle self) k cand) bonded !! i
      = Some struc →
    d' !! candidate_name rxn_name (i + S * k)
    = Some (EFile (Structure (big_slab_ads (slab self) (repeats self) struc)))).
  { intros k i struc Hk Hi. by apply (Ha k i struc Hk) in Hi. }
  assert (Hother : ∀ name, name ∉ candidate_name rxn_name <$> seq 0 (S * K) →
                           d' !! name = d !! name).
  { intros name Hname. apply Hb. intros k i Hk Hi ->. apply Hname.
    apply list_elem_of_fmap. exists (i + S * k)%nat. split; [done|].
    apply elem_of_seq. nia. }
  exists d'. split; [|split; [exact Hlook|split; [exact Hother|split]]].
  - unfold TS_placer. rewrite Hchoose. simpl. rewrite Horient. simpl.
    destruct (Qeq_bool (rotAngle self) (0 # 1)) eqn:Ez.
    + apply Qeq_bool_eq in Ez. rewrite Ez in Hpos. by apply Qlt_irrefl in Hpos.
    + exact Hloop.
  - apply candidate_name_inj.
  - intros ->.
    assert (Hdom : dom d' = list_to_set (candidate_name rxn_name <$> seq 0 (S * K))).
    { apply set_eq. intros name. rewrite elem_of_dom, elem_of_list_to_set.
      split.
      - intros Hsome.
        destruct (decide (name ∈ candidate_name rxn_name <$> seq 0 (S * K)))
          as [|Hnot]; [done|].
        rewrite (Hother name Hnot), lookup_empty in Hsome. by destruct Hsome.
      - intros Hin. apply list_elem_of_fmap in Hin as (n & -> & Hn).
        apply elem_of_seq in Hn.
        assert (HS : (0 < S)%nat) by nia.
        assert (Hk : (n / S < K)%nat) by (apply Nat.Div0.div_lt_upper_bound; lia).
        assert (Hi : (n mod S < S)%nat) by (apply Nat.mod_upper_bound; lia).
        destruct (lookup_lt_is_Some_2
                    (add_adsorbate (slab self)
                       (orientation (rotAngle self) (n / S) cand) bonded)
                    (n mod S)) as [struc Hstruc].
        { by rewrite Hsites. }
        pose proof (Hlook _ _ _ Hk Hstruc) as Hl.
        replace (n mod S + S * (n / S))%nat with n in Hl
          by (rewrite (Nat.div_mod_eq n S) at 1; lia).
        by rewrite Hl. }
    split; [exact Hdom|].
    rewrite <- size_dom, Hdom, size_list_to_set.
    + by rewrite length_fmap, length_seq.
    + apply NoDup_fmap_2; [|apply NoDup_seq].
      intros n m. apply candidate_name_inj.
Qed.

End Placer.

Lemma TS_placer_writes_floor_orientations_witness :
  let K := Z.to_nat (360 `div` 100) in
  ∃ d',
    @TS_placer Demo.lib 10 Demo.self_100 ∅ "OH_O+H" ["OH"] ["O"; "H"] []
      = Ok (Some d') ∧
    (∀ (k i : nat) struc, (k < K)%nat →
       @add_adsorbate Demo.lib (Demo.mk "slab")
         (@orientation Demo.lib (100 # 1) k (Demo.mk "molecule:OH")) [0] !! i
         = Some struc →
       d' !! candidate_name "OH_O+H" (i + 2 * k)
       = Some (@EFile Demo.lib (@Structure Demo.lib struc))) ∧
    (∀ name, name ∉ candidate_name "OH_O+H" <$> seq 0 (2 * K) →
             d' !! name = (∅ : gmap string (@Entry Demo.lib)) !! name) ∧
    (∀ n m, candidate_name "OH_O+H" n = candidate_name "OH_O+H" m → n = m) ∧
    ((∅ : gmap string (@Entry Demo.lib)) = ∅ →
     dom d' = list_to_set (candidate_name "OH_O+H" <$> seq 0 (2 * K)) ∧
     size d' = (2 * K)%nat).
Proof.
  apply (@TS_placer_writes_floor_orientations Demo.lib Demo.self_100 ∅ "OH_O+H"
           ["OH"] ["O"; "H"] [] 100 2 10
           (Demo.mk "molecule:OH") (Demo.mk "molecule:OH")).
  - reflexivity.
  - lia.
  - intros n c. by rewrite lookup_empty.
  - intros frag bonded. reflexivity.
  - reflexivity.
  - reflexivity.
  - vm_compute. lia.
Defined.

(** C1, as stated, at a rotation increment of 100 degrees with two sites per
    orientation: the placer writes 6 files (orientations 0, 100 and 200
    degrees), not 2 * ceil(360 / 100) = 8. *)
Lemma TS_placer_ceil_counterexample :
  Demo.files_written
    (@TS_placer Demo.lib 10 Demo.self_100 ∅ "OH_O+H" ["OH"] ["O"; "H"] [])
  = Ok (Some 6%nat) ∧
  (2 * Z.to_nat (Qceiling (inject_Z 360 / (100 # 1))) = 8)%nat ∧
  Demo.files_written
    (@TS_placer Demo.lib 10 Demo.self_100 ∅ "OH_O+H" ["OH"] ["O"; "H"] [])
  ≠ Ok (Some (2 * Z.to_nat (Qceiling (inject_Z 360 / (100 # 1))))%nat).
Proof.
  split; [vm_compute; reflexivity|]. split; [vm_compute; reflexivity|].
  vm_compute. discriminate.
Qed.

(** ** Three-digit prefixes and the order of file names *)

Lemma strictly_increasing_lookup l (i j : nat) x y :
  strictly_increasing l = true → (i < j)%nat →
  l !! i = Some x → l !! j = Some y → String.ltb x y = true.
Proof.
  revert i j. induction l as [|z l IH]; intros i j Hs Hij Hi Hj; [done|].
  simpl in Hs. apply andb_true_iff in Hs as [Hz Hl].
  destruct j as [|j]; [lia|]. destruct i as [|i].
  - injection Hi as ->. simpl in Hj.
    rewrite forallb_forall in Hz. apply Hz.
    apply list_elem_of_In, list_elem_of_lookup. eauto.
  - apply (IH i j); [done | lia | done | done].
Qed.

Lemma prefixes_strictly_increasing :
  strictly_increasing ((fun n => Py.zfill 3 (Py.str n)) <$> seq 0 1000) = true.
Proof. vm_compute. reflexivity. Qed.

Lemma prefixes_length :
  forallb (fun n => (String.length (Py.zfill 3 (Py.str n)) =? 3)%nat) (seq 0 1000)
  = true.
Proof. vm_compute. reflexivity. Qed.

Lemma zfill3_length n :
  (n < 1000)%nat → String.length (Py.zfill 3 (Py.str n)) = 3%nat.
Proof.
  intros Hn. pose proof prefixes_length as Hall.
  rewrite forallb_forall in Hall. apply Nat.eqb_eq, Hall.
  apply in_seq. lia.
Qed.

Lemma zfill3_ltb n m :
  (n < m)%nat → (m < 1000)%nat →
  String.ltb (Py.zfill 3 (Py.str n)) (Py.zfill 3 (Py.str m)) = true.
Proof.
  intros Hnm Hm.
  apply (strictly_increasing_lookup _ n m _ _ prefixes_strictly_increasing Hnm).
  - rewrite list_lookup_fmap, lookup_seq_lt by lia. done.
  - rewrite list_lookup_fmap, lookup_seq_lt by lia. done.
Qed.

(** With prefixes of equal length the comparison is decided in the prefix. *)
Lemma compare_app_lt (a b r1 r2 : string) :
  String.length a = String.length b →
  String.compare a b = Lt → String.compare (a +:+ r1) (b +:+ r2) = Lt.
Proof.
  revert b. induction a as [|x a IH]; intros [|y b] Hlen Hcmp; simpl in *; try done.
  destruct (Ascii.compare x y); [|done|done].
  apply IH; [lia | done].
Qed.

Lemma compare_refl (s : string) : String.compare s s = Eq.
Proof.
  induction s as [|a s IH]; simpl; [done|].
  unfold Ascii.compare. by rewrite N.compare_refl.
Qed.

Lemma numbered_name_lt (f g : nat * string) :
  (f.1 < g.1)%nat → (g.1 < 1000)%nat →
  String.compare (numbered_name f) (numbered_name g) = Lt.
Proof.
  intros Hfg Hg. unfold numbered_name. apply compare_app_lt.
  - by rewrite !zfill3_length by lia.
  - pose proof (zfill3_ltb f.1 g.1 Hfg Hg) as Hlt. unfold String.ltb in Hlt.
    by destruct (String.compare _ _).
Qed.

Lemma numbered_name_inj (f g : nat * string) :
  (f.1 < 1000)%nat → (g.1 < 1000)%nat →
  numbered_name f = numbered_name g → f = g.
Proof.
  intros Hf Hg E.
  destruct (Nat.lt_trichotomy f.1 g.1) as [Hlt|[Heq|Hgt]].
  - pose proof (numbered_name_lt f g Hlt Hg) as Hc.
    rewrite E, compare_refl in Hc. done.
  - unfold numbered_name in E. rewrite Heq in E.
    apply String.app_inj in E. destruct f, g; simpl in *. congruence.
  - pose proof (numbered_name_lt g f Hgt Hf) as Hc.
    rewrite E, compare_refl in Hc. done.
Qed.

Lemma drop_prefix (f : nat * string) :
  (f.1 < 1000)%nat → Py.drop 3 (numbered_name f) = f.2.
Proof.
  intros Hf. unfold numbered_name.
  pose proof (zfill3_length f.1 Hf) as Hlen.
  destruct (Py.zfill 3 (Py.str f.1)) as [|a [|b [|c [|? ?]]]]; simpl in Hlen; try lia.
  done.
Qed.

(** ** The renumbering pass *)

Section Renumbering.
Context {A : Type}.
Implicit Types files : list (nat * string * A).

Lemma names_strongly_sorted files :
  numbered_below_1000 files →
  StronglySorted (fun a b => String.compare a b = Lt)
    ((fun f => numbered_name f.1) <$> files).
Proof.
  intros [Hs Hb]. induction Hs as [|f files Hs IH Hf]; [constructor|].
  inversion Hb as [|?? Hf1000 Hb']; subst.
  rewrite fmap_cons. constructor; [by apply IH|].
  apply Forall_fmap, Forall_forall. intros g Hg. simpl.
  apply numbered_name_lt.
  - rewrite Forall_forall in Hf. by apply Hf.
  - rewrite Forall_forall in Hb'. by apply Hb'.
Qed.

Lemma compare_lt_sorted (l : list string) :
  StronglySorted (fun a b => String.compare a b = Lt) l →
  Sorted String.le l ∧ NoDup l.
Proof.
  intros Hs. split.
  - apply StronglySorted_Sorted.
    induction Hs as [|x l Hs IH Hx]; constructor; [done|].
    eapply Forall_impl; [exact Hx|].
    intros b Hab. unfold String.le, String.leb. by rewrite Hab.
  - induction Hs as [|x l Hs IH Hx]; constructor; [|done].
    intros Hin. rewrite Forall_forall in Hx. specialize (Hx x Hin).
    by rewrite compare_refl in Hx.
Qed.

Lemma sorted_listdir_dir_of files :
  numbered_below_1000 files →
  Py.sorted (listdir (dir_of files)) = (fun f => numbered_name f.1) <$> files.
Proof.
  intros Hnum.
  destruct (compare_lt_sorted _ (names_strongly_sorted files Hnum)) as [Hsorted Hnodup].
  apply (Sorted_unique String.le).
  - apply Sorted_merge_sort; apply _.
  - exact Hsorted.
  - unfold Py.sorted. rewrite merge_sort_Permutation.
    unfold listdir, dir_of. rewrite dom_list_to_map_L.
    rewrite <- list_fmap_compose.
    by apply elements_list_to_set.
Qed.

Lemma dir_of_cons (f : nat * string * A) files :
  dir_of (f :: files) = <[numbered_name f.1 := f.2]> (dir_of files).
Proof. done. Qed.

Lemma renumbered_from_cons p (f : nat * string * A) files :
  renumbered_from p (f :: files)
  = (p, f.1.2, f.2) :: renumbered_from (S p) files.
Proof.
  unfold renumbered_from. rewrite imap_cons, Nat.add_0_r. f_equal.
  apply imap_ext. intros j g _. simpl. do 2 f_equal. lia.
Qed.

Lemma numbered_below_1000_tail (f : nat * string * A) files :
  numbered_below_1000 (f :: files) →
  (f.1.1 < 1000)%nat ∧
  Forall (fun g => (f.1.1 < g.1.1)%nat) files ∧
  numbered_below_1000 files.
Proof.
  intros [Hs Hb]. inversion Hs; inversion Hb; subst. by repeat split.
Qed.

(** A later file has another name than [f], whatever number below it
    [f] is given. *)
Lemma dir_of_lookup_fresh (g : nat * string) (n : nat) files :
  (g.1 ≤ n)%nat →
  Forall (fun f => (n < f.1.1)%nat) files →
  Forall (fun f => (f.1.1 < 1000)%nat) files →
  dir_of files !! numbered_name g = None.
Proof.
  intros Hg Hn Hb. apply not_elem_of_list_to_map.
  rewrite <- list_fmap_compose. intros Hin.
  apply list_elem_of_fmap in Hin as (f & E & Hf). simpl in E.
  rewrite Forall_forall in Hn, Hb.
  specialize (Hn f Hf). specialize (Hb f Hf).
  apply numbered_name_inj in E; [|lia|done]. rewrite E in Hg. lia.
Qed.

Lemma renumbered_below_1000 p files :
  (p + length files ≤ 1000)%nat →
  numbered_below_1000 (renumbered_from p files) ∧
  Forall (fun f => (p ≤ f.1.1)%nat) (renumbered_from p files).
Proof.
  revert p. induction files as [|f files IH]; intros p Hlen.
  - repeat split; constructor.
  - rewrite renumbered_from_cons. simpl in Hlen.
    destruct (IH (S p)) as [[Hs Hb] Hge]; [lia|].
    split; [split|]; constructor; simpl; try done; try lia;
      eapply Forall_impl; try exact Hge; simpl; lia.
Qed.

Lemma numbered_length p files :
  numbered_below_1000 files →
  Forall (fun f => (p ≤ f.1.1)%nat) files →
  (p + length files ≤ 1000)%nat ∨ files = [].
Proof.
  revert p. induction files as [|f files IH]; intros p Hnum Hge; [by right|].
  left. apply numbered_below_1000_tail in Hnum as (Hf & Hlt & Hnum).
  inversion Hge as [|?? Hpf _]; subst.
  destruct (IH (S f.1.1) Hnum) as [Hlen | ->]; simpl; [|lia|lia].
  eapply Forall_impl; [exact Hlt|]. simpl. lia.
Qed.

End Renumbering.

Section RenumberingPass.
Context `{Chem}.
Implicit Types files : list (nat * string * Entry).

(** The loop of [renumber] from position [p]: [D] holds the files already
    renamed (numbers below [p]), [files] those still to be renamed. *)
Lemma renumber_loop files (p : nat) (D : gmap string Entry) :
  numbered_below_1000 files →
  Forall (fun f => (p ≤ f.1.1)%nat) files →
  (∀ key, key ∈ dom D → ∃ g : nat * string, (g.1 < p)%nat ∧ key = numbered_name g) →
  for_each
    (fun d '(prefix, noneqsites) =>
       let prefix := Py.zfill 3 (Py.str prefix) in
       os_rename d noneqsites (prefix +:+ Py.drop 3 noneqsites))
    (D ∪ dir_of files)
    (enumerate_from p ((fun f => numbered_name f.1) <$> files))
  = Ok (D ∪ dir_of (renumbered_from p files)).
Proof.
  revert p D. induction files as [|f files IH]; intros p D Hnum Hge HD; [done|].
  apply numbered_below_1000_tail in Hnum as (Hf & Hlt & Hnum).
  inversion Hge as [|?? Hpf _]; subst.
  rewrite fmap_cons, enumerate_from_cons, renumbered_from_cons, !dir_of_cons.
  cbn [for_each]. rewrite (drop_prefix f.1 Hf).
  set (old := numbered_name f.1).
  change (Py.zfill 3 (Py.str p) +:+ f.1.2) with (numbered_name (p, f.1.2)).
  set (new := numbered_name (p, f.1.2)). cbn [fst snd].
  assert (Hfresh : ∀ g : nat * string, (g.1 ≤ f.1.1)%nat → (g.1 < 1000)%nat →
                     (p ≤ g.1)%nat → D !! numbered_name g = None).
  { intros g Hgf Hg Hpg. apply not_elem_of_dom. intros Hin.
    destruct (HD _ Hin) as (g' & Hg' & E).
    apply numbered_name_inj in E; [|done|lia]. subst g'. lia. }
  assert (HDold : D !! old = None) by (apply Hfresh; lia).
  assert (HDnew : D !! new = None) by (apply Hfresh; simpl; lia).
  assert (HMold : dir_of files !! old = None).
  { apply (dir_of_lookup_fresh f.1 f.1.1); [lia | done | by destruct Hnum]. }
  assert (HMnew : dir_of files !! new = None).
  { apply (dir_of_lookup_fresh (p, f.1.2) f.1.1); [simpl; lia | done | by destruct Hnum]. }
  assert (Hstep : os_rename (D ∪ <[old := f.2]> (dir_of files)) old new
                  = Ok (<[new := f.2]> D ∪ dir_of files)).
  { unfold os_rename.
    rewrite lookup_union_r, lookup_insert_eq by done.
    destruct (decide (old = new)) as [E|Hne].
    - rewrite <- E. by rewrite <- insert_union_l, insert_union_r.
    - assert (Hnone : (D ∪ <[old := f.2]> (dir_of files)) !! new = None).
      { apply lookup_union_None. split; [done|]. by rewrite lookup_insert_ne. }
      rewrite Hnone.
      assert (Hdel : delete old (D ∪ <[old := f.2]> (dir_of files))
                     = D ∪ dir_of files).
      { rewrite delete_union, delete_insert_id, delete_id by done. done. }
      rewrite Hdel, insert_union_l. by destruct f.2. }
  rewrite Hstep. simpl.
  rewrite IH.
  - by rewrite <- !insert_union_l, insert_union_r.
  - exact Hnum.
  - eapply Forall_impl; [exact Hlt|]. simpl. lia.
  - intros key Hkey. rewrite dom_insert_L in Hkey.
    apply elem_of_union in Hkey as [Hkey|Hkey].
    + apply elem_of_singleton in Hkey. exists (p, f.1.2). split; [simpl; lia | done].
    + destruct (HD key Hkey) as (g & Hg & E). exists g. split; [lia | done].
Qed.

(** C3 (amended). When the files of the directory carry three-character
    prefixes (numbers below 1000) that grow strictly along the list, the
    renumbering pass ends normally and gives the [j]-th file, in sorted
    order, the prefix [zfill(j, 3)]: the new numbers are 0..k-1 in the
    order of the old ones, the remainder of each name and the content of
    each file are unchanged, and no file is lost or added. *)
Theorem renumber_contiguous files :
  numbered_below_1000 files →
  Py.sorted (listdir (dir_of files)) = (fun f => numbered_name f.1) <$> files ∧
  renumber (dir_of files) = Ok (dir_of (renumbered_from 0 files)) ∧
  (∀ (j : nat) f, files !! j = Some f →
     dir_of (renumbered_from 0 files) !! (Py.zfill 3 (Py.str j) +:+ f.1.2)
     = Some f.2) ∧
  size (dir_of (renumbered_from 0 files)) = length files.
Proof.
  intros Hnum.
  assert (Hren : numbered_below_1000 (renumbered_from 0 files)).
  { destruct (numbered_length 0 files Hnum) as [Hlen | ->].
    - apply Forall_forall. intros; lia.
    - by apply renumbered_below_1000.
    - split; constructor. }
  destruct (compare_lt_sorted _ (names_strongly_sorted _ Hren)) as [_ Hnodup].
  assert (Hkeys : NoDup ((fun f : nat * string * Entry =>
                            (numbered_name f.1, f.2)) <$> renumbered_from 0 files).*1)
    by (by rewrite <- list_fmap_compose).
  split; [by apply sorted_listdir_dir_of|]. split; [|split].
  - unfold renumber. rewrite sorted_listdir_dir_of, enumerate_from_0 by done.
    rewrite <- (left_id_L ∅ (∪) (dir_of files)).
    rewrite (renumber_loop files 0 ∅ Hnum).
    + by rewrite (left_id_L ∅ (∪)).
    + apply Forall_forall. intros; lia.
    + intros key Hkey. rewrite dom_empty_L in Hkey. by apply elem_of_empty in Hkey.
  - intros j f Hj. unfold dir_of.
    apply elem_of_list_to_map; [exact Hkeys|].
    apply list_elem_of_fmap. exists (j, f.1.2, f.2). split; [done|].
    unfold renumbered_from. apply elem_of_lookup_imap. by exists j, f.
  - unfold dir_of. rewrite map_size_list_to_map by exact Hkeys.
    unfold renumbered_from. by rewrite length_fmap, length_imap.
Qed.

End RenumberingPass.

Lemma renumber_contiguous_witness :
  Py.sorted (listdir (dir_of Demo.survivors))
  = (fun f => numbered_name f.1) <$> Demo.survivors ∧
  @renumber Demo.lib (dir_of Demo.survivors)
  = Ok (dir_of (renumbered_from 0 Demo.survivors)) ∧
  (∀ (j : nat) f, Demo.survivors !! j = Some f →
     dir_of (renumbered_from 0 Demo.survivors) !! (Py.zfill 3 (Py.str j) +:+ f.1.2)
     = Some f.2) ∧
  size (dir_of (renumbered_from 0 Demo.survivors)) = length Demo.survivors.
Proof.
  apply (@renumber_contiguous Demo.lib Demo.survivors).
  split; repeat constructor; simpl; lia.
Defined.

(** The run of the witness: survivors 000, 002 and 005 become 000, 001, 002. *)
Example renumber_survivors_run :
  Demo.listing (@renumber Demo.lib (dir_of Demo.survivors))
  = Ok ["000_OH_O+H.xyz"; "001_OH_O+H.xyz"; "002_OH_O+H.xyz"].
Proof. vm_compute. reflexivity. Qed.

(** C3, as stated, beyond three digits. A survivor numbered 1000 keeps the
    fourth digit of its old number in the new name ("0010_..." instead of
    "001_..."), because the pass cuts exactly three characters. End to end:
    1001 pairwise inequivalent candidates are placed, none is deleted, and
    the renumbering pass leaves 101 files instead of 1001, renamed files
    replacing files not yet renamed. *)
Lemma renumber_four_digit_counterexample :
  Demo.listing (@renumber Demo.lib (dir_of Demo.survivors_1000))
  = Ok ["000_OH_O+H.xyz"; "0010_OH_O+H.xyz"] ∧
  Py.sorted (listdir (dir_of (renumbered_from 0 Demo.survivors_1000)))
  = ["000_OH_O+H.xyz"; "001_OH_O+H.xyz"] ∧
  @renumber Demo.lib (dir_of Demo.survivors_1000)
  ≠ Ok (dir_of (renumbered_from 0 Demo.survivors_1000)) ∧
  Demo.thousand_and_one = Ok (1001%nat, 101%nat).
Proof.
  assert (H1 : Demo.listing (@renumber Demo.lib (dir_of Demo.survivors_1000))
               = Ok ["000_OH_O+H.xyz"; "0010_OH_O+H.xyz"])
    by (vm_compute; reflexivity).
  assert (H2 : Py.sorted (listdir (dir_of (renumbered_from 0 Demo.survivors_1000)))
               = ["000_OH_O+H.xyz"; "001_OH_O+H.xyz"])
    by (vm_compute; reflexivity).
  split; [exact H1|]. split; [exact H2|]. split; [|vm_compute; reflexivity].
  intros E. rewrite E in H1. clear E. unfold Demo.listing in H1.
  rewrite H2 in H1. clear H2.
  apply (f_equal (fun r : result (list string) =>
                    match r with
                    | Ok l => String.length (String.concat "" l)
                    | Err _ => 0%nat
                    end)) in H1.
  vm_compute in H1. discriminate H1.
Qed.

(** * Further properties of the module *)

(** ** Suffixes and slices of Python strings *)

Lemma append_cons (x : ascii) (a b : string) :
  String x a +:+ b = String x (a +:+ b).
Proof. reflexivity. Qed.

Lemma append_nil_l (b : string) : "" +:+ b = b.
Proof. reflexivity. Qed.

Lemma append_assoc (a b c : string) : (a +:+ b) +:+ c = a +:+ (b +:+ c).
Proof.
  induction a as [|x a IH]; [done|]. by rewrite !append_cons, IH.
Qed.

Lemma append_nil_r (a : string) : a +:+ "" = a.
Proof. induction a as [|x a IH]; [done|]. by rewrite append_cons, IH. Qed.

Lemma rev_app_append (s acc : string) :
  String.rev_app s acc = String.rev s +:+ acc.
Proof.
  unfold String.rev. revert acc. induction s as [|a s IH]; intros acc; [done|].
  cbn [String.rev_app]. rewrite (IH (String a acc)), (IH (String a "")).
  by rewrite append_assoc.
Qed.

Lemma rev_append (q r : string) :
  String.rev (q +:+ r) = String.rev r +:+ String.rev q.
Proof.
  induction q as [|a q IH].
  - rewrite append_nil_l. change (String.rev "") with "". by rewrite append_nil_r.
  - rewrite append_cons. unfold String.rev at 1 3. cbn [String.rev_app].
    rewrite !rev_app_append, IH. by rewrite append_assoc.
Qed.

Lemma rev_involutive (s : string) : String.rev (String.rev s) = s.
Proof.
  induction s as [|a s IH]; [done|].
  unfold String.rev at 2. cbn [String.rev_app].
  rewrite rev_app_append, rev_append, IH. done.
Qed.

Lemma rev_length (s : string) : String.length (String.rev s) = String.length s.
Proof.
  induction s as [|a s IH]; [done|].
  unfold String.rev. cbn [String.rev_app].
  rewrite rev_app_append, length_append, IH. cbn. lia.
Qed.

Lemma startswith_spec (p s : string) :
  Py.startswith p s = true ↔ ∃ t, s = p +:+ t.
Proof.
  revert s. induction p as [|a p IH]; intros s; cbn [Py.startswith].
  - split; [by exists s | done].
  - destruct s as [|b s]; [split; [done | by intros [t ?]]|].
    destruct (Ascii.eqb_spec a b) as [->|Hne].
    + rewrite IH. split; intros [t Ht]; exists t.
      * by rewrite append_cons, Ht.
      * rewrite append_cons in Ht. congruence.
    + split; [done|]. intros [t Ht]. rewrite append_cons in Ht. congruence.
Qed.

Lemma startswith_append_l (a b c : string) :
  (String.length a ≤ String.length b)%nat →
  Py.startswith a (b +:+ c) = Py.startswith a b.
Proof.
  revert b. induction a as [|x a IH]; intros [|y b] Hlen; cbn in Hlen;
    try done; [lia|].
  rewrite append_cons. cbn [Py.startswith].
  destruct (Ascii.eqb x y); [|done]. apply IH. lia.
Qed.

(** A suffix test looks at the last [len(p)] characters only. *)
Lemma endswith_append (p q r : string) :
  (String.length p ≤ String.length r)%nat →
  Py.endswith p (q +:+ r) = Py.endswith p r.
Proof.
  intros Hlen. unfold Py.endswith. rewrite rev_append.
  apply startswith_append_l. by rewrite !rev_length.
Qed.

Lemma endswith_spec (p s : string) :
  Py.endswith p s = true ↔ ∃ q, s = q +:+ p.
Proof.
  split.
  - unfold Py.endswith. intros [t Ht]%startswith_spec.
    exists (String.rev t).
    by rewrite <- (rev_involutive s), Ht, rev_append, rev_involutive.
  - intros [q ->]. rewrite endswith_append by done.
    unfold Py.endswith. apply startswith_spec. exists "". by rewrite append_nil_r.
Qed.

Lemma take_append (q r : string) : Py.take (String.length q) (q +:+ r) = q.
Proof.
  induction q as [|a q IH]; [by destruct r|].
  rewrite append_cons. cbn. by rewrite IH.
Qed.

Lemma drop_append (q r : string) : Py.drop (String.length q) (q +:+ r) = r.
Proof.
  induction q as [|a q IH]; [done|]. rewrite append_cons. cbn. by rewrite IH.
Qed.

(** [(q + p)[:-len(p)] = q] *)
Lemma drop_end_append (q p : string) :
  Py.drop_end (String.length p) (q +:+ p) = q.
Proof.
  unfold Py.drop_end. rewrite length_append.
  replace (String.length q + String.length p - String.length p)%nat
    with (String.length q) by lia.
  apply take_append.
Qed.

(** ** Candidate file names *)

Lemma digits_before_underscore (s t : string) (d : Decimal.uint) :
  NilEmpty.uint_of_string s = Some d →
  Py.before_underscore (s +:+ "_" +:+ t) = s.
Proof.
  revert d. induction s as [|a s IH]; intros d Hd.
  - reflexivity.
  - cbn [NilEmpty.uint_of_string] in Hd.
    destruct (NilEmpty.uint_of_string s) as [d'|] eqn:Hs; [|done].
    rewrite append_cons. cbn [Py.before_underscore].
    destruct (Ascii.eqb_spec a "_") as [->|Hne]; [done|].
    by rewrite (IH d').
Qed.

Lemma zfill_str_digits w n :
  ∃ d, NilEmpty.uint_of_string (Py.zfill w (Py.str n)) = Some d.
Proof.
  pose proof (int_zeros_str (w - String.length (Py.str n)) n) as Hint.
  unfold Py.int, NilZero.uint_of_string in Hint. unfold Py.zfill.
  destruct (Py.zeros _ +:+ Py.str n); [done|].
  destruct (NilEmpty.uint_of_string _) as [d|]; [by exists d | done].
Qed.

Lemma candidate_name_shape (rxn_name : string) (n : nat) :
  candidate_name rxn_name n
  = (Py.zfill 3 (Py.str n) +:+ "_" +:+ rxn_name) +:+ ".xyz".
Proof. unfold candidate_name. by rewrite !append_assoc. Qed.

Lemma candidate_name_xyz (rxn_name : string) (n : nat) :
  Py.endswith ".xyz" (candidate_name rxn_name n) = true.
Proof. rewrite candidate_name_shape. apply endswith_spec. by eexists. Qed.

(** X1. A candidate file name parses back: the text before the first
    underscore is the zero-padded number and reads as that number, the name
    ends in ".xyz", and cutting the extension and (for numbers below 1000)
    the four leading characters gives the reaction name. *)
Theorem candidate_name_round_trip (rxn_name : string) (n : nat) :
  Py.before_underscore (candidate_name rxn_name n) = Py.zfill 3 (Py.str n) ∧
  Py.int (Py.before_underscore (candidate_name rxn_name n)) = Some n ∧
  Py.endswith ".xyz" (candidate_name rxn_name n) = true ∧
  Py.drop_end 4 (candidate_name rxn_name n)
  = Py.zfill 3 (Py.str n) +:+ "_" +:+ rxn_name ∧
  ((n < 1000)%nat →
   Py.take 3 (candidate_name rxn_name n) = Py.zfill 3 (Py.str n) ∧
   Py.drop 4 (Py.drop_end 4 (candidate_name rxn_name n)) = rxn_name).
Proof.
  assert (Hprefix : Py.before_underscore (candidate_name rxn_name n)
                    = Py.zfill 3 (Py.str n)).
  { destruct (zfill_str_digits 3 n) as [d Hd].
    unfold candidate_name. by apply (digits_before_underscore _ _ d). }
  pose proof (candidate_name_shape rxn_name n) as Hshape.
  assert (Hcut : Py.drop_end 4 (candidate_name rxn_name n)
                 = Py.zfill 3 (Py.str n) +:+ "_" +:+ rxn_name).
  { rewrite Hshape. apply (drop_end_append _ ".xyz"). }
  split; [exact Hprefix|]. split.
  { rewrite Hprefix. apply (int_zeros_str _ n). }
  split; [apply candidate_name_xyz|].
  split; [exact Hcut|].
  intros Hn. pose proof (zfill3_length n Hn) as Hlen. split.
  - pose proof (take_append (Py.zfill 3 (Py.str n))
                  ("_" +:+ rxn_name +:+ ".xyz")) as Ht.
    by rewrite Hlen in Ht.
  - rewrite Hcut.
    pose proof (drop_append (Py.zfill 3 (Py.str n) +:+ "_") rxn_name) as Hd.
    rewrite length_append, Hlen, append_assoc in Hd. exact Hd.
Qed.

Lemma candidate_name_round_trip_witness :
  Py.before_underscore (candidate_name "OH_O+H" 7) = "007" ∧
  Py.int (Py.before_underscore (candidate_name "OH_O+H" 7)) = Some 7%nat ∧
  Py.endswith ".xyz" (candidate_name "OH_O+H" 7) = true ∧
  Py.drop_end 4 (candidate_name "OH_O+H" 7) = "007_OH_O+H" ∧
  Py.take 3 (candidate_name "OH_O+H" 7) = "007" ∧
  Py.drop 4 (Py.drop_end 4 (candidate_name "OH_O+H" 7)) = "OH_O+H".
Proof.
  destruct (candidate_name_round_trip "OH_O+H" 7) as (H1 & H2 & H3 & H4 & H5).
  destruct H5 as [H5 H6]; [lia|].
  exact (conj H1 (conj H2 (conj H3 (conj H4 (conj H5 H6))))).
Defined.

(** ** The nearest surface atom *)

Lemma Qlist_min_spec (l : list Q) :
  l ≠ [] →
  ∃ m, Qlist_min l = Ok m ∧ m ∈ l ∧ ∀ x, x ∈ l → (m <= x)%Q.
Proof.
  induction l as [|x l IH]; [done|]. intros _.
  destruct (decide (l = [])) as [->|Hl].
  - exists x. cbn. split; [done|]. split; [apply list_elem_of_here|].
    intros z Hz. apply list_elem_of_singleton in Hz as ->. apply Qle_refl.
  - destruct (IH Hl) as (m & Hm & Hin & Hle).
    cbn [Qlist_min]. rewrite Hm.
    destruct (Qle_bool x m) eqn:Hx.
    + exists x. split; [done|]. split; [apply list_elem_of_here|].
      apply Qle_bool_iff in Hx.
      intros z [->|Hz]%elem_of_cons; [apply Qle_refl|].
      eapply Qle_trans; [exact Hx | by apply Hle].
    + exists m. split; [done|]. split; [by apply list_elem_of_further|].
      intros z [->|Hz]%elem_of_cons; [|by apply Hle].
      apply Qlt_le_weak, Qnot_le_lt. intros Hxm.
      apply Qle_bool_iff in Hxm. congruence.
Qed.

Lemma where_first_spec (l : list Q) (m : Q) :
  m ∈ l →
  ∃ (i : nat) y, where_first l m = Ok i ∧ l !! i = Some y ∧ (y == m)%Q ∧
    ∀ (j : nat) y', (j < i)%nat → l !! j = Some y' → ¬ (y' == m)%Q.
Proof.
  induction l as [|x l IH]; intros Hin; [by apply elem_of_nil in Hin|].
  cbn [where_first]. destruct (Qeq_bool x m) eqn:Hx.
  - exists 0%nat, x. apply Qeq_bool_iff in Hx. repeat split; try done.
    intros j y' Hj. lia.
  - assert (Hne : ¬ (x == m)%Q).
    { intros Heq. apply Qeq_bool_iff in Heq. congruence. }
    apply elem_of_cons in Hin as [->|Hin]; [by destruct Hne|].
    destruct (IH Hin) as (i & y & Hw & Hi & Hy & Hfirst).
    exists (S i), y. rewrite Hw. repeat split; try done.
    intros [|j] y' Hj Hl.
    + injection Hl as <-. exact Hne.
    + apply (Hfirst j y'); [lia | done].
Qed.

Section NearestSurfaceAtom.
Context `{Chem}.

(** X2. When the geometry is readable, a line matches the truncated symbol,
    at least one line contains "Cu " and [get_distances] returns one
    distance per surface index, [get_index_surface_atom] returns the index
    of a "Cu " line whose distance to the first matching adsorbate atom is
    the smallest one, and among equally near surface atoms the first. *)
Theorem get_index_surface_atom_nearest (ads_atom : string)
    (d : gmap string Entry) (geom : string) (a : Atoms) (a0 : Z) (ds : list Q) :
  read d geom = Ok a →
  first (adsorbate_hits (first_char ads_atom) 0 (xyz_lines a)) = Ok a0 →
  surface_hits 0 (xyz_lines a) ≠ [] →
  get_distances a a0 (surface_hits 0 (xyz_lines a)) = Ok ds →
  length ds = length (surface_hits 0 (xyz_lines a)) →
  ∃ (z : Z) (i : nat) (m : Q),
    get_index_surface_atom ads_atom d geom = Ok z ∧
    surface_hits 0 (xyz_lines a) !! i = Some z ∧
    ds !! i = Some m ∧
    (∀ x, x ∈ ds → (m <= x)%Q) ∧
    (∀ (j : nat) y, (j < i)%nat → ds !! j = Some y → ¬ (y == m)%Q).
Proof.
  intros Hr Hfirst Hsurf Hds Hlen.
  assert (Hne : ds ≠ []).
  { intros ->. destruct (surface_hits 0 (xyz_lines a)); [done | discriminate]. }
  destruct (Qlist_min_spec ds Hne) as (m & Hm & Hin & Hle).
  destruct (where_first_spec ds m Hin) as (i & y & Hw & Hi & Hy & Hbefore).
  destruct (lookup_lt_is_Some_2 (surface_hits 0 (xyz_lines a)) i) as [z Hz].
  { rewrite <- Hlen. by apply lookup_lt_Some in Hi. }
  exists z, i, y. split.
  - unfold get_index_surface_atom, readlines. rewrite Hr. cbn.
    rewrite scan_surface_hits. cbn. rewrite Hfirst. cbn. rewrite Hds. cbn.
    rewrite Hm. cbn. rewrite Hw. cbn. unfold item. by rewrite Hz.
  - split; [exact Hz|]. split; [exact Hi|]. split.
    + intros x Hx. rewrite Hy. by apply Hle.
    + intros j y' Hj Hl Heq. apply (Hbefore j y' Hj Hl). by rewrite Heq.
Qed.

End NearestSurfaceAtom.

Lemma get_index_surface_atom_nearest_witness :
  ∃ (z : Z) (i : nat) (m : Q),
    @get_index_surface_atom Demo.lib "O" Demo.candidates_dir "000_OH_O+H.xyz" = Ok z ∧
    surface_hits 0 (@xyz_lines Demo.lib (Demo.candidate "c0" (4 # 1) (5 # 1))) !! i
      = Some z ∧
    [4 # 1; 3 # 2] !! i = Some m ∧
    (∀ x, x ∈ [4 # 1; 3 # 2] → (m <= x)%Q) ∧
    (∀ (j : nat) y, (j < i)%nat → [4 # 1; 3 # 2] !! j = Some y → ¬ (y == m)%Q).
Proof.
  apply (@get_index_surface_atom_nearest Demo.lib "O" Demo.candidates_dir
           "000_OH_O+H.xyz" (Demo.candidate "c0" (4 # 1) (5 # 1)) 2 [4 # 1; 3 # 2]).
  - reflexivity.
  - reflexivity.
  - discriminate.
  - reflexivity.
  - reflexivity.
Defined.

(** ** Representatives kept by the Symmetry Deduplicator *)

Section Representatives.
Context `{Chem}.

(** A later entry of the unique list is not equivalent to an earlier one. *)
Lemma symm_scan_good_inequivalent cs (i j : nat) gi gj :
  (i < j)%nat →
  (symm_scan cs).1 !! i = Some gi → (symm_scan cs).1 !! j = Some gj →
  symm_equiv gj gi = false.
Proof.
  revert i j gi gj. induction cs as [|c cs IH] using rev_ind; intros i j gi gj Hij.
  - by intros Hi; cbn in Hi.
  - rewrite symm_scan_snoc. cbn [fst].
    destruct (compare c (symm_scan cs).1) eqn:Hc; [by apply IH|].
    intros Hi Hj.
    destruct (decide (j < length (symm_scan cs).1)%nat) as [Hlt|Hge].
    + rewrite lookup_app_l in Hi, Hj by lia. by apply (IH i j).
    + assert (Hjlen : j = length (symm_scan cs).1).
      { apply lookup_lt_Some in Hj. rewrite length_app in Hj. cbn in Hj. lia. }
      subst j. rewrite lookup_app_l in Hi by lia.
      rewrite lookup_app_r, Nat.sub_diag in Hj by lia. injection Hj as <-.
      unfold compare in Hc.
      destruct (symm_equiv c gi) eqn:He; [|done].
      assert (Hex : existsb (symm_equiv c) (symm_scan cs).1 = true).
      { apply existsb_exists. exists gi. split; [|done].
        apply list_elem_of_In, list_elem_of_lookup. eauto. }
      congruence.
Qed.

(** An entry of the unique list is a candidate that was accepted. *)
Lemma symm_scan_good_origin cs g :
  g ∈ (symm_scan cs).1 →
  ∃ j : nat, cs !! j = Some g ∧ (symm_scan cs).2 !! j = Some false.
Proof.
  induction cs as [|c cs IH] using rev_ind; [by intros Hin%elem_of_nil|].
  rewrite symm_scan_snoc. cbn [fst snd]. intros Hin.
  assert (Hold : g ∈ (symm_scan cs).1 →
                 ∃ j : nat, (cs ++ [c]) !! j = Some g ∧
                   ((symm_scan cs).2 ++ [compare c (symm_scan cs).1]) !! j = Some false).
  { intros Hg. destruct (IH Hg) as (j & Hj & Hr). exists j.
    split; [by apply lookup_app_l_Some | by apply lookup_app_l_Some]. }
  destruct (compare c (symm_scan cs).1) eqn:Hc; [by apply Hold|].
  apply elem_of_app in Hin as [Hg|Hnew]; [by apply Hold|].
  apply list_elem_of_singleton in Hnew as ->.
  exists (length cs). split.
  - by rewrite lookup_app_r, Nat.sub_diag by lia.
  - by rewrite lookup_app_r, symm_scan_length, Nat.sub_diag
      by (rewrite symm_scan_length; lia).
Qed.

Lemma symm_scan_result_prefix cs (i j : nat) r :
  (j < i)%nat → (symm_scan (take i cs)).2 !! j = Some r →
  (symm_scan cs).2 !! j = Some r.
Proof.
  intros Hji Hr. rewrite <- (take_drop i cs).
  destruct (symm_scan_prefix (take i cs) (drop i cs)) as [_ [k ->]].
  by apply lookup_app_l_Some.
Qed.

(** X3. On a directory whose .xyz files are all readable, the structures
    accepted as unique are pairwise inequivalent (a later one is never
    equivalent to an earlier one), and every marked candidate is equivalent
    to a candidate that comes before it and was accepted. *)
Theorem dedup_keeps_one_representative (d : gmap string Entry)
    (structs : list Atoms) :
  Forall2 (fun geom a => read d geom = Ok a) (geomlist d) structs →
  let cs := set_pbc <$> structs in
  let good_adsorbate := (symm_scan cs).1 in
  let result_list := (symm_scan cs).2 in
  checkSymmBeforeXTB d = Ok (notunique_of result_list) ∧
  (∀ (i j : nat) gi gj, (i < j)%nat →
     good_adsorbate !! i = Some gi → good_adsorbate !! j = Some gj →
     symm_equiv gj gi = false) ∧
  (∀ (i : nat) ci,
     cs !! i = Some ci →
     Py.zfill 3 (Py.str i) ∈ notunique_of result_list →
     ∃ (j : nat) cj, (j < i)%nat ∧ cs !! j = Some cj ∧
       result_list !! j = Some false ∧ symm_equiv ci cj = true).
Proof.
  intros Hread cs good_adsorbate result_list.
  split; [|split].
  - unfold checkSymmBeforeXTB.
    rewrite (for_each_symm_body d _ structs) by done.
    subst result_list cs. unfold symm_scan.
    by destruct (symm_scan_from _ _).
  - intros i j gi gj. apply symm_scan_good_inequivalent.
  - intros i ci Hi Hmark. apply elem_of_notunique_of in Hmark.
    subst result_list. rewrite (symm_scan_result cs i ci Hi) in Hmark.
    injection Hmark as Hcmp. unfold compare in Hcmp.
    apply existsb_exists in Hcmp as (cj & Hin & Heq).
    apply list_elem_of_In, symm_scan_good_origin in Hin as (j & Hj & Hr).
    assert (Hji : (j < i)%nat).
    { apply lookup_lt_Some in Hj. rewrite length_take in Hj. lia. }
    exists j, cj. split; [done|]. split.
    + by rewrite lookup_take_lt in Hj.
    + split; [|done]. by apply (symm_scan_result_prefix cs i j).
Qed.

Lemma notunique_of_snoc result_list (b : bool) :
  notunique_of (result_list ++ [b])
  = notunique_of result_list
    ++ (if b then [Py.zfill 3 (Py.str (length result_list))] else []).
Proof.
  rewrite !notunique_of_flat, !enumerate_from_0, enumerate_from_app, flat_map_app.
  f_equal. rewrite enumerate_from_cons. cbn [flat_map].
  by rewrite app_nil_r.
Qed.

(** The marked positions are as many as the [True] results. *)
Lemma notunique_of_length result_list :
  length (notunique_of result_list) = length (filter (fun b => b = true) result_list).
Proof.
  induction result_list as [|b r IH] using rev_ind; [done|].
  rewrite notunique_of_snoc, filter_app, !length_app, IH. destruct b.
  - by rewrite filter_cons_True.
  - by rewrite filter_cons_False.
Qed.

Lemma symm_scan_good_length cs :
  length (symm_scan cs).1 = length (filter (fun b => b = false) (symm_scan cs).2).
Proof.
  induction cs as [|c cs IH] using rev_ind; [done|].
  rewrite symm_scan_snoc. cbn [fst snd]. rewrite filter_app, length_app, <- IH.
  destruct (compare c _).
  - rewrite filter_cons_False by done. cbn. lia.
  - rewrite filter_cons_True by done. by rewrite length_app.
Qed.

(** X4. Every candidate is either marked or accepted: the number of marked
    positions plus the length of the unique list is the number of
    candidates; and position 0 is never marked. *)
Theorem dedup_partitions_candidates (d : gmap string Entry)
    (structs : list Atoms) :
  Forall2 (fun geom a => read d geom = Ok a) (geomlist d) structs →
  let cs := set_pbc <$> structs in
  checkSymmBeforeXTB d = Ok (notunique_of (symm_scan cs).2) ∧
  (length (notunique_of (symm_scan cs).2) + length (symm_scan cs).1
   = length (geomlist d))%nat ∧
  "000" ∉ notunique_of (symm_scan cs).2.
Proof.
  intros Hread cs. split; [|split].
  - unfold checkSymmBeforeXTB.
    rewrite (for_each_symm_body d _ structs) by done.
    subst cs. unfold symm_scan. by destruct (symm_scan_from _ _).
  - rewrite (Forall2_length _ _ _ Hread).
    rewrite notunique_of_length, symm_scan_good_length.
    replace (length structs) with (length (symm_scan cs).2)
      by (subst cs; by rewrite symm_scan_length, length_fmap).
    generalize (symm_scan cs).2 as r. intros r.
    induction r as [|b r IH]; [done|]. destruct b.
    + rewrite (filter_cons_True (fun b => b = true)) by done.
      rewrite (filter_cons_False (fun b => b = false)) by done.
      cbn [length]. lia.
    + rewrite (filter_cons_False (fun b => b = true)) by done.
      rewrite (filter_cons_True (fun b => b = false)) by done.
      cbn [length]. lia.
  - change "000" with (Py.zfill 3 (Py.str 0)). rewrite elem_of_notunique_of.
    destruct cs as [|c cs'] eqn:E; [done|].
    rewrite (symm_scan_result (c :: cs') 0 c) by done. done.
Qed.

End Representatives.

Lemma dedup_keeps_one_representative_witness :
  let cs := @set_pbc Demo.lib <$> Demo.dedup_structs in
  let good_adsorbate := (@symm_scan Demo.lib cs).1 in
  let result_list := (@symm_scan Demo.lib cs).2 in
  @checkSymmBeforeXTB Demo.lib Demo.dedup_dir = Ok (notunique_of result_list) ∧
  (∀ (i j : nat) gi gj, (i < j)%nat →
     good_adsorbate !! i = Some gi → good_adsorbate !! j = Some gj →
     @symm_equiv Demo.lib gj gi = false) ∧
  (∀ (i : nat) ci,
     cs !! i = Some ci →
     Py.zfill 3 (Py.str i) ∈ notunique_of result_list →
     ∃ (j : nat) cj, (j < i)%nat ∧ cs !! j = Some cj ∧
       result_list !! j = Some false ∧ @symm_equiv Demo.lib ci cj = true).
Proof.
  apply (@dedup_keeps_one_representative Demo.lib Demo.dedup_dir Demo.dedup_structs).
  assert (Hlist : geomlist Demo.dedup_dir
                  = ["000_OH_O+H.xyz"; "001_OH_O+H.xyz"; "002_OH_O+H.xyz"])
    by (vm_compute; reflexivity).
  rewrite Hlist. repeat constructor.
Defined.

Lemma dedup_partitions_candidates_witness :
  let cs := @set_pbc Demo.lib <$> Demo.dedup_structs in
  @checkSymmBeforeXTB Demo.lib Demo.dedup_dir
  = Ok (notunique_of (@symm_scan Demo.lib cs).2) ∧
  (length (notunique_of (@symm_scan Demo.lib cs).2)
   + length (@symm_scan Demo.lib cs).1
   = length (geomlist Demo.dedup_dir))%nat ∧
  "000" ∉ notunique_of (@symm_scan Demo.lib cs).2.
Proof.
  apply (@dedup_partitions_candidates Demo.lib Demo.dedup_dir Demo.dedup_structs).
  assert (Hlist : geomlist Demo.dedup_dir
                  = ["000_OH_O+H.xyz"; "001_OH_O+H.xyz"; "002_OH_O+H.xyz"])
    by (vm_compute; reflexivity).
  rewrite Hlist. repeat constructor.
Defined.

(** ** The renumbering pass on a directory of regular files *)

Section RenumberTotal.
Context `{Chem}.

Lemma os_rename_files d old new :
  only_files d → is_Some (d !! old) →
  ∃ d', os_rename d old new = Ok d' ∧ only_files d' ∧
    (size d' ≤ size d)%nat ∧
    (∀ name e, d' !! name = Some e → ∃ o, d !! o = Some e) ∧
    (∀ name, name ≠ old → is_Some (d !! name) → is_Some (d' !! name)).
Proof.
  intros Hfiles [e He]. unfold os_rename. rewrite He.
  destruct (decide (old = new)) as [->|Hne].
  - exists d. repeat split; eauto.
  - destruct (Hfiles old e He) as [f ->].
    assert (Hres : match d !! new with
                   | Some (EDir _) => Err IsADirectoryError
                   | _ => Ok (<[new := EFile f]> (delete old d))
                   end = Ok (<[new := EFile f]> (delete old d))).
    { destruct (d !! new) as [[g|c]|] eqn:En; try done.
      by destruct (Hfiles new _ En). }
    exists (<[new := EFile f]> (delete old d)). split; [exact Hres|].
    split; [|split; [|split]].
    + intros name e Hl. destruct (decide (new = name)) as [<-|Hn].
      * rewrite lookup_insert_eq in Hl. injection Hl as <-. eauto.
      * rewrite lookup_insert_ne in Hl by done.
        apply lookup_delete_Some in Hl as [_ Hl]. by apply (Hfiles name).
    + destruct (d !! new) as [x|] eqn:En.
      * rewrite map_size_insert_Some.
        -- rewrite map_size_delete_Some by eauto. lia.
        -- rewrite lookup_delete_ne by done. eauto.
      * rewrite map_size_insert_None by (by rewrite lookup_delete_ne).
        rewrite map_size_delete_Some by eauto.
        assert (0 < size d)%nat; [|lia].
        destruct (decide (size d = 0%nat)) as [Hz|]; [|lia].
        apply map_size_empty_inv in Hz. subst d. by rewrite lookup_empty in He.
    + intros name e Hl. destruct (decide (new = name)) as [<-|Hn].
      * rewrite lookup_insert_eq in Hl. injection Hl as <-. eauto.
      * rewrite lookup_insert_ne in Hl by done.
        apply lookup_delete_Some in Hl as [_ Hl]. eauto.
    + intros name Hn Hsome. destruct (decide (new = name)) as [<-|Hn'].
      * rewrite lookup_insert_eq. eauto.
      * by rewrite lookup_insert_ne, lookup_delete_ne.
Qed.

Lemma renumber_loop_files (l : list string) (p : nat) (d : gmap string Entry) :
  NoDup l → only_files d → (∀ name, name ∈ l → is_Some (d !! name)) →
  ∃ d',
    for_each
      (fun d '(prefix, noneqsites) =>
         let prefix := Py.zfill 3 (Py.str prefix) in
         os_rename d noneqsites (prefix +:+ Py.drop 3 noneqsites))
      d (enumerate_from p l) = Ok d' ∧
    only_files d' ∧ (size d' ≤ size d)%nat ∧
    (∀ name e, d' !! name = Some e → ∃ o, d !! o = Some e).
Proof.
  revert p d. induction l as [|x l IH]; intros p d Hnd Hfiles Hin.
  - exists d. repeat split; eauto.
  - rewrite enumerate_from_cons. cbn [for_each].
    apply NoDup_cons in Hnd as [Hx Hnd].
    destruct (os_rename_files d x (Py.zfill 3 (Py.str p) +:+ Py.drop 3 x) Hfiles)
      as (d1 & Hr & Hf1 & Hs1 & Ho1 & Hk1).
    { apply Hin, list_elem_of_here. }
    rewrite Hr. cbn.
    destruct (IH (S p) d1 Hnd Hf1) as (d' & Hloop & Hf' & Hs' & Ho').
    { intros name Hname. apply Hk1.
      - intros ->. done.
      - by apply Hin, list_elem_of_further. }
    exists d'. split; [exact Hloop|]. split; [exact Hf'|]. split; [lia|].
    intros name e Hl. destruct (Ho' name e Hl) as [o Ho]. by apply (Ho1 o).
Qed.

(** X5. On a directory that holds regular files only, whatever their
    names, the renumbering pass never raises; it leaves regular files only,
    never more files than before, and the content of every file it leaves is
    the content of a file that was there. *)
Theorem renumber_total_on_files (d : gmap string Entry) :
  (∀ name e, d !! name = Some e → ∃ f, e = EFile f) →
  ∃ d',
    renumber d = Ok d' ∧
    (∀ name e, d' !! name = Some e → ∃ f, e = EFile f) ∧
    (size d' ≤ size d)%nat ∧
    (∀ name e, d' !! name = Some e → ∃ old, d !! old = Some e).
Proof.
  intros Hfiles. unfold renumber. rewrite enumerate_from_0.
  apply renumber_loop_files; [|exact Hfiles|].
  - unfold Py.sorted. rewrite merge_sort_Permutation. apply NoDup_elements.
  - intros name Hname. apply sorted_listdir_elem in Hname.
    by apply elem_of_dom.
Qed.

End RenumberTotal.

Lemma renumber_total_on_files_witness :
  ∃ d',
    @renumber Demo.lib (dir_of Demo.survivors_1000) = Ok d' ∧
    (∀ name e, d' !! name = Some e → ∃ f, e = @EFile Demo.lib f) ∧
    (size d' ≤ size (dir_of Demo.survivors_1000))%nat ∧
    (∀ name e, d' !! name = Some e →
       ∃ old, dir_of Demo.survivors_1000 !! old = Some e).
Proof.
  apply (@renumber_total_on_files Demo.lib (dir_of Demo.survivors_1000)).
  intros name e Hl.
  unfold dir_of, Demo.survivors_1000 in Hl. cbn [fmap list_fmap list_to_map foldr] in Hl.
  apply lookup_insert_Some in Hl as [[_ <-]|[_ Hl]]; [eexists; reflexivity|].
  apply lookup_insert_Some in Hl as [[_ <-]|[_ Hl]]; [eexists; reflexivity|].
  by rewrite lookup_empty in Hl.
Defined.

(** ** Clean-up of a directory written by the placer, end to end *)

Lemma append_inj_r (s s' t : string) : s +:+ t = s' +:+ t → s = s'.
Proof.
  intros E.
  assert (Hlen : String.length s = String.length s').
  { apply (f_equal String.length) in E. rewrite !length_append in E. lia. }
  revert s' E Hlen. induction s as [|a s IH]; intros [|b s'] E Hlen;
    cbn in Hlen; try done.
  rewrite !append_cons in E. injection E as -> E. f_equal. apply IH; [done|lia].
Qed.

Lemma filter_all {A} (P : A → Prop) `{∀ x, Decision (P x)} (l : list A) :
  (∀ x, x ∈ l → P x) → filter P l = l.
Proof.
  induction l as [|x l IH]; intros Hall; [done|].
  rewrite filter_cons_True by apply Hall, list_elem_of_here.
  f_equal. apply IH. intros y Hy. by apply Hall, list_elem_of_further.
Qed.

Lemma elem_of_notunique_of_inv result_list s :
  s ∈ notunique_of result_list →
  ∃ i : nat, s = Py.zfill 3 (Py.str i) ∧ result_list !! i = Some true.
Proof.
  rewrite notunique_of_flat, enumerate_from_0, list_elem_of_In, in_flat_map.
  intros ([num res] & Hin & Hs).
  apply list_elem_of_In, elem_of_enumerate_from in Hin as (k & -> & Hk).
  destruct res; [|by destruct Hs]. destruct Hs as [<-|[]]. by exists k.
Qed.

Lemma notunique_of_NoDup result_list : NoDup (notunique_of result_list).
Proof.
  induction result_list as [|b r IH] using rev_ind; [constructor|].
  rewrite notunique_of_snoc. destruct b; [|by rewrite app_nil_r].
  apply NoDup_app. split; [done|]. split; [|apply NoDup_singleton].
  intros s Hs Hs'. apply list_elem_of_singleton in Hs' as ->.
  apply elem_of_notunique_of in Hs. apply lookup_lt_Some in Hs. lia.
Qed.

Section CleanUpOfPlacerOutput.
Context `{Chem}.
Implicit Types files : list (nat * string * Entry).

(** When every listed file is there as a regular file, the deletion loop
    removes exactly the listed files and prints nothing. *)
Lemma remove_duplicates_present rxn_name (l : list string)
    (d0 : gmap string Entry) (out0 : list string) :
  NoDup (file_to_remove rxn_name <$> l) →
  (∀ s, s ∈ l → ∃ f, d0 !! file_to_remove rxn_name s = Some (EFile f)) →
  let res :=
    fold_left
      (fun '(d, stdout) eqsites =>
         let fileToRemove := eqsites +:+ "_" +:+ rxn_name +:+ ".xyz" in
         match os_remove d fileToRemove with
         | Ok d' => (d', stdout)
         | Err _ => (d, stdout ++ ["Error while deleting file :  " +:+ fileToRemove])
         end) l (d0, out0) in
  res.2 = out0 ∧
  ∀ name, res.1 !! name
          = if bool_decide (name ∈ file_to_remove rxn_name <$> l) then None
            else d0 !! name.
Proof.
  revert d0. induction l as [|x l IH]; intros d0 Hnd Hpresent.
  - cbn. split; [done|]. intros name.
    by rewrite bool_decide_eq_false_2 by apply not_elem_of_nil.
  - rewrite fmap_cons in Hnd. apply NoDup_cons in Hnd as [Hx Hnd].
    cbn [fold_left]. fold (file_to_remove rxn_name x).
    destruct (Hpresent x) as [f Hf]; [apply list_elem_of_here|].
    unfold os_remove. rewrite Hf.
    destruct (IH (delete (file_to_remove rxn_name x) d0) Hnd) as [Hout Hlook].
    { intros s Hs. destruct (Hpresent s) as [g Hg]; [by apply list_elem_of_further|].
      exists g. rewrite lookup_delete_ne; [done|].
      intros E. apply Hx. rewrite E. by apply list_elem_of_fmap_2. }
    split; [exact Hout|]. intros name. rewrite Hlook, fmap_cons.
    destruct (decide (name = file_to_remove rxn_name x)) as [->|Hne].
    + rewrite lookup_delete_eq.
      rewrite (bool_decide_eq_true_2 (_ ∈ _ :: _)) by apply list_elem_of_here.
      by destruct (bool_decide _).
    + rewrite lookup_delete_ne by done.
      apply (f_equal (fun b : bool => if b then None else d0 !! name)).
      apply bool_decide_ext. rewrite elem_of_cons. tauto.
Qed.

(** The renumbering pass on a well-numbered directory. *)
Lemma renumber_dir_of files :
  numbered_below_1000 files →
  renumber (dir_of files) = Ok (dir_of (renumbered_from 0 files)).
Proof.
  intros Hnum. unfold renumber.
  rewrite sorted_listdir_dir_of, enumerate_from_0 by done.
  rewrite <- (left_id_L ∅ (∪) (dir_of files)).
  rewrite (renumber_loop files 0 ∅ Hnum).
  - by rewrite (left_id_L ∅ (∪)).
  - apply Forall_forall. intros; lia.
  - intros key Hkey. rewrite dom_empty_L in Hkey. by apply elem_of_empty in Hkey.
Qed.

Lemma names_NoDup files :
  numbered_below_1000 files →
  NoDup ((fun f : nat * string * Entry => (numbered_name f.1, f.2)) <$> files).*1.
Proof.
  intros Hnum.
  destruct (compare_lt_sorted _ (names_strongly_sorted _ Hnum)) as [_ Hnd].
  by rewrite <- list_fmap_compose.
Qed.

Lemma dir_of_lookup_Some files f :
  numbered_below_1000 files → f ∈ files →
  dir_of files !! numbered_name f.1 = Some f.2.
Proof.
  intros Hnum Hf. unfold dir_of.
  apply elem_of_list_to_map; [by apply names_NoDup|].
  apply list_elem_of_fmap. by exists f.
Qed.

Lemma dir_of_lookup_inv files name e :
  dir_of files !! name = Some e →
  ∃ f, f ∈ files ∧ name = numbered_name f.1 ∧ e = f.2.
Proof.
  intros Hl. unfold dir_of in Hl. apply elem_of_list_to_map_2 in Hl.
  apply list_elem_of_fmap in Hl as (f & [= -> ->] & Hf). by exists f.
Qed.

Lemma numbered_filter (P : nat * string * Entry → Prop) `{∀ f, Decision (P f)} files :
  numbered_below_1000 files → numbered_below_1000 (filter P files).
Proof.
  intros [Hs Hb]. split.
  - induction Hs as [|f files Hs IH Hf]; [constructor|].
    inversion Hb as [|?? _ Hb']; subst.
    destruct (decide (P f)).
    + rewrite filter_cons_True by done. constructor; [by apply IH|].
      apply Forall_forall. intros g Hg. apply list_elem_of_filter in Hg as [_ Hg].
      rewrite Forall_forall in Hf. by apply Hf.
    + rewrite filter_cons_False by done. by apply IH.
  - apply Forall_forall. intros f Hf. apply list_elem_of_filter in Hf as [_ Hf].
    rewrite Forall_forall in Hb. by apply Hb.
Qed.

Lemma placer_files_numbered rxn_name (structs : list Atoms) :
  (length structs ≤ 1000)%nat →
  numbered_below_1000 (placer_files rxn_name structs).
Proof.
  intros Hlen.
  assert (E : placer_files rxn_name structs
              = renumbered_from 0
                  ((fun a => (0%nat, "_" +:+ rxn_name +:+ ".xyz", EFile (Structure a)))
                     <$> structs)).
  { unfold placer_files, renumbered_from. by rewrite imap_fmap. }
  rewrite E. apply renumbered_below_1000. by rewrite length_fmap.
Qed.

Lemma placer_files_lookup rxn_name (structs : list Atoms) (i : nat) f :
  placer_files rxn_name structs !! i = Some f →
  ∃ a, structs !! i = Some a ∧
       f = (i, "_" +:+ rxn_name +:+ ".xyz", EFile (Structure a)).
Proof.
  unfold placer_files. rewrite list_lookup_imap.
  destruct (structs !! i) as [a|]; [|done]. intros [= <-]. by exists a.
Qed.

Lemma placer_files_elem rxn_name (structs : list Atoms) f :
  f ∈ placer_files rxn_name structs →
  placer_files rxn_name structs !! f.1.1 = Some f ∧
  numbered_name f.1 = candidate_name rxn_name f.1.1.
Proof.
  intros Hf. apply list_elem_of_lookup in Hf as [i Hi].
  destruct (placer_files_lookup _ _ _ _ Hi) as (a & Ha & ->). by cbn.
Qed.

Lemma placer_dir_geomlist rxn_name (structs : list Atoms) :
  (length structs ≤ 1000)%nat →
  geomlist (dir_of (placer_files rxn_name structs))
  = (fun f => numbered_name f.1) <$> placer_files rxn_name structs.
Proof.
  intros Hlen. pose proof (placer_files_numbered rxn_name structs Hlen) as Hnum.
  unfold geomlist. rewrite filter_all; [by apply sorted_listdir_dir_of|].
  intros name Hname. unfold listdir in Hname.
  apply elem_of_elements, elem_of_dom in Hname as [e He].
  apply dir_of_lookup_inv in He as (f & Hf & -> & _).
  destruct (placer_files_elem _ _ _ Hf) as [_ ->].
  apply candidate_name_xyz.
Qed.

Lemma placer_dir_reads rxn_name (structs : list Atoms) :
  (length structs ≤ 1000)%nat →
  Forall2 (fun geom a => read (dir_of (placer_files rxn_name structs)) geom = Ok a)
    ((fun f => numbered_name f.1) <$> placer_files rxn_name structs) structs.
Proof.
  intros Hlen. pose proof (placer_files_numbered rxn_name structs Hlen) as Hnum.
  apply Forall2_same_length_lookup_2.
  - unfold placer_files. by rewrite length_fmap, length_imap.
  - intros i name a Hname Ha. rewrite list_lookup_fmap in Hname.
    destruct (placer_files rxn_name structs !! i) as [f|] eqn:Hf; [|done].
    injection Hname as <-.
    destruct (placer_files_lookup _ _ _ _ Hf) as (a' & Ha' & Hfa).
    assert (a' = a) as -> by congruence.
    unfold read. rewrite (dir_of_lookup_Some _ f Hnum).
    + by rewrite Hfa.
    + apply list_elem_of_lookup. eauto.
Qed.

(** A file of the placer is listed for removal exactly when its position
    is marked. *)
Lemma placer_files_marked rxn_name (structs : list Atoms) (result_list : list bool) f :
  f ∈ placer_files rxn_name structs →
  numbered_name f.1 ∈ file_to_remove rxn_name <$> notunique_of result_list
  ↔ result_list !! f.1.1 = Some true.
Proof.
  intros Hf. destruct (placer_files_elem _ _ _ Hf) as [_ Hname].
  rewrite Hname. split.
  - intros Hin. apply list_elem_of_fmap in Hin as (s & Hs & Hin).
    apply elem_of_notunique_of_inv in Hin as (i & -> & Hi).
    change (file_to_remove rxn_name (Py.zfill 3 (Py.str i)))
      with (candidate_name rxn_name i) in Hs.
    apply candidate_name_inj in Hs. by subst.
  - intros Hr. apply list_elem_of_fmap. exists (Py.zfill 3 (Py.str f.1.1)).
    split; [done|]. by apply elem_of_notunique_of.
Qed.

(** On the directory of the placer the deletion loop removes exactly the
    files whose position is marked, and prints nothing. *)
Lemma remove_duplicates_placer rxn_name (structs : list Atoms) :
  (length structs ≤ 1000)%nat →
  let files := placer_files rxn_name structs in
  let result_list := (symm_scan (set_pbc <$> structs)).2 in
  let res := remove_duplicates rxn_name (notunique_of result_list) (dir_of files) in
  res.2 = [] ∧
  ∀ name, res.1 !! name
          = if bool_decide (name ∈ file_to_remove rxn_name <$> notunique_of result_list)
            then None else dir_of files !! name.
Proof.
  intros Hlen files result_list.
  pose proof (placer_files_numbered rxn_name structs Hlen) as Hnum.
  fold files in Hnum.
  assert (Hrlen : length result_list = length structs).
  { subst result_list. by rewrite symm_scan_length, length_fmap. }
  apply (remove_duplicates_present rxn_name (notunique_of result_list)
           (dir_of files) []).
  - apply NoDup_fmap_2; [|apply notunique_of_NoDup].
    intros s s' E. by apply append_inj_r in E.
  - intros s Hs. apply elem_of_notunique_of_inv in Hs as (i & -> & Hi).
    apply lookup_lt_Some in Hi. rewrite Hrlen in Hi.
    destruct (lookup_lt_is_Some_2 structs i Hi) as [a Ha].
    exists (Structure a).
    change (file_to_remove rxn_name (Py.zfill 3 (Py.str i)))
      with (numbered_name (i, "_" +:+ rxn_name +:+ ".xyz")).
    apply (dir_of_lookup_Some files (i, "_" +:+ rxn_name +:+ ".xyz", EFile (Structure a)) Hnum).
    apply list_elem_of_lookup. exists i. subst files. unfold placer_files.
    by rewrite list_lookup_imap, Ha.
Qed.

Lemma clean_up_placer_files (rxn_name : string) (structs : list Atoms) :
  (length structs ≤ 1000)%nat →
  let files := placer_files rxn_name structs in
  let result_list := (symm_scan (set_pbc <$> structs)).2 in
  let survivors := survivors_of files result_list in
  filtered_out_equiv_ts_estimate (dir_of files) rxn_name
  = Ok (dir_of (renumbered_from 0 survivors), []).
Proof.
  intros Hlen files result_list survivors.
  pose proof (placer_files_numbered rxn_name structs Hlen) as Hnum.
  fold files in Hnum.
  assert (Hsurv : numbered_below_1000 survivors) by (by apply numbered_filter).
  assert (Hrlen : length result_list = length structs).
  { subst result_list. by rewrite symm_scan_length, length_fmap. }
  assert (Hsym : checkSymmBeforeXTB (dir_of files) = Ok (notunique_of result_list)).
  { unfold checkSymmBeforeXTB. subst files.
    rewrite placer_dir_geomlist by done.
    rewrite (for_each_symm_body _ _ structs) by (by apply placer_dir_reads).
    subst result_list. unfold symm_scan. by destruct (symm_scan_from _ _). }
  assert (Hmarked : ∀ f, f ∈ files →
            (numbered_name f.1 ∈ file_to_remove rxn_name <$> notunique_of result_list
             ↔ result_list !! f.1.1 = Some true)).
  { intros f Hf. by apply (placer_files_marked rxn_name structs). }
  destruct (remove_duplicates_placer rxn_name structs Hlen) as [Hout Hlook].
  fold files result_list in Hout, Hlook.
  assert (Hd1 : (remove_duplicates rxn_name (notunique_of result_list) (dir_of files)).1
                = dir_of survivors).
  { apply map_eq. intros name. rewrite Hlook.
    destruct (dir_of files !! name) as [e|] eqn:He.
    - apply dir_of_lookup_inv in He as (f & Hf & -> & ->).
      assert (Hidx : is_Some (result_list !! f.1.1)).
      { apply lookup_lt_is_Some. rewrite Hrlen.
        destruct (placer_files_elem _ _ _ Hf) as [Hi _].
        apply lookup_lt_Some in Hi. subst files. unfold placer_files in Hi.
        by rewrite length_imap in Hi. }
      destruct Hidx as [[] Hb].
      + rewrite bool_decide_eq_true_2 by (by apply Hmarked).
        symmetry. apply not_elem_of_list_to_map. rewrite <- list_fmap_compose.
        intros Hin. apply list_elem_of_fmap in Hin as (g & Hg & Hgin).
        cbn in Hg. apply list_elem_of_filter in Hgin as [Hgr Hgin].
        destruct Hnum as [_ Hb1000]. rewrite Forall_forall in Hb1000.
        apply numbered_name_inj in Hg; [|by apply Hb1000..].
        rewrite <- Hg in Hgr. congruence.
      + rewrite bool_decide_eq_false_2.
        * symmetry. apply (dir_of_lookup_Some survivors f Hsurv).
          apply list_elem_of_filter. by split.
        * intros Hin. apply (Hmarked f Hf) in Hin. congruence.
    - assert (Hnone : dir_of survivors !! name = None).
      { destruct (dir_of survivors !! name) as [e|] eqn:Hs; [|done].
        apply dir_of_lookup_inv in Hs as (f & Hf & -> & _).
        apply list_elem_of_filter in Hf as [_ Hf].
        by rewrite (dir_of_lookup_Some files f Hnum Hf) in He. }
      rewrite Hnone. by destruct (bool_decide _). }
  assert (Hout' : (remove_duplicates rxn_name (notunique_of result_list)
                     (dir_of files)).2 = []) by exact Hout.
  unfold filtered_out_equiv_ts_estimate. rewrite Hsym. cbn.
  destruct (remove_duplicates rxn_name (notunique_of result_list) (dir_of files))
    as [d1 out] eqn:Hrm.
  cbn in Hd1, Hout'. subst d1 out.
  by rewrite (renumber_dir_of survivors Hsurv).
Qed.

(** X6. The clean-up of a directory as the placer leaves it (files numbered
    0..n-1 with n at most 1000, all with the remainder "_<rxn>.xyz"): the
    call ends normally and prints nothing, the files left are those whose
    position was accepted by the symmetry scan, and the [j]-th of them, in
    the order of their old numbers, now carries the number [j] with its
    content unchanged. *)
Theorem clean_up_of_placer_output (rxn_name : string) (structs : list Atoms) :
  (length structs ≤ 1000)%nat →
  let files := placer_files rxn_name structs in
  let result_list := (symm_scan (set_pbc <$> structs)).2 in
  let survivors := survivors_of files result_list in
  filtered_out_equiv_ts_estimate (dir_of files) rxn_name
  = Ok (dir_of (renumbered_from 0 survivors), []) ∧
  (∀ (j : nat) f, survivors !! j = Some f →
     dir_of (renumbered_from 0 survivors) !! candidate_name rxn_name j = Some f.2) ∧
  size (dir_of (renumbered_from 0 survivors)) = length survivors.
Proof.
  intros Hlen files result_list survivors.
  pose proof (placer_files_numbered rxn_name structs Hlen) as Hnum.
  fold files in Hnum.
  assert (Hsurv : numbered_below_1000 survivors) by (by apply numbered_filter).
  assert (Hren : numbered_below_1000 (renumbered_from 0 survivors)).
  { destruct (numbered_length 0 survivors Hsurv) as [Hl | ->].
    - apply Forall_forall. intros; lia.
    - by apply renumbered_below_1000.
    - split; constructor. }
  split; [by apply clean_up_placer_files|split].
  - intros j f Hj.
    change (candidate_name rxn_name j)
      with (numbered_name (j, "_" +:+ rxn_name +:+ ".xyz")).
    assert (Hrest : f.1.2 = "_" +:+ rxn_name +:+ ".xyz").
    { assert (Hf : f ∈ files).
      { apply list_elem_of_lookup_2 in Hj.
        by apply list_elem_of_filter in Hj as [_ Hj]. }
      apply list_elem_of_lookup in Hf as [i Hi].
      by destruct (placer_files_lookup _ _ _ _ Hi) as (a & _ & ->). }
    rewrite <- Hrest.
    apply (dir_of_lookup_Some (renumbered_from 0 survivors) (j, f.1.2, f.2) Hren).
    unfold renumbered_from. apply elem_of_lookup_imap. by exists j, f.
  - unfold dir_of. rewrite map_size_list_to_map by (by apply names_NoDup).
    unfold renumbered_from. by rewrite length_fmap, length_imap.
Qed.

End CleanUpOfPlacerOutput.

Lemma clean_up_of_placer_output_witness :
  let files := @placer_files Demo.lib "OH_O+H" Demo.dedup_structs in
  let result_list := (@symm_scan Demo.lib (@set_pbc Demo.lib <$> Demo.dedup_structs)).2 in
  let survivors := survivors_of files result_list in
  @filtered_out_equiv_ts_estimate Demo.lib (dir_of files) "OH_O+H"
  = Ok (dir_of (renumbered_from 0 survivors), []) ∧
  (∀ (j : nat) f, survivors !! j = Some f →
     dir_of (renumbered_from 0 survivors) !! candidate_name "OH_O+H" j = Some f.2) ∧
  size (dir_of (renumbered_from 0 survivors)) = length survivors.
Proof.
  apply (@clean_up_of_placer_output Demo.lib "OH_O+H" Demo.dedup_structs).
  cbn. lia.
Defined.

(** The run of the witness: of three candidates the second is a duplicate
    of the first; two files are left, numbered 000 and 001. *)
Example clean_up_run :
  Demo.listing_and_log
    (@filtered_out_equiv_ts_estimate Demo.lib
       (dir_of (@placer_files Demo.lib "OH_O+H" Demo.dedup_structs)) "OH_O+H")
  = Ok (["000_OH_O+H.xyz"; "001_OH_O+H.xyz"], []).
Proof. vm_compute. reflexivity. Qed.

(** ** From the placer to the clean-up: [prepare_ts_estimate] *)

Lemma flat_map_lookup_const {A} (f : nat → list A) (S : nat) :
  (∀ k, length (f k) = S) →
  ∀ (K p k i : nat), (k < K)%nat → (i < S)%nat →
    flat_map f (seq p K) !! (i + S * k)%nat = f (p + k)%nat !! i.
Proof.
  intros Hlen K. induction K as [|K IH]; intros p k i Hk Hi; [lia|].
  cbn [seq flat_map]. destruct k as [|k].
  - rewrite Nat.mul_0_r, !Nat.add_0_r. apply lookup_app_l. by rewrite Hlen.
  - rewrite lookup_app_r by (rewrite Hlen, Nat.mul_succ_r; lia).
    rewrite Hlen.
    replace (i + S * Datatypes.S k - S)%nat with (i + S * k)%nat
      by (rewrite Nat.mul_succ_r; lia).
    rewrite IH by lia.
    by replace (Datatypes.S p + k)%nat with (p + Datatypes.S k)%nat by lia.
Qed.

Lemma flat_map_length_const {A} (f : nat → list A) (S : nat) :
  (∀ k, length (f k) = S) →
  ∀ (K p : nat), length (flat_map f (seq p K)) = (S * K)%nat.
Proof.
  intros Hlen K. induction K as [|K IH]; intros p; [cbn; lia|].
  cbn [seq flat_map]. rewrite length_app, Hlen, IH, Nat.mul_succ_r. lia.
Qed.

Section PrepareTSEstimate.
Context `{Chem}.

Lemma placer_files_names rxn_name (structs : list Atoms) :
  (fun f => numbered_name f.1) <$> placer_files rxn_name structs
  = candidate_name rxn_name <$> seq 0 (length structs).
Proof.
  apply list_eq. intros i. rewrite !list_lookup_fmap.
  unfold placer_files. rewrite list_lookup_imap.
  destruct (structs !! i) as [a|] eqn:Ha.
  - rewrite lookup_seq_lt by (by apply lookup_lt_Some in Ha). done.
  - rewrite lookup_seq_ge by (by apply lookup_ge_None in Ha). done.
Qed.

Lemma placer_files_keys_NoDup rxn_name (structs : list Atoms) :
  NoDup ((fun f : nat * string * Entry => (numbered_name f.1, f.2))
           <$> placer_files rxn_name structs).*1.
Proof.
  rewrite <- list_fmap_compose.
  change (NoDup ((fun f => numbered_name f.1) <$> placer_files rxn_name structs)).
  rewrite placer_files_names. apply NoDup_fmap_2; [|apply NoDup_seq].
  intros n m. apply candidate_name_inj.
Qed.

(** The directory [TS_placer] leaves, started on an empty one. *)
Lemma TS_placer_output (self : TS) (rxn_name : string)
    (r_name_list p_name_list : list string) (images : list Atoms)
    (S fuel : nat) (cand0 cand : Atoms) :
  (0 < rotAngle self)%Q →
  (∀ frag bonded, length (add_adsorbate (slab self) frag bonded) = S) →
  choose_TS_candidate r_name_list p_name_list images = Ok cand0 →
  orient_TS_candidate self cand0 (placement_rule (get_chemical_formula cand0))
    = Ok cand →
  let K := Z.to_nat (Qfloor (inject_Z 360 / rotAngle self)) in
  let bonded := bondedThrough (placement_rule (get_chemical_formula cand0)) in
  (K < fuel)%nat →
  TS_placer fuel self ∅ rxn_name r_name_list p_name_list images
  = Ok (Some (dir_of (placer_files rxn_name (placed_structures self bonded cand K)))).
Proof.
  intros Hpos Hsites Hchoose Horient K bonded Hfuel.
  pose proof (placer_loop_terminates self rxn_name bonded fuel 0 cand ∅) as Hloop.
  cbv zeta in Hloop. fold K in Hloop. rewrite Nat.sub_0_r in Hloop.
  specialize (Hloop Hfuel (no_candidate_dir_empty rxn_name)).
  destruct (place_orientations_spec self rxn_name bonded S (fun f => Hsites f bonded)
              K 0%nat cand ∅) as [Ha Hb].
  set (d' := place_orientations K self rxn_name bonded (Z.of_nat 0) cand ∅) in *.
  set (structs := placed_structures self bonded cand K).
  assert (Hlens : ∀ k, length (big_slab_ads (slab self) (repeats self)
                    <$> add_adsorbate (slab self)
                          (orientation (rotAngle self) k cand) bonded) = S).
  { intros k. by rewrite length_fmap. }
  assert (Hlen : length structs = (S * K)%nat)
    by apply (flat_map_length_const _ S Hlens).
  assert (Hd : d' = dir_of (placer_files rxn_name structs)).
  { apply map_eq. intros name.
    destruct (decide (name ∈ candidate_name rxn_name <$> seq 0 (S * K))) as [Hin|Hnot].
    - apply list_elem_of_fmap in Hin as (n & -> & Hn). apply elem_of_seq in Hn.
      assert (HS : (0 < S)%nat) by nia.
      assert (Hk : (n / S < K)%nat) by (apply Nat.Div0.div_lt_upper_bound; lia).
      assert (Hi : (n mod S < S)%nat) by (apply Nat.mod_upper_bound; lia).
      assert (Hn' : n = (n mod S + S * (n / S))%nat)
        by (rewrite (Nat.div_mod_eq n S) at 1; lia).
      destruct (lookup_lt_is_Some_2
                  (add_adsorbate (slab self)
                     (orientation (rotAngle self) (n / S) cand) bonded)
                  (n mod S)) as [struc Hstruc].
      { by rewrite Hsites. }
      pose proof (Ha _ _ _ Hk Hstruc) as Hl. rewrite Nat.add_0_l, <- Hn' in Hl.
      rewrite Hl. symmetry. unfold dir_of.
      apply elem_of_list_to_map; [apply placer_files_keys_NoDup|].
      apply list_elem_of_fmap.
      exists (n, "_" +:+ rxn_name +:+ ".xyz",
              EFile (Structure (big_slab_ads (slab self) (repeats self) struc))).
      split; [done|]. apply list_elem_of_lookup. exists n.
      unfold placer_files. rewrite list_lookup_imap.
      assert (Hs : structs !! n
                   = Some (big_slab_ads (slab self) (repeats self) struc)).
      { subst structs. unfold placed_structures. rewrite Hn' at 1.
        rewrite (flat_map_lookup_const _ S Hlens K 0) by done.
        by rewrite Nat.add_0_l, list_lookup_fmap, Hstruc. }
      by rewrite Hs.
    - rewrite Hb.
      + rewrite lookup_empty. symmetry. apply not_elem_of_list_to_map.
        rewrite <- list_fmap_compose.
        change (name ∉ (fun f => numbered_name f.1) <$> placer_files rxn_name structs).
        by rewrite placer_files_names, Hlen.
      + intros k i Hk Hi ->. apply Hnot. apply list_elem_of_fmap.
        exists (i + S * k)%nat. split; [by rewrite Nat.add_0_l|].
        apply elem_of_seq. nia. }
  unfold TS_placer. rewrite Hchoose. cbn. rewrite Horient. cbn.
  destruct (Qeq_bool (rotAngle self) (0 # 1)) eqn:Ez.
  - apply Qeq_bool_eq in Ez. rewrite Ez in Hpos. by apply Qlt_irrefl in Hpos.
  - rewrite <- Hd. exact Hloop.
Qed.

(** X7. A complete [prepare_ts_estimate]: when the reaction document
    resolves, the fragment set-up succeeds, the rotation increment is a
    positive integer [r], the site builder returns [S] placements at every
    orientation and at most 1000 candidates are placed, the call ends
    (given enough fuel for the loop) having printed the one line that
    announces the side chosen and nothing else; [S * floor(360 / r)]
    candidates are placed, and the directory holds exactly those accepted
    by the symmetry scan, renumbered from 0 in the order in which they
    were placed. *)
Theorem prepare_ts_estimate_end_to_end (self : TS) (r : Z) (S fuel : nat)
    (rxn_name rpDir : string) (r_name_list p_name_list : list string)
    (images : list Atoms) (stdout : list string) (cand0 cand : Atoms) :
  prepare_react_list self
  = Ok (rxn_name, rpDir, r_name_list, p_name_list, images, stdout) →
  choose_TS_candidate r_name_list p_name_list images = Ok cand0 →
  orient_TS_candidate self cand0 (placement_rule (get_chemical_formula cand0))
    = Ok cand →
  rotAngle self = inject_Z r →
  0 < r →
  (∀ frag bonded, length (add_adsorbate (slab self) frag bonded) = S) →
  let K := Z.to_nat (360 `div` r) in
  let bonded := bondedThrough (placement_rule (get_chemical_formula cand0)) in
  (K < fuel)%nat →
  (S * K ≤ 1000)%nat →
  let structs := placed_structures self bonded cand K in
  let survivors :=
    survivors_of (placer_files rxn_name structs)
      (symm_scan (set_pbc <$> structs)).2 in
  prepare_ts_estimate fuel self
  = Ok (Some (dir_of (renumbered_from 0 survivors), stdout)) ∧
  stdout = [announce_rpDir r_name_list p_name_list] ∧
  length structs = (S * K)%nat.
Proof.
  intros Hprep Hchoose Horient Hint Hr Hsites K bonded Hfuel Hmax structs survivors.
  assert (Hpos : (0 < rotAngle self)%Q).
  { rewrite Hint. change (inject_Z 0 < inject_Z r)%Q. by rewrite <- Zlt_Qlt. }
  assert (HK : Z.to_nat (Qfloor (inject_Z 360 / rotAngle self)) = K).
  { by rewrite Hint, floor_rotations_integer. }
  assert (Hlen : length structs = (S * K)%nat).
  { apply (flat_map_length_const _ S). intros k. by rewrite length_fmap. }
  assert (Hout : stdout = [announce_rpDir r_name_list p_name_list]).
  { unfold prepare_react_list in Hprep.
    destruct (last (yamlfile self)) as [rxn|]; [|discriminate Hprep].
    destruct (unique_images _ _) as [[images' us] ub].
    by injection Hprep as <- <- <- <- <- <-. }
  split; [|by split].
  pose proof (TS_placer_output self rxn_name r_name_list p_name_list images S fuel
                cand0 cand Hpos Hsites Hchoose Horient) as Hplace.
  cbv zeta in Hplace. rewrite HK in Hplace. specialize (Hplace Hfuel).
  unfold prepare_ts_estimate. rewrite Hprep.
  cbn -[TS_placer filtered_out_equiv_ts_estimate].
  rewrite Hplace.
  cbn -[filtered_out_equiv_ts_estimate].
  pose proof (clean_up_placer_files rxn_name structs) as Hclean.
  fold K bonded structs. rewrite Hclean by lia.
  cbn [mbind result_bind]. by rewrite app_nil_r.
Qed.

End PrepareTSEstimate.

Lemma prepare_ts_estimate_end_to_end_witness :
  let K := Z.to_nat (360 `div` 120) in
  let cand := Demo.mk "molecule:OH" in
  let bonded :=
    bondedThrough (placement_rule (@get_chemical_formula Scenario.lib cand)) in
  let structs := @placed_structures Scenario.lib Scenario.self bonded cand K in
  let survivors :=
    survivors_of (@placer_files Scenario.lib "OH_O+H" structs)
      (@symm_scan Scenario.lib (@set_pbc Scenario.lib <$> structs)).2 in
  @prepare_ts_estimate Scenario.lib 10 Scenario.self
  = Ok (Some (dir_of (renumbered_from 0 survivors),
              ["Reactant structure will be used to estimate TS"])) ∧
  ["Reactant structure will be used to estimate TS"]
  = [announce_rpDir ["OH"] ["O"; "H"]] ∧
  length structs = (2 * K)%nat.
Proof.
  apply (@prepare_ts_estimate_end_to_end Scenario.lib Scenario.self 120 2 10
           "OH_O+H" "reactants" ["OH"] ["O"; "H"]
           [Demo.Build_atoms "image:OH" "OH" [] [];
            Demo.Build_atoms "image:O" "O" [] [];
            Demo.Build_atoms "image:H" "H" [] []]
           ["Reactant structure will be used to estimate TS"]
           (Demo.mk "molecule:OH") (Demo.mk "molecule:OH")).
  - reflexivity.
  - reflexivity.
  - reflexivity.
  - reflexivity.
  - lia.
  - intros frag bonded. reflexivity.
  - vm_compute. lia.
  - vm_compute. lia.
Defined.

(** The run of the witness: six candidates are placed (three orientations,
    two sites); those of the second and third orientation repeat the sites
    of the first, so two files are left, numbered 000 and 001; the one
    line printed announces the reactant side. *)
Example prepare_ts_estimate_run :
  Scenario.outcome (@prepare_ts_estimate Scenario.lib 10 Scenario.self)
  = Ok (Some (["000_OH_O+H.xyz"; "001_OH_O+H.xyz"],
              ["Reactant structure will be used to estimate TS"])).
Proof. vm_compute. reflexivity. Qed.

(** ** The Symmetry Deduplicator on the directory of the placer *)

Section DeduplicatorOnPlacerOutput.
Context `{Chem}.

(** C2 (amended). On the directory that the placer leaves for at most
    1000 candidates [structs] (three-digit numbers): the sorted listing is
    the generation order and the file numbered [i] holds candidate [i];
    if candidate [i] is equivalent to an earlier candidate [j] that was
    accepted as unique, then position [i] is marked and position [j] is
    not, the deletion loop removes the file of candidate [i] and leaves
    the file of candidate [j] with its structure; the unique list is a
    subsequence of the candidates; and the result at position [i] is the
    comparison of candidate [i] with the unique list built from the
    candidates before [i] only. *)
Theorem dedup_removes_later_duplicate (rxn_name : string)
    (structs : list Atoms) :
  (length structs ≤ 1000)%nat →
  let d := dir_of (placer_files rxn_name structs) in
  let cs := set_pbc <$> structs in
  let good_adsorbate := (symm_scan cs).1 in
  let result_list := (symm_scan cs).2 in
  let notunique_index := notunique_of result_list in
  let d1 := (remove_duplicates rxn_name notunique_index d).1 in
  geomlist d = candidate_name rxn_name <$> seq 0 (length structs) ∧
  (∀ (i : nat) si, structs !! i = Some si →
     d !! candidate_name rxn_name i = Some (EFile (Structure si))) ∧
  for_each (symm_body d) ([], []) (geomlist d)
    = Ok (good_adsorbate, result_list) ∧
  checkSymmBeforeXTB d = Ok notunique_index ∧
  (∀ (i j : nat) si sj,
     (j < i)%nat → structs !! i = Some si → structs !! j = Some sj →
     result_list !! j = Some false →
     symm_equiv (set_pbc si) (set_pbc sj) = true →
     Py.zfill 3 (Py.str i) ∈ notunique_index ∧
     (Py.zfill 3 (Py.str j) ∉ notunique_index) ∧
     d1 !! candidate_name rxn_name i = None ∧
     d1 !! candidate_name rxn_name j = Some (EFile (Structure sj))) ∧
  good_adsorbate `sublist_of` cs ∧
  (∀ (i : nat) ci,
     cs !! i = Some ci →
     result_list !! i = Some (compare ci (symm_scan (take i cs)).1) ∧
     (symm_scan (take i cs)).1 `sublist_of` take i cs).
Proof.
  intros Hlen d cs good_adsorbate result_list notunique_index d1.
  pose proof (placer_files_numbered rxn_name structs Hlen) as Hnum.
  assert (Hlist : geomlist d = candidate_name rxn_name <$> seq 0 (length structs)).
  { subst d. rewrite placer_dir_geomlist by done. apply placer_files_names. }
  assert (Hfile : ∀ (i : nat) si, structs !! i = Some si →
            d !! candidate_name rxn_name i = Some (EFile (Structure si))).
  { intros i si Hi.
    change (candidate_name rxn_name i)
      with (numbered_name (i, "_" +:+ rxn_name +:+ ".xyz")).
    apply (dir_of_lookup_Some (placer_files rxn_name structs)
             (i, "_" +:+ rxn_name +:+ ".xyz", EFile (Structure si)) Hnum).
    apply list_elem_of_lookup. exists i. unfold placer_files.
    by rewrite list_lookup_imap, Hi. }
  assert (Hloop : for_each (symm_body d) ([], []) (geomlist d)
                  = Ok (good_adsorbate, result_list)).
  { subst d. rewrite placer_dir_geomlist by done.
    rewrite (for_each_symm_body _ _ structs) by (by apply placer_dir_reads).
    subst good_adsorbate result_list cs. unfold symm_scan.
    by destruct (symm_scan_from _ _). }
  destruct (remove_duplicates_placer rxn_name structs Hlen) as [_ Hlook].
  fold d cs result_list notunique_index d1 in Hlook.
  split; [exact Hlist|]. split; [exact Hfile|]. split; [exact Hloop|]. split.
  { unfold checkSymmBeforeXTB. by rewrite Hloop. }
  split; [|split].
  - intros i j si sj Hji Hi Hj Hresj Heq.
    assert (Hci : cs !! i = Some (set_pbc si))
      by (subst cs; by rewrite list_lookup_fmap, Hi).
    assert (Hcj : cs !! j = Some (set_pbc sj))
      by (subst cs; by rewrite list_lookup_fmap, Hj).
    assert (Hmark : Py.zfill 3 (Py.str i) ∈ notunique_index).
    { apply elem_of_notunique_of.
      subst result_list. rewrite (symm_scan_result cs i _ Hci). f_equal.
      unfold compare. apply existsb_exists. exists (set_pbc sj). split; [|done].
      apply list_elem_of_In. by apply (symm_scan_accepted cs i j). }
    assert (Hkeep : Py.zfill 3 (Py.str j) ∉ notunique_index).
    { intros Hin. apply elem_of_notunique_of in Hin. congruence. }
    split; [exact Hmark|]. split; [exact Hkeep|]. split.
    + rewrite Hlook, bool_decide_eq_true_2; [done|].
      apply list_elem_of_fmap. by exists (Py.zfill 3 (Py.str i)).
    + rewrite Hlook, bool_decide_eq_false_2; [by apply Hfile|].
      intros Hin. apply list_elem_of_fmap in Hin as (s & Hs & Hin).
      change (candidate_name rxn_name j)
        with (file_to_remove rxn_name (Py.zfill 3 (Py.str j))) in Hs.
      apply append_inj_r in Hs. by subst s.
  - apply symm_scan_sublist.
  - intros i ci Hi. split.
    + by apply symm_scan_result.
    + apply symm_scan_sublist.
Qed.

End DeduplicatorOnPlacerOutput.

Lemma dedup_removes_later_duplicate_witness :
  let d := dir_of (@placer_files Demo.lib "OH_O+H" Demo.dedup_structs) in
  let cs := @set_pbc Demo.lib <$> Demo.dedup_structs in
  let good_adsorbate := (@symm_scan Demo.lib cs).1 in
  let result_list := (@symm_scan Demo.lib cs).2 in
  let notunique_index := notunique_of result_list in
  let d1 := (@remove_duplicates Demo.lib "OH_O+H" notunique_index d).1 in
  geomlist d = candidate_name "OH_O+H" <$> seq 0 (length Demo.dedup_structs) ∧
  (∀ (i : nat) si, Demo.dedup_structs !! i = Some si →
     d !! candidate_name "OH_O+H" i
     = Some (@EFile Demo.lib (@Structure Demo.lib si))) ∧
  for_each (@symm_body Demo.lib d) ([], []) (geomlist d)
    = Ok (good_adsorbate, result_list) ∧
  @checkSymmBeforeXTB Demo.lib d = Ok notunique_index ∧
  (∀ (i j : nat) si sj,
     (j < i)%nat → Demo.dedup_structs !! i = Some si →
     Demo.dedup_structs !! j = Some sj →
     result_list !! j = Some false →
     @symm_equiv Demo.lib (@set_pbc Demo.lib si) (@set_pbc Demo.lib sj) = true →
     Py.zfill 3 (Py.str i) ∈ notunique_index ∧
     (Py.zfill 3 (Py.str j) ∉ notunique_index) ∧
     d1 !! candidate_name "OH_O+H" i = None ∧
     d1 !! candidate_name "OH_O+H" j
     = Some (@EFile Demo.lib (@Structure Demo.lib sj))) ∧
  good_adsorbate `sublist_of` cs ∧
  (∀ (i : nat) ci,
     cs !! i = Some ci →
     result_list !! i
     = Some (@compare Demo.lib ci (@symm_scan Demo.lib (take i cs)).1) ∧
     (@symm_scan Demo.lib (take i cs)).1 `sublist_of` take i cs).
Proof.
  apply (@dedup_removes_later_duplicate Demo.lib "OH_O+H" Demo.dedup_structs).
  simpl. lia.
Defined.

(** C2, as stated, at 1001 candidates placed at one orientation, of which
    number 1000 repeats number 0 and number 101 repeats number 100. The
    file "1000_..." sorts before "100_...", so candidate 100 is read at
    position 101 and accepted, and candidate 101 at position 102 and
    marked; the labels "100" and "102" then delete the files of candidates
    100 and 102: the accepted candidate is removed and its duplicate
    stays. *)
Lemma dedup_four_digit_counterexample :
  size Scenario.placed_1001 = 1001%nat ∧
  geomlist Scenario.placed_1001 !! 101%nat = Some "100_OH_O+H.xyz" ∧
  geomlist Scenario.placed_1001 !! 102%nat = Some "101_OH_O+H.xyz" ∧
  @read Scenario.lib_1001 Scenario.placed_1001 "100_OH_O+H.xyz"
  = Ok (Demo.in_class "100" "100") ∧
  @read Scenario.lib_1001 Scenario.placed_1001 "101_OH_O+H.xyz"
  = Ok (Demo.in_class "101" "100") ∧
  @symm_equiv Scenario.lib_1001
    (@set_pbc Scenario.lib_1001 (Demo.in_class "101" "100"))
    (@set_pbc Scenario.lib_1001 (Demo.in_class "100" "100")) = true ∧
  @checkSymmBeforeXTB Scenario.lib_1001 Scenario.placed_1001
  = Ok ["100"; "102"] ∧
  (@remove_duplicates Scenario.lib_1001 "OH_O+H" ["100"; "102"]
     Scenario.placed_1001).1 !! "100_OH_O+H.xyz" = None ∧
  (@remove_duplicates Scenario.lib_1001 "OH_O+H" ["100"; "102"]
     Scenario.placed_1001).1 !! "101_OH_O+H.xyz"
  = Some (@EFile Scenario.lib_1001
            (@Structure Scenario.lib_1001 (Demo.in_class "101" "100"))).
Proof.
  split; [vm_compute; reflexivity|]. split; [vm_compute; reflexivity|].
  split; [vm_compute; reflexivity|]. split; [vm_compute; reflexivity|].
  split; [vm_compute; reflexivity|]. split; [vm_compute; reflexivity|].
  split; [vm_compute; reflexivity|]. split; [vm_compute; reflexivity|].
  vm_compute. reflexivity.
Qed.

(** ** Rotation increments outside (0, 360] *)

Lemma floor_rotations_none (r : Q) :
  (r < 0 ∨ inject_Z 360 < r)%Q →
  Z.to_nat (Qfloor (inject_Z 360 / r)) = 0%nat.
Proof.
  intros Hr.
  assert (Hq : (inject_Z 360 / r < 1)%Q).
  { destruct Hr as [Hneg|Hbig].
    - assert (Hpos : (0 < - r)%Q) by lra.
      assert (Hinv : (0 < inject_Z 360 / - r)%Q).
      { apply Qlt_shift_div_l; [exact Hpos|].
        change (inject_Z 360) with (360 # 1)%Q. lra. }
      assert (Heq : (inject_Z 360 / r == - (inject_Z 360 / - r))%Q).
      { field. intros Hz. rewrite Hz in Hneg. by apply Qlt_irrefl in Hneg. }
      rewrite Heq. lra.
    - apply Qlt_shift_div_r.
      + eapply Qlt_trans; [|exact Hbig]. reflexivity.
      + lra. }
  assert (Hf : Qfloor (inject_Z 360 / r) < 1).
  { rewrite Zlt_Qlt. eapply Qle_lt_trans; [apply Qfloor_le|exact Hq]. }
  lia.
Qed.

Section DegenerateAngle.
Context `{Chem}.

(** X8. The rotation increment at the ends of its range, for a fragment
    whose set-up succeeds: an increment of zero raises the division
    error before anything is written; a negative increment, or one above
    360 degrees, makes the loop condition fail at once, so the call ends
    normally and leaves the directory exactly as it was given. *)
Theorem TS_placer_degenerate_angle (self : TS) (d : gmap string Entry)
    (rxn_name : string) (r_name_list p_name_list : list string)
    (images : list Atoms) (cand0 cand : Atoms) (fuel : nat) :
  choose_TS_candidate r_name_list p_name_list images = Ok cand0 →
  orient_TS_candidate self cand0 (placement_rule (get_chemical_formula cand0))
    = Ok cand →
  ((rotAngle self == 0)%Q →
     TS_placer fuel self d rxn_name r_name_list p_name_list images
     = Err ZeroDivisionError) ∧
  ((rotAngle self < 0 ∨ inject_Z 360 < rotAngle self)%Q →
     TS_placer (S fuel) self d rxn_name r_name_list p_name_list images
     = Ok (Some d)).
Proof.
  intros Hchoose Horient. unfold TS_placer. rewrite Hchoose. cbn [mbind result_bind].
  rewrite Horient. cbn [mbind result_bind]. split.
  - intros Hzero. apply Qeq_bool_iff in Hzero. by rewrite Hzero.
  - intros Hr.
    assert (Hnz : Qeq_bool (rotAngle self) (0 # 1) = false).
    { destruct (Qeq_bool (rotAngle self) (0 # 1)) eqn:E; [|done].
      apply Qeq_bool_iff in E. destruct Hr as [Hr|Hr]; rewrite E in Hr.
      - by apply Qlt_irrefl in Hr.
      - by vm_compute in Hr. }
    rewrite Hnz. cbn [placer_loop].
    change 0 with (Z.of_nat 0). rewrite loop_condition.
    by rewrite (floor_rotations_none _ Hr).
Qed.

End DegenerateAngle.

Lemma TS_placer_degenerate_angle_witness :
  @TS_placer Scenario.lib 0 (Scenario.with_angle (0 # 1))
    ∅ "OH_O+H" ["OH"] ["O"; "H"] []
  = Err ZeroDivisionError ∧
  @TS_placer Scenario.lib 1 (Scenario.with_angle (720 # 1))
    ∅ "OH_O+H" ["OH"] ["O"; "H"] []
  = Ok (Some ∅) ∧
  @TS_placer Scenario.lib 1 (Scenario.with_angle (-30 # 1))
    ∅ "OH_O+H" ["OH"] ["O"; "H"] []
  = Ok (Some ∅).
Proof.
  split; [|split].
  - apply (@TS_placer_degenerate_angle Scenario.lib
             (Scenario.with_angle (0 # 1)) ∅ "OH_O+H" ["OH"] ["O"; "H"] []
             (Demo.mk "molecule:OH") (Demo.mk "molecule:OH") 0);
      reflexivity.
  - apply (@TS_placer_degenerate_angle Scenario.lib
             (Scenario.with_angle (720 # 1)) ∅ "OH_O+H" ["OH"] ["O"; "H"] []
             (Demo.mk "molecule:OH") (Demo.mk "molecule:OH") 0);
      [reflexivity | reflexivity | right; reflexivity].
  - apply (@TS_placer_degenerate_angle Scenario.lib
             (Scenario.with_angle (-30 # 1)) ∅ "OH_O+H" ["OH"] ["O"; "H"] []
             (Demo.mk "molecule:OH") (Demo.mk "molecule:OH") 0);
      [reflexivity | reflexivity | left; reflexivity].
Defined.

(** ** The images of a reaction document *)

Lemma fst_zip_take {A B} (l : list A) (k : list B) :
  (zip l k).*1 = take (length k) l.
Proof.
  revert k; induction l as [|x l IH]; intros [|y k]; simpl; try done.
  by rewrite IH.
Qed.

Section UniqueImages.
Context `{Chem}.

Lemma existsb_false_elem (s : Atoms) (us : list Atoms) u :
  existsb (fun species2 => is_isomorphic s species2) us = false →
  u ∈ us → is_isomorphic s u = false.
Proof.
  intros Hex Hu. apply list_elem_of_In in Hu.
  destruct (is_isomorphic s u) eqn:E; [|done].
  assert (Ht : existsb (fun species2 => is_isomorphic s species2) us = true).
  { apply existsb_exists. by exists u. }
  congruence.
Qed.

Lemma unique_images_loop (l : list (Atoms * Bonds)) (seen : list Atoms)
    (st : list Atoms * list Atoms * list Bonds) :
  images_invariant seen st →
  images_invariant (seen ++ l.*1)
    (fold_left
       (fun '(images, unique_species, unique_bonds) '(species1, bond) =>
          if existsb (fun species2 => is_isomorphic species1 species2)
               unique_species
          then (images, unique_species, unique_bonds)
          else (images ++ [get_3D_positions species1],
                unique_species ++ [species1],
                unique_bonds ++ [bond]))
       l st).
Proof.
  revert seen st. induction l as [|[s b] l IH]; intros seen st Hinv.
  - cbn [fold_left fmap list_fmap]. by rewrite app_nil_r.
  - change (seen ++ ((s, b) :: l).*1) with (seen ++ [s] ++ l.*1).
    rewrite app_assoc. cbn [fold_left].
    apply IH. destruct st as [[images us] ub].
    destruct Hinv as (Himg & Hlen & Hsub & Hpair & Hcov).
    destruct (existsb _ us) eqn:Hex.
    + repeat split; try done.
      * by apply sublist_inserts_r.
      * intros s' [Hs'|Hs']%elem_of_app; [by apply Hcov|].
        apply list_elem_of_singleton in Hs' as ->.
        apply existsb_exists in Hex as (u & Hu & Hiso).
        right. exists u. split; [by apply list_elem_of_In|done].
    + repeat split.
      * by rewrite Himg, fmap_app.
      * rewrite !length_app. simpl. lia.
      * by apply sublist_app.
      * intros i j a b' Hij Ha Hb.
        destruct (decide (j < length us)%nat) as [Hj|Hj].
        -- rewrite lookup_app_l in Ha by lia.
           rewrite lookup_app_l in Hb by lia.
           exact (Hpair i j a b' Hij Ha Hb).
        -- apply lookup_lt_Some in Hb as Hjlt.
           rewrite length_app in Hjlt. simpl in Hjlt.
           assert (j = length us) as -> by lia.
           rewrite lookup_app_l in Ha by lia.
           rewrite lookup_app_r, Nat.sub_diag in Hb by lia.
           injection Hb as <-.
           eapply existsb_false_elem; [exact Hex|].
           by eapply list_elem_of_lookup_2.
      * intros s' [Hs'|Hs']%elem_of_app.
        -- destruct (Hcov s' Hs') as [Hin|(u & Hu & Hiso)].
           ++ left. apply elem_of_app. by left.
           ++ right. exists u. split; [|done]. apply elem_of_app. by left.
        -- left. apply elem_of_app. by right.
Qed.

(** X9. The species kept by [prepare_react_list] as "unique": the images
    are their 3-D structures, in order, with one bond list each; they are
    taken from the species that have a bond list, in the order of the
    document; none of them is isomorphic to one kept before it; and every
    species that has a bond list is either kept or isomorphic to one that
    is. *)
Theorem unique_images_representatives (speciesInd : list Atoms)
    (bonds : list Bonds) :
  images_invariant (take (length bonds) speciesInd)
    (unique_images speciesInd bonds).
Proof.
  unfold unique_images. rewrite <- fst_zip_take.
  apply (unique_images_loop (zip speciesInd bonds) [] ([], [], [])).
  split; [done|]. split; [done|]. split; [constructor|]. split.
  - intros i j a b _ Ha. by rewrite lookup_nil in Ha.
  - intros s Hs. by apply elem_of_nil in Hs.
Qed.

End UniqueImages.

(** ** Final geometries of the reference trajectories *)

Lemma final_name_not_traj (t : string) :
  Py.endswith ".traj" (Py.drop_end 5 t +:+ "_final.xyz") = false.
Proof. by rewrite endswith_append by (cbn; lia). Qed.

Lemma final_name_inj (t t' : string) :
  Py.endswith ".traj" t = true → Py.endswith ".traj" t' = true →
  Py.drop_end 5 t +:+ "_final.xyz" = Py.drop_end 5 t' +:+ "_final.xyz" →
  t = t'.
Proof.
  intros [q ->]%endswith_spec [q' ->]%endswith_spec.
  change 5%nat with (String.length ".traj"). rewrite !drop_end_append.
  by intros ->%append_inj_r.
Qed.

Section FinalGeometries.
Context `{Chem}.

Lemma gen_xyz_loop (sp : gmap string File) (l : list string) :
  (∀ t, t ∈ l → Py.endswith ".traj" t = true →
        ∃ a, sp !! t = Some (Structure a)) →
  ∀ dir : gmap string File,
    (∀ t, Py.endswith ".traj" t = true → dir !! t = sp !! t) →
    ∃ dir',
      for_each
        (fun (dir : gmap string File) traj =>
           if Py.endswith ".traj" traj then
             a ← read_in dir traj;
             Ok (<[Py.drop_end 5 traj +:+ "_final.xyz" := Structure a]> dir)
           else Ok dir)
        dir l = Ok dir' ∧
      (∀ t a, t ∈ l → Py.endswith ".traj" t = true →
         sp !! t = Some (Structure a) →
         dir' !! (Py.drop_end 5 t +:+ "_final.xyz") = Some (Structure a)) ∧
      (∀ n, (∀ t, t ∈ l → Py.endswith ".traj" t = true →
                  n ≠ Py.drop_end 5 t +:+ "_final.xyz") →
            dir' !! n = dir !! n).
Proof.
  induction l as [|x l IH]; intros Hgood dir Hinv.
  - exists dir. split; [done|]. split; [|done].
    intros t a Ht. by apply elem_of_nil in Ht.
  - cbn [for_each].
    assert (Hgood' : ∀ t, t ∈ l → Py.endswith ".traj" t = true →
                          ∃ a, sp !! t = Some (Structure a)).
    { intros t Ht. apply Hgood. by apply list_elem_of_further. }
    destruct (Py.endswith ".traj" x) eqn:Ex; cbv beta iota.
    + destruct (Hgood x (list_elem_of_here _ _) Ex) as [ax Hax].
      assert (Hread : read_in dir x = Ok ax).
      { unfold read_in. by rewrite (Hinv x Ex), Hax. }
      rewrite Hread. cbn [mbind result_bind].
      set (dir1 := <[Py.drop_end 5 x +:+ "_final.xyz" := Structure ax]> dir).
      destruct (IH Hgood' dir1) as (dir' & Hrun & Hfin & Hrest).
      { intros t Et. unfold dir1. rewrite lookup_insert_ne; [by apply Hinv|].
        intros Heq. rewrite <- Heq, final_name_not_traj in Et. discriminate Et. }
      exists dir'. split; [exact Hrun|]. split.
      * intros t a [-> | Ht]%elem_of_cons Et Ha.
        -- destruct (decide (x ∈ l)) as [Hin|Hnin]; [by apply Hfin|].
           rewrite Hrest.
           ++ unfold dir1. rewrite lookup_insert_eq. congruence.
           ++ intros t' Ht' Et' Heq. apply final_name_inj in Heq; [|done..].
              by subst t'.
        -- by apply Hfin.
      * intros n Hn. rewrite Hrest.
        -- unfold dir1. rewrite lookup_insert_ne; [done|].
           intros Heq. by apply (Hn x (list_elem_of_here _ _) Ex).
        -- intros t Ht. apply Hn. by apply list_elem_of_further.
    + cbn [mbind result_bind].
      destruct (IH Hgood' dir Hinv) as (dir' & Hrun & Hfin & Hrest).
      exists dir'. split; [exact Hrun|]. split.
      * intros t a [-> | Ht]%elem_of_cons Et Ha; [congruence|].
        by apply Hfin.
      * intros n Hn. apply Hrest. intros t Ht. apply Hn.
        by apply list_elem_of_further.
Qed.

(** The loop of [gen_xyz_from_traj] on one species directory. *)
Lemma gen_xyz_species (speciesPath : gmap string File) :
  (∀ t f, speciesPath !! t = Some f → Py.endswith ".traj" t = true →
          ∃ a, f = Structure a) →
  ∃ speciesPath',
    for_each
      (fun (dir : gmap string File) traj =>
         if Py.endswith ".traj" traj then
           a ← read_in dir traj;
           Ok (<[Py.drop_end 5 traj +:+ "_final.xyz" := Structure a]> dir)
         else Ok dir)
      speciesPath (Py.sorted (listdir speciesPath)) = Ok speciesPath' ∧
    (∀ t a, speciesPath !! t = Some (Structure a) →
       Py.endswith ".traj" t = true →
       speciesPath' !! (Py.drop_end 5 t +:+ "_final.xyz") = Some (Structure a)) ∧
    (∀ n, (∀ t, t ∈ dom speciesPath → Py.endswith ".traj" t = true →
                n ≠ Py.drop_end 5 t +:+ "_final.xyz") →
          speciesPath' !! n = speciesPath !! n).
Proof.
  intros Hgood.
  destruct (gen_xyz_loop speciesPath (Py.sorted (listdir speciesPath)))
    with (dir := speciesPath) as (dir' & Hrun & Hfin & Hrest).
  { intros t Ht%sorted_listdir_elem Et. apply elem_of_dom in Ht as [f Hf].
    destruct (Hgood t f Hf Et) as [a ->]. by exists a. }
  { done. }
  exists dir'. split; [exact Hrun|split].
  - intros t a Ha Et. apply Hfin; [|done..].
    apply sorted_listdir_elem, elem_of_dom. by eexists.
  - intros n Hn. apply Hrest. intros t Ht%sorted_listdir_elem. by apply Hn.
Qed.

(** X10. [gen_xyz_from_traj] on a species directory whose trajectories
    are all readable: the call ends normally; afterwards every trajectory
    [x.traj] has a companion [x_final.xyz] holding the structure read
    from it; every other name of the species directory, the trajectories
    included, and every other species directory is as before. *)
Theorem gen_xyz_from_traj_companions
    (avDistPath : gmap string (gmap string File)) (species : string)
    (speciesPath : gmap string File) :
  avDistPath !! species = Some speciesPath →
  (∀ t f, speciesPath !! t = Some f → Py.endswith ".traj" t = true →
          ∃ a, f = Structure a) →
  ∃ speciesPath',
    gen_xyz_from_traj avDistPath species
    = Ok (<[species := speciesPath']> avDistPath) ∧
    (∀ t a, speciesPath !! t = Some (Structure a) →
       Py.endswith ".traj" t = true →
       speciesPath' !! (Py.drop_end 5 t +:+ "_final.xyz") = Some (Structure a)) ∧
    (∀ n, (∀ t, t ∈ dom speciesPath → Py.endswith ".traj" t = true →
                n ≠ Py.drop_end 5 t +:+ "_final.xyz") →
          speciesPath' !! n = speciesPath !! n).
Proof.
  intros Hsp Hgood.
  destruct (gen_xyz_species speciesPath Hgood) as (sp' & Hrun & Hfin & Hrest).
  exists sp'. split; [|by split].
  unfold gen_xyz_from_traj. rewrite Hsp, Hrun. done.
Qed.

Lemma gen_xyz_loop_readable (sp : gmap string File) (l : list string) :
  ∀ dir dir' : gmap string File,
    (∀ t, Py.endswith ".traj" t = true → dir !! t = sp !! t) →
    for_each
      (fun (dir : gmap string File) traj =>
         if Py.endswith ".traj" traj then
           a ← read_in dir traj;
           Ok (<[Py.drop_end 5 traj +:+ "_final.xyz" := Structure a]> dir)
         else Ok dir)
      dir l = Ok dir' →
    ∀ t, t ∈ l → Py.endswith ".traj" t = true →
         ∃ a, sp !! t = Some (Structure a).
Proof.
  induction l as [|x l IH]; intros dir dir' Hinv Hrun t Ht Et.
  - by apply elem_of_nil in Ht.
  - cbn [for_each] in Hrun.
    destruct (Py.endswith ".traj" x) eqn:Ex; cbv beta iota in Hrun.
    + destruct (read_in dir x) as [ax|] eqn:Hread; [|discriminate Hrun].
      cbn [mbind result_bind] in Hrun.
      assert (Hx : sp !! x = Some (Structure ax)).
      { rewrite <- (Hinv x Ex). unfold read_in in Hread.
        destruct (dir !! x) as [[a| |]|]; simpl in Hread; congruence. }
      apply elem_of_cons in Ht as [-> | Ht]; [by exists ax|].
      eapply (IH _ dir'); [|exact Hrun|exact Ht|exact Et].
      intros t' Et'. rewrite lookup_insert_ne; [by apply Hinv|].
      intros Heq. rewrite <- Heq, final_name_not_traj in Et'. discriminate Et'.
    + cbn [mbind result_bind] in Hrun.
      apply elem_of_cons in Ht as [-> | Ht]; [congruence|].
      by eapply (IH dir dir').
Qed.

(** A second pass over the species directory that the loop leaves. *)
Lemma gen_xyz_species_again (sp sp' : gmap string File) :
  for_each
    (fun (dir : gmap string File) traj =>
       if Py.endswith ".traj" traj then
         a ← read_in dir traj;
         Ok (<[Py.drop_end 5 traj +:+ "_final.xyz" := Structure a]> dir)
       else Ok dir)
    sp (Py.sorted (listdir sp)) = Ok sp' →
  for_each
    (fun (dir : gmap string File) traj =>
       if Py.endswith ".traj" traj then
         a ← read_in dir traj;
         Ok (<[Py.drop_end 5 traj +:+ "_final.xyz" := Structure a]> dir)
       else Ok dir)
    sp' (Py.sorted (listdir sp')) = Ok sp'.
Proof.
  intros Hloop.
  assert (Hgood : ∀ t f, sp !! t = Some f → Py.endswith ".traj" t = true →
                         ∃ a, f = Structure a).
  { intros t f Hf Et.
    destruct (gen_xyz_loop_readable sp _ sp sp' (fun _ _ => eq_refl) Hloop t)
      as [a Ha]; [|exact Et|].
    - apply sorted_listdir_elem, elem_of_dom. by eexists.
    - exists a. congruence. }
  destruct (gen_xyz_species sp Hgood) as (sp1 & Hrun' & Hfin & Hrest).
  rewrite Hloop in Hrun'. injection Hrun' as <-.
  assert (Htraj : ∀ t, Py.endswith ".traj" t = true → sp' !! t = sp !! t).
  { intros t Et. apply Hrest. intros t' _ _ Heq.
    rewrite Heq, final_name_not_traj in Et. discriminate Et. }
  destruct (gen_xyz_species sp') as (sp'' & Hrun'' & Hfin' & Hrest').
  { intros t f Hf Et. rewrite (Htraj t Et) in Hf. by eapply Hgood. }
  rewrite Hrun''. f_equal.
  apply map_eq. intros n.
  destruct (decide (Exists (fun t => Py.endswith ".traj" t = true ∧
                               n = Py.drop_end 5 t +:+ "_final.xyz")
                      (elements (dom sp')))) as [Hex|Hnex].
  - apply Exists_exists in Hex as (t & Ht & Et & ->).
    apply elem_of_elements, elem_of_dom in Ht as [f Hf].
    assert (Hf0 := Hf). rewrite (Htraj t Et) in Hf0.
    destruct (Hgood t f Hf0 Et) as [a ->].
    rewrite (Hfin' t a Hf Et). symmetry. by apply Hfin.
  - apply Hrest'. intros t Ht Et Heq. apply Hnex.
    apply Exists_exists. exists t. split; [by apply elem_of_elements|done].
Qed.

(** X11. [gen_xyz_from_traj] can be repeated: a second call on the
    directory that a successful call leaves succeeds as well and changes
    nothing (every companion file is written again with the structure it
    already holds). *)
Theorem gen_xyz_from_traj_idempotent
    (avDistPath out : gmap string (gmap string File)) (species : string) :
  gen_xyz_from_traj avDistPath species = Ok out →
  gen_xyz_from_traj out species = Ok out.
Proof.
  unfold gen_xyz_from_traj at 1.
  destruct (avDistPath !! species) as [sp|] eqn:Hsp; [|done].
  destruct (for_each _ sp (Py.sorted (listdir sp))) as [sp'|] eqn:Hloop;
    cbn [mbind result_bind]; [|done].
  intros [= <-]. unfold gen_xyz_from_traj. rewrite lookup_insert_eq.
  rewrite (gen_xyz_species_again sp sp' Hloop). cbn [mbind result_bind].
  by rewrite insert_insert_eq.
Qed.

(** X17. [get_av_dist] can be repeated: called again on the minima
    directory that a successful call leaves, it returns the same
    distance and leaves the directory as it is. *)
Theorem get_av_dist_repeatable
    (avDistPath out : gmap string (gmap string File)) (species : string)
    (scfactor_surface : Q) (scaled : bool) (m : Q) :
  get_av_dist avDistPath species scfactor_surface scaled = Ok (m, out) →
  get_av_dist out species scfactor_surface scaled = Ok (m, out).
Proof.
  unfold get_av_dist.
  destruct (gen_xyz_from_traj avDistPath species) as [avDistPath'|] eqn:Hgen;
    cbn [mbind result_bind]; [|done].
  intros Hrun.
  assert (out = avDistPath') as ->.
  { destruct (avDistPath' !! species); [|done].
    destruct (for_each _ _ _) as [st|]; cbn [mbind result_bind] in Hrun; [|done].
    destruct (meanDist st); congruence. }
  assert (Hagain : gen_xyz_from_traj avDistPath' species = Ok avDistPath').
  { unfold gen_xyz_from_traj in Hgen.
    destruct (avDistPath !! species) as [sp|] eqn:Hsp; [|done].
    destruct (for_each _ sp (Py.sorted (listdir sp))) as [sp'|] eqn:Hloop;
      cbn [mbind result_bind] in Hgen; [|done].
    injection Hgen as <-. unfold gen_xyz_from_traj. rewrite lookup_insert_eq.
    rewrite (gen_xyz_species_again sp sp' Hloop). cbn [mbind result_bind].
    by rewrite insert_insert_eq. }
  by rewrite Hagain.
Qed.

End FinalGeometries.

Lemma gen_xyz_from_traj_companions_witness :
  ∃ speciesPath',
    @gen_xyz_from_traj Demo.lib Demo.minima_O "O"
    = Ok (<["O" := speciesPath']> Demo.minima_O) ∧
    (∀ t a, Scenario.references_O !! t = Some (@Structure Demo.lib a) →
       Py.endswith ".traj" t = true →
       speciesPath' !! (Py.drop_end 5 t +:+ "_final.xyz")
       = Some (@Structure Demo.lib a)) ∧
    (∀ n, (∀ t, t ∈ dom Scenario.references_O → Py.endswith ".traj" t = true →
                n ≠ Py.drop_end 5 t +:+ "_final.xyz") →
          speciesPath' !! n = Scenario.references_O !! n).
Proof.
  apply (@gen_xyz_from_traj_companions Demo.lib Demo.minima_O "O"
           Scenario.references_O).
  - apply lookup_singleton_eq.
  - intros t f Hf _. unfold Scenario.references_O in Hf.
    apply lookup_insert_Some in Hf as [[_ <-] | [_ Hf]]; [by eexists|].
    apply lookup_singleton_Some in Hf as [_ <-]. by eexists.
Defined.

(** The run of the witness: both trajectories get their companion. *)
Example gen_xyz_from_traj_run :
  Scenario.species_listing (@gen_xyz_from_traj Demo.lib Demo.minima_O "O") "O"
  = Ok ["00.traj"; "00_final.xyz"; "01.traj"; "01_final.xyz"].
Proof. vm_compute. reflexivity. Qed.

Lemma gen_xyz_from_traj_idempotent_witness :
  @gen_xyz_from_traj Demo.lib Scenario.finals_O "O" = Ok Scenario.finals_O.
Proof.
  apply (@gen_xyz_from_traj_idempotent Demo.lib Demo.minima_O
           Scenario.finals_O "O").
  assert (Hok : match Scenario.finals_run with Ok _ => true | Err _ => false end
                = true) by (vm_compute; reflexivity).
  unfold Scenario.finals_O. fold Scenario.finals_run.
  destruct Scenario.finals_run as [out|e]; [reflexivity | discriminate Hok].
Defined.

(** The second run leaves the four files of the first. *)
Example gen_xyz_from_traj_second_run :
  Scenario.species_listing
    (@gen_xyz_from_traj Demo.lib Scenario.finals_O "O") "O"
  = Ok ["00.traj"; "00_final.xyz"; "01.traj"; "01_final.xyz"].
Proof. vm_compute. reflexivity. Qed.

(** ** The restraint bonds of a candidate *)

Section RestraintBonds.
Context `{Chem}.

Lemma restraint_bonds_from (species_list : list string)
    (d : gmap string Entry) (geom : string) (acc bonds : list (Z * Z)) :
  for_each
    (fun bonds species =>
       sp_index ← get_index_adatom species d geom;
       Cu_index ← get_index_surface_atom species d geom;
       Ok (bonds ++ [(sp_index, Cu_index)]))
    acc species_list = Ok bonds
  ↔ ∃ bs, bonds = acc ++ bs ∧
      Forall2 (fun species b =>
                 get_index_adatom species d geom = Ok b.1 ∧
                 get_index_surface_atom species d geom = Ok b.2)
        species_list bs.
Proof.
  revert acc. induction species_list as [|s l IH]; intros acc; cbn [for_each].
  - split.
    + intros [= <-]. exists []. split; [by rewrite app_nil_r|constructor].
    + intros (bs & -> & Hall). apply Forall2_nil_inv_l in Hall as ->.
      by rewrite app_nil_r.
  - split.
    + destruct (get_index_adatom s d geom) as [i|] eqn:Ei;
        cbn [mbind result_bind]; [|done].
      destruct (get_index_surface_atom s d geom) as [c|] eqn:Ec;
        cbn [mbind result_bind]; [|done].
      intros (bs & -> & Hall)%IH. exists ((i, c) :: bs). split.
      * by rewrite <- app_assoc.
      * by constructor.
    + intros (bs & -> & Hall).
      apply Forall2_cons_inv_l in Hall as ([i c] & bs' & [Hi Hc] & Hall & ->).
      cbn [fst snd] in Hi, Hc. rewrite Hi. cbn [mbind result_bind].
      rewrite Hc. cbn [mbind result_bind].
      apply IH. exists bs'. split; [by rewrite <- app_assoc|done].
Qed.

(** X12. The bond list written into the job file of a candidate: the call
    succeeds exactly when both index look-ups succeed for every species
    of the list, and then holds one pair per species, in the order of
    the list, whatever the number of species: the results of
    [get_index_adatom] and of [get_index_surface_atom] for it. *)
Theorem restraint_bonds_one_pair_per_species (species_list : list string)
    (d : gmap string Entry) (geom : string) (bonds : list (Z * Z)) :
  restraint_bonds species_list d geom = Ok bonds
  ↔ Forall2 (fun species b =>
               get_index_adatom species d geom = Ok b.1 ∧
               get_index_surface_atom species d geom = Ok b.2)
      species_list bonds.
Proof.
  unfold restraint_bonds. rewrite restraint_bonds_from. split.
  - by intros (bs & -> & Hall).
  - intros Hall. by exists bonds.
Qed.

End RestraintBonds.

(** ** The layout that the penalty-job emitter leaves *)

Lemma png_name_not_xyz (q : string) :
  Py.endswith ".xyz" (q +:+ "_initial.png") = false.
Proof. by rewrite endswith_append by (cbn; lia). Qed.

Lemma py_name_not_xyz (q : string) : Py.endswith ".xyz" (q +:+ ".py") = false.
Proof.
  destruct (Py.endswith ".xyz" (q +:+ ".py")) eqn:E; [|done].
  apply endswith_spec in E as [r Hr].
  apply (f_equal String.rev) in Hr. rewrite !rev_append in Hr.
  cbn in Hr. rewrite !append_cons in Hr. discriminate Hr.
Qed.

Lemma xyz_stem (g : string) :
  Py.endswith ".xyz" g = true → g = Py.drop_end 4 g +:+ ".xyz".
Proof.
  intros [q ->]%endswith_spec.
  change 4%nat with (String.length ".xyz"). by rewrite drop_end_append.
Qed.

Lemma xyz_stem_inj (g g' : string) :
  Py.endswith ".xyz" g = true → Py.endswith ".xyz" g' = true →
  Py.drop_end 4 g = Py.drop_end 4 g' → g = g'.
Proof.
  intros Hg Hg' Heq. rewrite (xyz_stem g Hg), (xyz_stem g' Hg'). by rewrite Heq.
Qed.

Lemma png_name_not_py (q r : string) : q +:+ "_initial.png" ≠ r +:+ ".py".
Proof.
  intros Heq. apply (f_equal String.rev) in Heq. rewrite !rev_append in Heq.
  cbn in Heq. rewrite !append_cons in Heq. discriminate Heq.
Qed.

Section PenaltyLayout.
Context `{Chem}.

Lemma os_makedirs_spec (d d1 : gmap string Entry) (p : string) :
  os_makedirs d p = Ok d1 →
  ∃ c, (d !! p = None ∧ c = ∅ ∨ d !! p = Some (EDir c)) ∧
       d1 !! p = Some (EDir c) ∧
       ∀ n, n ≠ p → d1 !! n = d !! n.
Proof.
  unfold os_makedirs. destruct (d !! p) as [[f|c]|] eqn:E; intros [= <-].
  - exists c. split; [by right|]. by split.
  - exists ∅. split; [by left|]. split; [apply lookup_insert_eq|].
    intros n Hn. by rewrite lookup_insert_ne.
Qed.

Lemma write_in_spec (d d' : gmap string Entry) (sub name : string) (f : File) :
  write_in d sub name f = Ok d' →
  ∃ c, d !! sub = Some (EDir c) ∧ d' = <[sub := EDir (<[name := f]> c)]> d.
Proof.
  unfold write_in. destruct (d !! sub) as [[f0|c]|]; intros [= <-].
  by exists c.
Qed.

Lemma shutil_move_spec (d d' : gmap string Entry) (name sub : string) :
  shutil_move d name sub = Ok d' →
  ∃ f c, d !! name = Some (EFile f) ∧ d !! sub = Some (EDir c) ∧
         c !! name = None ∧
         d' = <[sub := EDir (<[name := f]> c)]> (delete name d).
Proof.
  unfold shutil_move.
  destruct (d !! name) as [[f|c0]|]; [| |done].
  - destruct (d !! sub) as [[f0|c]|]; [done| |done].
    destruct (c !! name) eqn:Ec; [done|]. intros [= <-]. by exists f, c.
  - by destruct (d !! sub) as [[f0|c]|].
Qed.

(** One pass of the candidate loop on a name ending in ".xyz". *)
Lemma penalty_body_effect pytemplate repeats slabopt species_list
    avDist1 avDist2 (d d' : gmap string Entry) (geom : string) :
  penalty_body pytemplate repeats slabopt species_list avDist1 avDist2 d geom
  = Ok d' →
  Py.endswith ".xyz" geom = true →
  let prefix0 := Py.before_underscore geom in
  ∃ a bonds c,
    d !! geom = Some (EFile (Structure a)) ∧
    restraint_bonds species_list d geom = Ok bonds ∧
    (d !! prefix0 = None ∧ c = ∅ ∨ d !! prefix0 = Some (EDir c)) ∧
    prefix0 ≠ geom ∧
    d' !! geom = None ∧
    d' !! prefix0
    = Some (EDir (<[geom := Structure a]>
                    (<[Py.drop_end 4 geom +:+ ".py" :=
                         Script {| job_template := pytemplate; job_geom := geom;
                                   job_bonds := bonds;
                                   job_avDists := (avDist1, avDist2);
                                   job_trajPath := Py.drop_end 4 geom +:+ ".traj";
                                   job_repeats := repeats; job_prefix := prefix0;
                                   job_geomName := Py.drop_end 4 geom;
                                   job_slabopt := slabopt |}]>
                       (<[Py.drop_end 4 geom +:+ "_initial.png" := Image a]> c)))) ∧
    (∀ n, n ≠ geom → n ≠ prefix0 → d' !! n = d !! n).
Proof.
  intros Hrun Hxyz prefix0. unfold penalty_body in Hrun. rewrite Hxyz in Hrun.
  fold prefix0 in Hrun.
  destruct (restraint_bonds species_list d geom) as [bonds|] eqn:Eb;
    cbn [mbind result_bind] in Hrun; [|discriminate Hrun].
  destruct (os_makedirs d prefix0) as [d1|] eqn:E1;
    cbn [mbind result_bind] in Hrun; [|discriminate Hrun].
  destruct (read d1 geom) as [a|] eqn:Er;
    cbn [mbind result_bind] in Hrun; [|discriminate Hrun].
  destruct (write_in d1 _ _ _) as [d2|] eqn:E2;
    cbn [mbind result_bind] in Hrun; [|discriminate Hrun].
  destruct (write_in d2 _ _ _) as [d3|] eqn:E3;
    cbn [mbind result_bind] in Hrun; [|discriminate Hrun].
  apply os_makedirs_spec in E1 as (c & Hc & Hd1 & Hrest1).
  apply read_is_structure in Er.
  assert (Hne : prefix0 ≠ geom) by (intros Heq; rewrite Heq in Hd1; congruence).
  apply write_in_spec in E2 as (c1 & Hc1 & ->).
  rewrite Hd1 in Hc1. injection Hc1 as <-.
  apply write_in_spec in E3 as (c2 & Hc2 & ->).
  rewrite lookup_insert_eq in Hc2. injection Hc2 as <-.
  apply shutil_move_spec in Hrun as (f & c3 & Hf & Hc3 & Hfree & ->).
  rewrite lookup_insert_eq in Hc3. injection Hc3 as <-.
  rewrite !lookup_insert_ne in Hf by done. rewrite Er in Hf. injection Hf as <-.
  exists a, bonds, c. split; [by rewrite <- Hrest1|].
  split; [done|]. split; [done|]. split; [done|]. split; [|split].
  - rewrite lookup_insert_ne by done. apply lookup_delete_eq.
  - apply lookup_insert_eq.
  - intros n Hn1 Hn2. rewrite lookup_insert_ne by done.
    rewrite lookup_delete_ne by done. rewrite !lookup_insert_ne by done.
    by apply Hrest1.
Qed.

Lemma read_ext (d d' : gmap string Entry) (geom : string) :
  d !! geom = d' !! geom → read d geom = read d' geom.
Proof. unfold read. by intros ->. Qed.

Lemma for_each_ext {A St} (f g : St → A → result St) (st : St) (l : list A) :
  (∀ s x, f s x = g s x) → for_each f st l = for_each g st l.
Proof.
  intros Hfg. revert st. induction l as [|x l IH]; intros st; [done|].
  cbn [for_each]. rewrite Hfg. destruct (g st x); cbn [mbind result_bind]; auto.
Qed.

(** The index look-ups read the candidate file and nothing else. *)
Lemma restraint_bonds_ext species_list (d d' : gmap string Entry) geom :
  d !! geom = d' !! geom →
  restraint_bonds species_list d geom = restraint_bonds species_list d' geom.
Proof.
  intros Heq. unfold restraint_bonds. apply for_each_ext. intros bonds species.
  unfold get_index_adatom, get_index_surface_atom, readlines.
  by rewrite (read_ext d d' geom Heq).
Qed.

Lemma penalty_body_files pytemplate repeats slabopt species_list
    avDist1 avDist2 (d d' : gmap string Entry) (x : string) :
  penalty_body pytemplate repeats slabopt species_list avDist1 avDist2 d x
  = Ok d' →
  ∀ n f, d' !! n = Some (EFile f) →
         d !! n = Some (EFile f) ∧ (n = x → Py.endswith ".xyz" n = false).
Proof.
  intros Hrun n f Hn. destruct (Py.endswith ".xyz" x) eqn:Ex.
  - destruct (penalty_body_effect _ _ _ _ _ _ _ _ _ Hrun Ex)
      as (a & bonds & c & _ & _ & _ & _ & Hgone & Hdir & Hrest).
    destruct (decide (n = x)) as [->|Hnx]; [congruence|].
    destruct (decide (n = Py.before_underscore x)) as [->|Hnp]; [congruence|].
    rewrite <- (Hrest n Hnx Hnp). by split.
  - unfold penalty_body in Hrun. rewrite Ex in Hrun. injection Hrun as <-.
    split; [done|]. by intros ->.
Qed.

Lemma penalty_body_keeps_other pytemplate repeats slabopt species_list
    avDist1 avDist2 (d d' : gmap string Entry) (x g : string) :
  penalty_body pytemplate repeats slabopt species_list avDist1 avDist2 d x
  = Ok d' →
  g ≠ x → ∀ f, d' !! g = Some (EFile f) ↔ d !! g = Some (EFile f).
Proof.
  intros Hrun Hgx f. destruct (Py.endswith ".xyz" x) eqn:Ex.
  - destruct (penalty_body_effect _ _ _ _ _ _ _ _ _ Hrun Ex)
      as (a & bonds & c & _ & _ & Hc & _ & _ & Hdir & Hrest).
    destruct (decide (g = Py.before_underscore x)) as [->|Hgp].
    + rewrite Hdir. destruct Hc as [[-> _] | ->]; split; congruence.
    + by rewrite (Hrest g Hgx Hgp).
  - unfold penalty_body in Hrun. rewrite Ex in Hrun. by injection Hrun as <-.
Qed.

Lemma penalty_body_keeps_entry pytemplate repeats slabopt species_list
    avDist1 avDist2 (d d' : gmap string Entry) (x sub n : string)
    (c : gmap string File) (f : File) :
  penalty_body pytemplate repeats slabopt species_list avDist1 avDist2 d x
  = Ok d' →
  d !! sub = Some (EDir c) → c !! n = Some f →
  (Py.endswith ".xyz" x = true →
     n ≠ x ∧ n ≠ Py.drop_end 4 x +:+ "_initial.png" ∧
     n ≠ Py.drop_end 4 x +:+ ".py") →
  ∃ c', d' !! sub = Some (EDir c') ∧ c' !! n = Some f.
Proof.
  intros Hrun Hsub Hn Hfresh. destruct (Py.endswith ".xyz" x) eqn:Ex.
  - destruct (Hfresh eq_refl) as (Hn1 & Hn2 & Hn3).
    destruct (penalty_body_effect _ _ _ _ _ _ _ _ _ Hrun Ex)
      as (a & bonds & c0 & Hx & _ & Hc & _ & _ & Hdir & Hrest).
    destruct (decide (sub = Py.before_underscore x)) as [->|Hsp].
    + destruct Hc as [[Hnone _] | Hc]; [congruence|].
      rewrite Hsub in Hc. injection Hc as <-.
      eexists. split; [exact Hdir|]. by rewrite !lookup_insert_ne.
    + exists c. split; [|done]. rewrite Hrest; [done| |done].
      intros ->. congruence.
  - unfold penalty_body in Hrun. rewrite Ex in Hrun. injection Hrun as <-.
    by exists c.
Qed.

(** The candidate loop: files at the top level. *)
Lemma penalty_loop_files pytemplate repeats slabopt species_list
    avDist1 avDist2 (l : list string) :
  ∀ d d' : gmap string Entry,
    for_each
      (penalty_body pytemplate repeats slabopt species_list avDist1 avDist2)
      d l = Ok d' →
    ∀ n f, d' !! n = Some (EFile f) →
           d !! n = Some (EFile f) ∧ (n ∈ l → Py.endswith ".xyz" n = false).
Proof.
  induction l as [|x l IH]; intros d d' Hrun n f Hn.
  - injection Hrun as <-. split; [done|]. by intros ?%elem_of_nil.
  - cbn [for_each] in Hrun.
    destruct (penalty_body _ _ _ _ _ _ d x) as [d1|] eqn:Hbody;
      cbn [mbind result_bind] in Hrun; [|discriminate Hrun].
    destruct (IH d1 d' Hrun n f Hn) as [Hn1 Hl].
    destruct (penalty_body_files _ _ _ _ _ _ _ _ _ Hbody n f Hn1) as [Hn0 Hx].
    split; [done|]. intros [-> | Hin]%elem_of_cons; [by apply Hx|by apply Hl].
Qed.

(** The candidate loop: an entry of a folder stays, unless a later
    candidate writes a file of that name. *)
Lemma penalty_loop_keeps_entry pytemplate repeats slabopt species_list
    avDist1 avDist2 (l : list string) (sub n : string) (f : File) :
  (∀ y, y ∈ l → Py.endswith ".xyz" y = true →
        n ≠ y ∧ n ≠ Py.drop_end 4 y +:+ "_initial.png" ∧
        n ≠ Py.drop_end 4 y +:+ ".py") →
  ∀ (d d' : gmap string Entry) (c : gmap string File),
    for_each
      (penalty_body pytemplate repeats slabopt species_list avDist1 avDist2)
      d l = Ok d' →
    d !! sub = Some (EDir c) → c !! n = Some f →
    ∃ c', d' !! sub = Some (EDir c') ∧ c' !! n = Some f.
Proof.
  induction l as [|x l IH]; intros Hfresh d d' c Hrun Hsub Hn.
  - injection Hrun as <-. by exists c.
  - cbn [for_each] in Hrun.
    destruct (penalty_body _ _ _ _ _ _ d x) as [d1|] eqn:Hbody;
      cbn [mbind result_bind] in Hrun; [|discriminate Hrun].
    destruct (penalty_body_keeps_entry _ _ _ _ _ _ _ _ _ _ _ _ _
                Hbody Hsub Hn) as (c1 & Hsub1 & Hn1).
    { apply Hfresh, list_elem_of_here. }
    apply (IH (fun y Hy => Hfresh y (list_elem_of_further _ _ _ Hy))
             d1 d' c1 Hrun Hsub1 Hn1).
Qed.

(** The candidate loop: the folder of each candidate. *)
Lemma penalty_loop_folders pytemplate repeats slabopt species_list
    avDist1 avDist2 (l : list string) :
  NoDup l →
  ∀ d d' : gmap string Entry,
    for_each
      (penalty_body pytemplate repeats slabopt species_list avDist1 avDist2)
      d l = Ok d' →
    ∀ geom, geom ∈ l → Py.endswith ".xyz" geom = true →
      ∃ a bonds c,
        d !! geom = Some (EFile (Structure a)) ∧
        restraint_bonds species_list d geom = Ok bonds ∧
        d' !! Py.before_underscore geom = Some (EDir c) ∧
        c !! geom = Some (Structure a) ∧
        c !! (Py.drop_end 4 geom +:+ "_initial.png") = Some (Image a) ∧
        c !! (Py.drop_end 4 geom +:+ ".py")
        = Some (Script (penalty_job pytemplate repeats slabopt avDist1 avDist2
                          bonds geom)).
Proof.
  induction l as [|x l IH]; intros Hnd d d' Hrun geom Hin Hxyz.
  - by apply elem_of_nil in Hin.
  - apply NoDup_cons in Hnd as [Hxl Hnd]. cbn [for_each] in Hrun.
    destruct (penalty_body _ _ _ _ _ _ d x) as [d1|] eqn:Hbody;
      cbn [mbind result_bind] in Hrun; [|discriminate Hrun].
    apply elem_of_cons in Hin as [-> | Hin].
    + destruct (penalty_body_effect _ _ _ _ _ _ _ _ _ Hbody Hxyz)
        as (a & bonds & c0 & Hx & Hb & _ & _ & _ & Hdir & _).
      assert (Hother : ∀ y, y ∈ l → Py.endswith ".xyz" y = true →
                Py.drop_end 4 x ≠ Py.drop_end 4 y).
      { intros y Hy Ey Heq. apply xyz_stem_inj in Heq; [|done..]. by subst y. }
      assert (H1 : ∃ c', d' !! Py.before_underscore x = Some (EDir c') ∧
                         c' !! x = Some (Structure a)).
      { eapply penalty_loop_keeps_entry;
          [|exact Hrun|exact Hdir|apply lookup_insert_eq].
        intros y Hy Ey. split; [by intros ->|]. split; intros Heq.
        - rewrite Heq, png_name_not_xyz in Hxyz. discriminate Hxyz.
        - rewrite Heq, py_name_not_xyz in Hxyz. discriminate Hxyz. }
      assert (H2 : ∃ c', d' !! Py.before_underscore x = Some (EDir c') ∧
                         c' !! (Py.drop_end 4 x +:+ "_initial.png")
                         = Some (Image a)).
      { eapply penalty_loop_keeps_entry; [|exact Hrun|exact Hdir|].
        - intros y Hy Ey. split; [|split]; intros Heq.
          + rewrite <- Heq, png_name_not_xyz in Ey. discriminate Ey.
          + apply append_inj_r in Heq. by apply (Hother y Hy Ey).
          + by apply png_name_not_py in Heq.
        - rewrite lookup_insert_ne.
          + rewrite lookup_insert_ne; [apply lookup_insert_eq|].
            intros Heq. symmetry in Heq. by apply png_name_not_py in Heq.
          + intros Heq. rewrite Heq, png_name_not_xyz in Hxyz.
            discriminate Hxyz. }
      assert (H3 : ∃ c', d' !! Py.before_underscore x = Some (EDir c') ∧
                         c' !! (Py.drop_end 4 x +:+ ".py")
                         = Some (Script (penalty_job pytemplate repeats slabopt
                                           avDist1 avDist2 bonds x))).
      { eapply penalty_loop_keeps_entry; [|exact Hrun|exact Hdir|].
        - intros y Hy Ey. split; [|split]; intros Heq.
          + rewrite <- Heq, py_name_not_xyz in Ey. discriminate Ey.
          + symmetry in Heq. by apply png_name_not_py in Heq.
          + apply append_inj_r in Heq. by apply (Hother y Hy Ey).
        - rewrite lookup_insert_ne; [apply lookup_insert_eq|].
          intros Heq. rewrite Heq, py_name_not_xyz in Hxyz. discriminate Hxyz. }
      destruct H1 as (c1 & Hc1 & Hg1). destruct H2 as (c2 & Hc2 & Hg2).
      destruct H3 as (c3 & Hc3 & Hg3).
      rewrite Hc1 in Hc2, Hc3. injection Hc2 as <-. injection Hc3 as <-.
      by exists a, bonds, c1.
    + assert (Hgx : geom ≠ x) by (by intros ->).
      destruct (IH Hnd d1 d' Hrun geom Hin Hxyz)
        as (a & bonds & c & Hg & Hb & Hrest).
      assert (Hg0 : d !! geom = Some (EFile (Structure a))).
      { by apply (penalty_body_keeps_other _ _ _ _ _ _ _ _ _ _ Hbody Hgx). }
      exists a, bonds, c. split; [done|]. split; [|done].
      rewrite <- Hb. apply restraint_bonds_ext. congruence.
Qed.

Lemma sorted_listdir_NoDup {A} (d : gmap string A) :
  NoDup (Py.sorted (listdir d)).
Proof.
  unfold Py.sorted, listdir.
  rewrite (merge_sort_Permutation String.le (elements (dom d))).
  apply NoDup_elements.
Qed.

Lemma remove_initial_png_spec (d d' : gmap string Entry) :
  remove_initial_png d = Ok d' →
  (∀ n f, d' !! n = Some (EFile f) → d !! n = Some (EFile f)) ∧
  (∀ n, n ≠ "initial_png" → d' !! n = d !! n).
Proof.
  unfold remove_initial_png.
  destruct (d !! "initial_png") as [[f0|c]|] eqn:E; intros [= <-]; [|done].
  split.
  - by intros n f [_ Hn]%lookup_delete_Some.
  - intros n Hn. by rewrite lookup_delete_ne.
Qed.

(** X13. After a run of [set_up_penalty_xtb] that ends normally no
    candidate is left beside the folders: every regular file found at
    the top of the directory was there before the run, unchanged, and
    its name does not end in ".xyz". Such a run had at least two
    species in its list. *)
Theorem penalty_setup_leaves_no_candidate
    (avPath avPath' : gmap string (gmap string File))
    (path d' : gmap string Entry) (pytemplate : string)
    (repeats : Z * Z * Z) (slabopt : string) (species_list : list string)
    (scfactor_surface : Q) (scaled1 scaled2 : bool) :
  set_up_penalty_xtb avPath path pytemplate repeats slabopt species_list
    scfactor_surface scaled1 scaled2 = Ok (avPath', d') →
  (2 ≤ length species_list)%nat ∧
  ∀ n f, d' !! n = Some (EFile f) →
         path !! n = Some (EFile f) ∧ Py.endswith ".xyz" n = false.
Proof.
  unfold set_up_penalty_xtb, item.
  destruct (species_list !! 0%nat) as [species0|] eqn:E0; simpl; [|done].
  destruct (get_av_dist avPath species0 _ _) as [[avDist1 avPath1]|] eqn:Ea1;
    simpl; [|done].
  destruct (species_list !! 1%nat) as [species1|] eqn:E1; simpl; [|done].
  destruct (get_av_dist avPath1 species1 _ _) as [[avDist2 avPath2]|] eqn:Ea2;
    simpl; [|done].
  destruct (for_each _ path _) as [d1|] eqn:Eloop; simpl; [|done].
  destruct (remove_initial_png d1) as [d2|] eqn:Erm; simpl; [|done].
  intros [= <- <-]. split.
  - apply lookup_lt_Some in E1. lia.
  - intros n f Hn.
    apply (proj1 (remove_initial_png_spec _ _ Erm)) in Hn.
    destruct (penalty_loop_files _ _ _ _ _ _ _ _ _ Eloop n f Hn) as [Hn0 Hxyz].
    split; [done|]. apply Hxyz, sorted_listdir_elem, elem_of_dom. by eexists.
Qed.

(** X14. After a run of [set_up_penalty_xtb] that ends normally every
    candidate (a top-level name ending in ".xyz") whose prefix is not
    "initial_png" is found in the folder named by its prefix, with the
    structure it held before the run; beside it are the picture of that
    structure and the job file, whose bond list is the one computed
    from the candidate and whose other fields are those of the call.
    All job files carry the same pair of target distances. *)
Theorem penalty_setup_fills_folders
    (avPath avPath' : gmap string (gmap string File))
    (path d' : gmap string Entry) (pytemplate : string)
    (repeats : Z * Z * Z) (slabopt : string) (species_list : list string)
    (scfactor_surface : Q) (scaled1 scaled2 : bool) :
  set_up_penalty_xtb avPath path pytemplate repeats slabopt species_list
    scfactor_surface scaled1 scaled2 = Ok (avPath', d') →
  ∃ avDist1 avDist2,
    ∀ geom, geom ∈ dom path → Py.endswith ".xyz" geom = true →
      Py.before_underscore geom ≠ "initial_png" →
      ∃ a bonds c,
        path !! geom = Some (EFile (Structure a)) ∧
        restraint_bonds species_list path geom = Ok bonds ∧
        d' !! Py.before_underscore geom = Some (EDir c) ∧
        c !! geom = Some (Structure a) ∧
        c !! (Py.drop_end 4 geom +:+ "_initial.png") = Some (Image a) ∧
        c !! (Py.drop_end 4 geom +:+ ".py")
        = Some (Script (penalty_job pytemplate repeats slabopt avDist1 avDist2
                          bonds geom)).
Proof.
  unfold set_up_penalty_xtb, item.
  destruct (species_list !! 0%nat) as [species0|] eqn:E0; simpl; [|done].
  destruct (get_av_dist avPath species0 _ _) as [[avDist1 avPath1]|] eqn:Ea1;
    simpl; [|done].
  destruct (species_list !! 1%nat) as [species1|] eqn:E1; simpl; [|done].
  destruct (get_av_dist avPath1 species1 _ _) as [[avDist2 avPath2]|] eqn:Ea2;
    simpl; [|done].
  destruct (for_each _ path _) as [d1|] eqn:Eloop; simpl; [|done].
  destruct (remove_initial_png d1) as [d2|] eqn:Erm; simpl; [|done].
  intros [= <- <-]. exists avDist1, avDist2. intros geom Hin Hxyz Hpre.
  destruct (penalty_loop_folders _ _ _ _ _ _ _ (sorted_listdir_NoDup path)
              _ _ Eloop geom) as (a & bonds & c & Hg & Hb & Hdir & Hrest);
    [by apply sorted_listdir_elem|done|].
  exists a, bonds, c. split; [done|]. split; [done|]. split; [|done].
  by rewrite (proj2 (remove_initial_png_spec _ _ Erm) _ Hpre).
Qed.

End PenaltyLayout.

Lemma penalty_setup_leaves_no_candidate_witness :
  (2 ≤ length ["O"; "H"])%nat ∧
  ∀ n f, Demo.penalty_out.2 !! n = Some (@EFile Demo.lib f) →
         Demo.candidates_dir !! n = Some (@EFile Demo.lib f) ∧
         Py.endswith ".xyz" n = false.
Proof.
  apply (@penalty_setup_leaves_no_candidate Demo.lib Demo.minima_OH
           Demo.penalty_out.1 Demo.candidates_dir Demo.penalty_out.2
           "template" (3, 3, 1) "slab_opt.xyz" ["O"; "H"] (11 # 10) true false).
  assert (Hok : match Demo.penalty_run with Ok _ => true | Err _ => false end
                = true) by (vm_compute; reflexivity).
  unfold Demo.penalty_out. fold Demo.penalty_run.
  destruct Demo.penalty_run as [[avPath' d']|e]; [reflexivity | discriminate Hok].
Defined.

Lemma penalty_setup_fills_folders_witness :
  ∃ avDist1 avDist2,
    ∀ geom, geom ∈ dom Demo.candidates_dir → Py.endswith ".xyz" geom = true →
      Py.before_underscore geom ≠ "initial_png" →
      ∃ a bonds c,
        Demo.candidates_dir !! geom = Some (@EFile Demo.lib (@Structure Demo.lib a)) ∧
        @restraint_bonds Demo.lib ["O"; "H"] Demo.candidates_dir geom = Ok bonds ∧
        Demo.penalty_out.2 !! Py.before_underscore geom = Some (@EDir Demo.lib c) ∧
        c !! geom = Some (@Structure Demo.lib a) ∧
        c !! (Py.drop_end 4 geom +:+ "_initial.png") = Some (@Image Demo.lib a) ∧
        c !! (Py.drop_end 4 geom +:+ ".py")
        = Some (@Script Demo.lib
                  (penalty_job "template" (3, 3, 1) "slab_opt.xyz"
                     avDist1 avDist2 bonds geom)).
Proof.
  apply (@penalty_setup_fills_folders Demo.lib Demo.minima_OH
           Demo.penalty_out.1 Demo.candidates_dir Demo.penalty_out.2
           "template" (3, 3, 1) "slab_opt.xyz" ["O"; "H"] (11 # 10) true false).
  assert (Hok : match Demo.penalty_run with Ok _ => true | Err _ => false end
                = true) by (vm_compute; reflexivity).
  unfold Demo.penalty_out. fold Demo.penalty_run.
  destruct Demo.penalty_run as [[avPath' d']|e]; [reflexivity | discriminate Hok].
Defined.

(** ** A single reference minimum *)

Lemma traj_name_not_final (t : string) :
  Py.endswith ".traj" t = true → Py.endswith "_final.xyz" t = false.
Proof.
  intros [q ->]%endswith_spec.
  destruct (Py.endswith "_final.xyz" (q +:+ ".traj")) eqn:E; [|done].
  apply endswith_spec in E as [r Hr].
  apply (f_equal String.rev) in Hr. rewrite !rev_append in Hr.
  cbn in Hr. rewrite !append_cons in Hr. discriminate Hr.
Qed.

Lemma final_name_is_final (q : string) :
  Py.endswith "_final.xyz" (q +:+ "_final.xyz") = true.
Proof. apply endswith_spec. by exists q. Qed.

Lemma sorted_singleton (x : string) (l : list string) :
  l ≡ₚ [x] → Py.sorted l = [x].
Proof.
  intros Hl. apply Permutation_singleton_r. unfold Py.sorted.
  by rewrite merge_sort_Permutation.
Qed.

Section SingleReference.
Context `{Chem}.

(** X15. With a single reference trajectory in the species directory
    [get_av_dist] returns what the per-structure reading gives: the least
    distance from the first matching fragment atom of that structure to
    its surface atoms, scaled on request; a failure of that measurement
    is the failure of the call. *)
Theorem get_av_dist_single_reference
    (avDistPath : gmap string (gmap string File)) (species t : string)
    (a : Atoms) (scfactor_surface : Q) (scaled : bool) :
  avDistPath !! species = Some {[ t := Structure a ]} →
  Py.endswith ".traj" t = true →
  returned (get_av_dist avDistPath species scfactor_surface scaled)
  = av_dist_spec [a] (av_dist_symbol species) scfactor_surface scaled.
Proof.
  intros Hsp Et.
  set (fin := Py.drop_end 5 t +:+ "_final.xyz").
  assert (Hne : fin ≠ t).
  { intros Heq. pose proof (final_name_not_traj t) as Hf. fold fin in Hf.
    rewrite Heq in Hf. congruence. }
  assert (Hgen : gen_xyz_from_traj avDistPath species
                 = Ok (<[species := <[fin := Structure a]> {[ t := Structure a ]}]>
                         avDistPath)).
  { unfold gen_xyz_from_traj. rewrite Hsp.
    rewrite (sorted_singleton t).
    - cbn [for_each]. rewrite Et. unfold read_in.
      rewrite lookup_singleton_eq. done.
    - unfold listdir. by rewrite dom_singleton_L, elements_singleton. }
  unfold get_av_dist. rewrite Hgen. cbn [mbind result_bind].
  rewrite lookup_insert_eq.
  set (sp' := <[fin := Structure a]> {[ t := Structure a ]}).
  assert (Hread : read_in sp' fin = Ok a).
  { unfold read_in, sp'. by rewrite lookup_insert_eq. }
  assert (Hperm : Py.sorted (listdir sp') ≡ₚ [fin; t]).
  { unfold Py.sorted, listdir, sp'. rewrite merge_sort_Permutation.
    rewrite dom_insert_L, dom_singleton_L.
    rewrite elements_union_singleton by set_solver.
    by rewrite elements_singleton. }
  assert (Hfin : Py.endswith "_final.xyz" fin = true)
    by apply final_name_is_final.
  pose proof (traj_name_not_final t Et) as Hskip.
  unfold av_dist_spec, structure_min_dist. cbn [for_each].
  symmetry in Hperm. apply Permutation_length_2_inv in Hperm as [-> | ->];
    cbn [for_each]; unfold av_dist_body; rewrite ?Hfin, ?Hskip;
    cbn [mbind result_bind]; rewrite ?Hfin, ?Hskip, Hread;
    cbn [mbind result_bind surface_atoms_indices adsorbate_atoms_indices];
    destruct (scan_surface _ _ [] []) as [surf ads];
    destruct (first ads) as [a0|]; cbn [mbind result_bind]; try done;
    destruct (get_distances a a0 surf) as [ds|]; cbn [mbind result_bind];
      try done;
    destruct (Qlist_min ds) as [dist|]; cbn [mbind result_bind]; try done;
    rewrite ?Hfin, ?Hskip; done.
Qed.

End SingleReference.

Lemma get_av_dist_single_reference_witness :
  returned (@get_av_dist Demo.lib Demo.minima_OH "H" (11 # 10) true)
  = @av_dist_spec Demo.lib [Demo.ref_H] (@av_dist_symbol "H") (11 # 10) true.
Proof.
  apply (@get_av_dist_single_reference Demo.lib Demo.minima_OH "H" "00.traj"
           Demo.ref_H (11 # 10) true).
  - unfold Demo.minima_OH. rewrite lookup_insert_ne by discriminate.
    apply lookup_singleton_eq.
  - reflexivity.
Defined.

(** ** The fragment placed for a reaction A + B -> C *)

Section AssociationCandidate.
Context `{Chem}.

(** X16. A document with the single reaction A + B -> C (two reactants,
    one product, one bond list each): the products side is chosen and
    announced by the one line printed, and
    the fragment taken from [images[2]] is the 3-D structure of the
    product C exactly when A, B and C are not isomorphic to one another
    (B to A, C to A, C to B); otherwise fewer than three images were kept
    and the look-up raises [IndexError]. *)
Theorem association_candidate (self : TS) (r1 r2 p : Atoms) (b1 b2 bp : Bonds) :
  yamlfile self
  = [{| reactants := [r1; r2]; rbonds := [b1; b2];
        products := [p]; pbonds := [bp] |}] →
  ∃ images,
    prepare_react_list self
    = Ok ((symbols r1 +:+ "+" +:+ symbols r2) +:+ "_" +:+ symbols p, "products",
          [symbols r1; symbols r2], [symbols p], images,
          ["Products will be used to estimate TS"]) ∧
    choose_TS_candidate [symbols r1; symbols r2] [symbols p] images
    = if negb (is_isomorphic r2 r1) && negb (is_isomorphic p r1)
         && negb (is_isomorphic p r2)
      then Ok (get_3D_positions p) else Err IndexError.
Proof.
  intros Hdoc. unfold prepare_react_list. rewrite Hdoc.
  cbn [last flat_map reactants products rbonds pbonds app map join_plus].
  unfold unique_images.
  cbn [zip zip_with fold_left existsb app].
  unfold choose_rpDir, announce_rpDir, choose_TS_candidate, item.
  cbn [length Nat.ltb Nat.leb].
  destruct (is_isomorphic r2 r1) eqn:E21; cbn [orb negb andb existsb app].
  - destruct (is_isomorphic p r1) eqn:Ep1; cbn [orb negb andb existsb app];
      eexists; (split; [reflexivity|done]).
  - destruct (is_isomorphic p r1) eqn:Ep1; cbn [orb negb andb existsb app].
    + eexists. split; [reflexivity|done].
    + destruct (is_isomorphic p r2) eqn:Ep2; cbn [orb negb andb existsb app];
        eexists; (split; [reflexivity|done]).
Qed.

End AssociationCandidate.

Lemma association_candidate_witness :
  ∃ images,
    @prepare_react_list Scenario.lib Scenario.association
    = Ok ("O+H_OH", "products", ["O"; "H"], ["OH"], images,
          ["Products will be used to estimate TS"]) ∧
    @choose_TS_candidate Scenario.lib ["O"; "H"] ["OH"] images
    = Ok (@get_3D_positions Scenario.lib (Demo.mk "OH")).
Proof.
  exact (@association_candidate Scenario.lib Scenario.association
           (Demo.mk "O") (Demo.mk "H") (Demo.mk "OH") tt tt tt eq_refl).
Defined.

Lemma get_av_dist_repeatable_witness :
  @get_av_dist Demo.lib Scenario.av_H.2 "H" (11 # 10) true
  = Ok (Scenario.av_H.1, Scenario.av_H.2).
Proof.
  apply (@get_av_dist_repeatable Demo.lib Demo.minima_OH Scenario.av_H.2 "H"
           (11 # 10) true Scenario.av_H.1).
  assert (Hok : match Scenario.av_H_run with Ok _ => true | Err _ => false end
                = true) by (vm_compute; reflexivity).
  unfold Scenario.av_H. fold Scenario.av_H_run.
  destruct Scenario.av_H_run as [[m out]|e]; [reflexivity | discriminate Hok].
Defined.
